(** * Content validation and build-optimisation utilities

    A shallow embedding of the three utility modules of the site
    ([src/utils/buildOptimization.ts], [src/utils/dataLoader.ts] and
    [src/utils/contentValidator.ts]) together with the parts of the
    JavaScript and Node runtime they rely on, followed by the properties
    proved about them.

    Conventions of the embedding:
    - a JavaScript string is a [string]; each character stands for one code
      unit in the Latin-1 range, so [String.length] is [.length];
    - a JavaScript number is a [jsnum]: [NaN], the two infinities, or an
      exact rational (rounding of binary64 and signed zeros are not
      modelled);
    - the file system is a snapshot tree, paths are lists of segments and
      [path.join] is concatenation of segment lists (POSIX, already
      normalised paths);
    - code that can throw returns an [outcome]; [try]/[catch] is a match on
      it. *)

From Stdlib Require Import ZArith QArith Qround Lia Lqa List Ascii String Bool.
From stdpp Require Import base gmap strings.

Local Open Scope string_scope.

(** ** JavaScript numbers *)

Module JsNum.

Local Open Scope Q_scope.

Inductive jsnum : Type :=
| NaN
| PInf
| NInf
| Fin (q : Q).

Definition Qltb (x y : Q) : bool := negb (Qle_bool y x).
Definition Qis0 (x : Q) : bool := Qeq_bool x 0.

Definition of_nat (n : nat) : jsnum := Fin (inject_Z (Z.of_nat n)).

(** [a + b] *)
Definition add (a b : jsnum) : jsnum :=
  match a, b with
  | NaN, _ | _, NaN => NaN
  | PInf, NInf | NInf, PInf => NaN
  | PInf, _ | _, PInf => PInf
  | NInf, _ | _, NInf => NInf
  | Fin x, Fin y => Fin (x + y)
  end.

Definition sign_inf (positive : bool) : jsnum := if positive then PInf else NInf.

(** [a * b] *)
Definition mul (a b : jsnum) : jsnum :=
  match a, b with
  | NaN, _ | _, NaN => NaN
  | Fin x, Fin y => Fin (x * y)
  | PInf, PInf | NInf, NInf => PInf
  | PInf, NInf | NInf, PInf => NInf
  | PInf, Fin y | Fin y, PInf =>
      if Qis0 y then NaN else sign_inf (Qltb 0 y)
  | NInf, Fin y | Fin y, NInf =>
      if Qis0 y then NaN else sign_inf (Qltb y 0)
  end.

(** [a / b]: [0 / 0] is [NaN], a non-zero number over zero is infinite. *)
Definition div (a b : jsnum) : jsnum :=
  match a, b with
  | NaN, _ | _, NaN => NaN
  | Fin x, Fin y =>
      if Qis0 y then (if Qis0 x then NaN else sign_inf (Qltb 0 x))
      else Fin (x / y)
  | Fin _, (PInf | NInf) => Fin 0
  | (PInf | NInf), (PInf | NInf) => NaN
  | PInf, Fin y => sign_inf (negb (Qltb y 0))
  | NInf, Fin y => sign_inf (Qltb y 0)
  end.

(** [a < b]: every comparison with [NaN] is false. *)
Definition lt (a b : jsnum) : bool :=
  match a, b with
  | NaN, _ | _, NaN => false
  | _, NInf => false
  | PInf, _ => false
  | NInf, _ => true
  | Fin _, PInf => true
  | Fin x, Fin y => Qltb x y
  end.

(** [Math.round]: the nearest integer, ties towards plus infinity. *)
Definition round (a : jsnum) : jsnum :=
  match a with
  | Fin x => Fin (inject_Z (Qfloor (x + (1 # 2))))
  | other => other
  end.

End JsNum.
Import JsNum.

(** ** JavaScript strings *)

Module JsString.

Definition code (c : ascii) : N := N_of_ascii c.

Definition chr (n : N) : ascii := ascii_of_N n.

(** The class [\s] restricted to Latin-1: TAB, LF, VT, FF, CR, space and
    the no-break space. *)
Definition is_space (c : ascii) : bool :=
  let n := code c in
  ((9 <=? n) && (n <=? 13) || (n =? 32) || (n =? 160))%N.

Definition is_newline (c : ascii) : bool := (code c =? 10)%N.

(** [String.prototype.toLowerCase] on one Latin-1 code unit. *)
Definition lower_char (c : ascii) : ascii :=
  let n := code c in
  if ((65 <=? n) && (n <=? 90)
      || (192 <=? n) && (n <=? 222) && negb (n =? 215))%N
  then chr (n + 32) else c.

Fixpoint toLowerCase (s : string) : string :=
  match s with
  | EmptyString => EmptyString
  | String c r => String (lower_char c) (toLowerCase r)
  end.

(** [s.startsWith(p)] *)
Fixpoint startsWith (p s : string) : bool :=
  match p, s with
  | EmptyString, _ => true
  | String a p', String b s' => Ascii.eqb a b && startsWith p' s'
  | String _ _, EmptyString => false
  end.

(** What follows the prefix [p] in [s], when [s] starts with [p]. *)
Fixpoint strip_prefix (p s : string) : option string :=
  match p, s with
  | EmptyString, _ => Some s
  | String a p', String b s' =>
      if Ascii.eqb a b then strip_prefix p' s' else None
  | String _ _, EmptyString => None
  end.

(** [s.includes(p)] *)
Fixpoint includes (p s : string) : bool :=
  startsWith p s ||
  match s with
  | EmptyString => false
  | String _ r => includes p r
  end.

(** [(s.match(/\n/g) || []).length] *)
Fixpoint count_newlines (s : string) : nat :=
  match s with
  | EmptyString => 0
  | String c r => (if is_newline c then 1 else 0) + count_newlines r
  end.

(** [(s.match(/\s{2,}/g) || []).length]: the quantifier is greedy, so every
    maximal run of at least two white-space characters is one match.
    [run] is the length of the white-space run that ends just before [s]. *)
Fixpoint count_space_runs_from (run : nat) (s : string) : nat :=
  match s with
  | EmptyString => if (2 <=? run)%nat then 1 else 0
  | String c r =>
      if is_space c then count_space_runs_from (S run) r
      else (if (2 <=? run)%nat then 1 else 0) + count_space_runs_from 0 r
  end.

Definition count_space_runs (s : string) : nat := count_space_runs_from 0 s.

(** [(s.match(/\/\*|\*\/|\/\//g) || []).length]: matches are searched left
    to right and do not overlap; each has two characters. [skip] tells
    that the current character is the second one of the previous match. *)
Definition is_comment_marker (a b : ascii) : bool :=
  (Ascii.eqb a "/" && Ascii.eqb b "*")
  || (Ascii.eqb a "*" && Ascii.eqb b "/")
  || (Ascii.eqb a "/" && Ascii.eqb b "/").

Fixpoint count_comment_markers_from (skip : bool) (s : string) : nat :=
  match s with
  | EmptyString => 0
  | String a r =>
      if skip then count_comment_markers_from false r
      else
        match r with
        | EmptyString => 0
        | String b _ =>
            if is_comment_marker a b
            then 1 + count_comment_markers_from true r
            else count_comment_markers_from false r
        end
  end.

Definition count_comment_markers (s : string) : nat :=
  count_comment_markers_from false s.

(** [l.join(sep)] *)
Definition join (sep : string) (l : list string) : string := String.concat sep l.

End JsString.
Import JsString.

(** ** Node's [path] module (POSIX flavour) *)

Module NodePath.

Local Open Scope Z_scope.

(** The variables of the loop of [path.extname]. *)
Record ext_state : Type := ExtState {
  startDot : Z;
  startPart : Z;
  endPos : Z;
  matchedSlash : bool;
  preDotState : Z;
  stopped : bool
}.

Definition ext_init : ext_state :=
  {| startDot := -1; startPart := 0; endPos := -1; matchedSlash := true;
     preDotState := 0; stopped := false |}.

(** One iteration of the loop, at index [i] holding character [c]. *)
Definition ext_step (st : ext_state) (i : Z) (c : ascii) : ext_state :=
  if Ascii.eqb c "/" then
    if negb (matchedSlash st) then
      {| startDot := startDot st; startPart := i + 1; endPos := endPos st;
         matchedSlash := matchedSlash st; preDotState := preDotState st;
         stopped := true |}
    else st
  else
    let st1 :=
      if endPos st =? -1 then
        {| startDot := startDot st; startPart := startPart st; endPos := i + 1;
           matchedSlash := false; preDotState := preDotState st;
           stopped := stopped st |}
      else st in
    if Ascii.eqb c "." then
      if startDot st1 =? -1 then
        {| startDot := i; startPart := startPart st1; endPos := endPos st1;
           matchedSlash := matchedSlash st1; preDotState := preDotState st1;
           stopped := stopped st1 |}
      else if negb (preDotState st1 =? 1) then
        {| startDot := startDot st1; startPart := startPart st1;
           endPos := endPos st1; matchedSlash := matchedSlash st1;
           preDotState := 1; stopped := stopped st1 |}
      else st1
    else if negb (startDot st1 =? -1) then
      {| startDot := startDot st1; startPart := startPart st1;
         endPos := endPos st1; matchedSlash := matchedSlash st1;
         preDotState := -1; stopped := stopped st1 |}
    else st1.

(** The loop [for (i = path.length - 1; i >= 0; --i)], run over the
    characters in reverse order; [i] is the index of the head. *)
Fixpoint ext_loop (rev_chars : list ascii) (i : Z) (st : ext_state) : ext_state :=
  match rev_chars with
  | nil => st
  | c :: rest =>
      let st' := ext_step st i c in
      if stopped st' then st' else ext_loop rest (i - 1) st'
  end.

(** [path.extname(p)] *)
Definition extname (p : string) : string :=
  let chars := list_ascii_of_string p in
  let st := ext_loop (rev chars) (Z.of_nat (List.length chars) - 1) ext_init in
  if (startDot st =? -1) || (endPos st =? -1) || (preDotState st =? 0)
     || ((preDotState st =? 1) && (startDot st =? endPos st - 1)
         && (startDot st =? startPart st + 1))
  then ""%string
  else substring (Z.to_nat (startDot st))
                 (Z.to_nat (endPos st - startDot st)) p.

(** A path of the model: the list of its segments. *)
Definition path : Type := list string.

(** [path.join(a, b)] *)
Definition join (a b : path) : path := (a ++ b)%list.

(** [path.basename(p)] *)
Definition basename (p : path) : string := List.last p ""%string.

(** The path as the string the program sees. *)
Definition to_string (p : path) : string := JsString.join "/" p.

End NodePath.

(** ** Exceptions *)

(** The result of running code that may throw; [Throw] carries the message
    of the error. *)
Inductive outcome (A : Type) : Type :=
| Ok (value : A)
| Throw (message : string).
Arguments Ok {A} value.
Arguments Throw {A} message.

(** ** Node's [fs] module over a snapshot of the file system *)

Module Fs.

(** A regular file with its size in bytes, its modification time in epoch
    milliseconds and its text; a directory with its entries in the order
    [readdirSync] lists them; anything else (socket, device). *)
#[warnings="-register-all"]
Inductive node : Type :=
| File (size : N) (mtimeMs : Z) (content : string)
| Dir (entries : list (string * node))
| Special.

Definition dirent : Type := (string * node)%type.

Definition name (e : dirent) : string := fst e.

Definition isFile (e : dirent) : bool :=
  match snd e with File _ _ _ => true | _ => false end.

Fixpoint lookup_entry (n : string) (es : list dirent) : option node :=
  match es with
  | nil => None
  | (m, c) :: rest => if String.eqb m n then Some c else lookup_entry n rest
  end.

(** The node a path leads to, from the root [fs]. *)
Fixpoint resolve (fs : node) (p : NodePath.path) : option node :=
  match p with
  | nil => Some fs
  | seg :: rest =>
      match fs with
      | Dir es =>
          match lookup_entry seg es with
          | Some c => resolve c rest
          | None => None
          end
      | _ => None
      end
  end.

Definition existsSync (fs : node) (p : NodePath.path) : bool :=
  match resolve fs p with Some _ => true | None => false end.

Definition readFileSync (fs : node) (p : NodePath.path) : outcome string :=
  match resolve fs p with
  | Some (File _ _ content) => Ok content
  | Some (Dir _) => Throw "EISDIR: illegal operation on a directory, read"
  | Some Special => Throw "EINVAL: invalid argument, read"
  | None => Throw "ENOENT: no such file or directory"
  end.

Definition readdirSync (fs : node) (p : NodePath.path) : outcome (list dirent) :=
  match resolve fs p with
  | Some (Dir es) => Ok es
  | Some _ => Throw "ENOTDIR: not a directory, scandir"
  | None => Throw "ENOENT: no such file or directory, scandir"
  end.

(** Names are unique inside a directory, all the way down. *)
Fixpoint unique_names (ns : list string) : bool :=
  match ns with
  | nil => true
  | n :: rest => negb (existsb (String.eqb n) rest) && unique_names rest
  end.

Fixpoint well_formed (n : node) : bool :=
  match n with
  | Dir es =>
      unique_names (map fst es) &&
      (fix all (l : list dirent) : bool :=
         match l with
         | nil => true
         | (_, c) :: rest => well_formed c && all rest
         end) es
  | _ => true
  end.

End Fs.

(** ** [src/utils/buildOptimization.ts] *)

Module BuildOptimization.

Inductive AssetType : Type := html | css | js | image | other.

Definition AssetType_eqb (a b : AssetType) : bool :=
  match a, b with
  | html, html | css, css | js, js | image, image | other, other => true
  | _, _ => false
  end.

Record AssetInfo : Type := {
  path : NodePath.path;
  size : N;
  type : AssetType;
  hasHash : bool
}.

Record Summary : Type := {
  totalFiles : nat;
  totalSize : N;
  htmlFiles : nat;
  cssFiles : nat;
  jsFiles : nat;
  imageFiles : nat;
  otherFiles : nat;
  hashedAssets : nat;
  averageHtmlSize : jsnum;
  averageCssSize : jsnum;
  averageJsSize : jsnum
}.

Record OptimizationChecks : Type := {
  allAssetsHashed : bool;
  htmlMinified : bool;
  cssMinified : bool;
  jsMinified : bool
}.

Record BuildReport : Type := {
  timestamp : string;
  outputDir : NodePath.path;
  assets : list AssetInfo;
  summary : Summary;
  optimizationChecks : OptimizationChecks
}.

Definition image_extensions : list string :=
  [".jpg"; ".jpeg"; ".png"; ".gif"; ".webp"; ".svg"; ".avif"; ".ico"].

Definition getAssetType (filePath : string) : AssetType :=
  let ext := toLowerCase (NodePath.extname filePath) in
  if String.eqb ext ".html" || String.eqb ext ".htm" then html
  else if String.eqb ext ".css" then css
  else if String.eqb ext ".js" || String.eqb ext ".mjs" then js
  else if existsb (String.eqb ext) image_extensions then image
  else other.

(** The classes of [/[._-][a-f0-9]{8,}\./i]. *)
Definition is_separator (c : ascii) : bool :=
  Ascii.eqb c "." || Ascii.eqb c "_" || Ascii.eqb c "-".

Definition is_hex (c : ascii) : bool :=
  let n := code c in
  ((48 <=? n) && (n <=? 57) || (97 <=? n) && (n <=? 102)
   || (65 <=? n) && (n <=? 70))%N.

(** [[a-f0-9]{8,}\.] at the start of [s], with [n] hexadecimal characters
    already consumed: the quantifier takes the whole run, and giving
    characters back cannot help since the next one must be a dot. *)
Fixpoint hex_run_then_dot (n : nat) (s : string) : bool :=
  match s with
  | EmptyString => false
  | String c r =>
      if is_hex c then hex_run_then_dot (S n) r
      else Ascii.eqb c "." && (8 <=? n)%nat
  end.

(** The pattern matched at the start of [s]. *)
Definition hash_at (s : string) : bool :=
  match s with
  | EmptyString => false
  | String c r => is_separator c && hex_run_then_dot 0 r
  end.

(** [hashPattern.test(filename)]: a match at some position. *)
Fixpoint hasContentHash (filename : string) : bool :=
  hash_at filename ||
  match filename with
  | EmptyString => false
  | String _ r => hasContentHash r
  end.

Definition isHtmlMinified (content : string) : bool :=
  let newlineCount := count_newlines content in
  let contentLength := String.length content in
  if (contentLength <? 200)%nat then true
  else JsNum.lt (JsNum.div (of_nat newlineCount) (of_nat contentLength))
                (Fin (2 # 100)).

Definition isCssMinified (content : string) : bool :=
  let whitespaceRatio :=
    JsNum.div (of_nat (count_space_runs content))
              (of_nat (String.length content)) in
  JsNum.lt whitespaceRatio (Fin (1 # 1000)).

Definition isJsMinified (content : string) : bool :=
  let newlineCount := count_newlines content in
  let commentCount := count_comment_markers content in
  let contentLength := String.length content in
  if (contentLength <? 100)%nat then true
  else JsNum.lt (JsNum.div (JsNum.add (of_nat newlineCount) (of_nat commentCount))
                           (of_nat contentLength))
                (Fin (5 # 1000)).

(** What [collectFiles] pushes for one directory entry whose path
    relative to [baseDir] is [relativePath]: the recursive call on a
    directory runs the loop over that directory's own entries. *)
Fixpoint collect_entry (relativePath : NodePath.path) (entry_name : string)
    (child : Fs.node) : list AssetInfo :=
  match child with
  | Fs.Dir sub =>
      (fix loop (entries : list Fs.dirent) : list AssetInfo :=
         match entries with
         | nil => nil
         | (n, c) :: rest =>
             (collect_entry (NodePath.join relativePath [n]) n c ++ loop rest)%list
         end) sub
  | Fs.File sz _ _ =>
      [ {| path := relativePath; size := sz;
           type := getAssetType entry_name;
           hasHash := hasContentHash entry_name |} ]
  | Fs.Special => nil
  end.

(** The loop [for (const entry of entries)] of a directory at [rel]. *)
Fixpoint collect_entries (rel : NodePath.path) (entries : list Fs.dirent)
  : list AssetInfo :=
  match entries with
  | nil => nil
  | (n, c) :: rest =>
      (collect_entry (NodePath.join rel [n]) n c ++ collect_entries rel rest)%list
  end.

Definition collectFiles (fs : Fs.node) (dir : NodePath.path)
  : outcome (list AssetInfo) :=
  if negb (Fs.existsSync fs dir) then Ok nil
  else
    match Fs.readdirSync fs dir with
    | Ok entries => Ok (collect_entries nil entries)
    | Throw m => Throw m
    end.

Definition of_type (t : AssetType) (a : AssetInfo) : bool :=
  AssetType_eqb (type a) t.

(** One of the three sampling loops: read each sampled file and stop with
    [false] at the first one that fails [check]. *)
Fixpoint sample_minified (fs : Fs.node) (outputDir : NodePath.path)
    (check : string -> bool) (sample : list AssetInfo) : outcome bool :=
  match sample with
  | nil => Ok true
  | asset :: rest =>
      match Fs.readFileSync fs (NodePath.join outputDir (path asset)) with
      | Throw m => Throw m
      | Ok content =>
          if negb (check content) then Ok false
          else sample_minified fs outputDir check rest
      end
  end.

Definition sum_sizes (l : list AssetInfo) : N :=
  fold_left (fun sum a => (sum + size a)%N) l 0%N.

Definition average_size (l : list AssetInfo) : jsnum :=
  if (0 <? List.length l)%nat
  then JsNum.div (Fin (inject_Z (Z.of_N (sum_sizes l)))) (of_nat (List.length l))
  else Fin 0.

(** In [/assets/] and of type css or js. *)
Definition in_assets_folder (a : AssetInfo) : bool :=
  startsWith "assets/" (NodePath.to_string (path a))
  && (AssetType_eqb (type a) css || AssetType_eqb (type a) js).

(** [generateBuildReport(outputDir)]; [now] is [new Date().toISOString()]. *)
Definition generateBuildReport (fs : Fs.node) (now : string)
    (outputDir : NodePath.path) : outcome BuildReport :=
  match collectFiles fs outputDir with
  | Throw m => Throw m
  | Ok assets =>
      let htmlFiles := List.filter (of_type html) assets in
      let cssFiles := List.filter (of_type css) assets in
      let jsFiles := List.filter (of_type js) assets in
      let imageFiles := List.filter (of_type image) assets in
      let otherFiles := List.filter (of_type other) assets in
      match sample_minified fs outputDir isHtmlMinified (firstn 3 htmlFiles) with
      | Throw m => Throw m
      | Ok htmlMinified =>
      match sample_minified fs outputDir isCssMinified (firstn 3 cssFiles) with
      | Throw m => Throw m
      | Ok cssMinified =>
      match sample_minified fs outputDir isJsMinified (firstn 3 jsFiles) with
      | Throw m => Throw m
      | Ok jsMinified =>
          let assetsInAssetsFolder := List.filter in_assets_folder assets in
          let allAssetsHashed :=
            (List.length assetsInAssetsFolder =? 0)%nat
            || forallb hasHash assetsInAssetsFolder in
          Ok {| timestamp := now;
                outputDir := outputDir;
                assets := assets;
                summary :=
                  {| totalFiles := List.length assets;
                     totalSize := sum_sizes assets;
                     htmlFiles := List.length htmlFiles;
                     cssFiles := List.length cssFiles;
                     jsFiles := List.length jsFiles;
                     imageFiles := List.length imageFiles;
                     otherFiles := List.length otherFiles;
                     hashedAssets := List.length (List.filter hasHash assets);
                     averageHtmlSize := JsNum.round (average_size htmlFiles);
                     averageCssSize := JsNum.round (average_size cssFiles);
                     averageJsSize := JsNum.round (average_size jsFiles) |};
                optimizationChecks :=
                  {| allAssetsHashed := allAssetsHashed;
                     htmlMinified := htmlMinified;
                     cssMinified := cssMinified;
                     jsMinified := jsMinified |} |}
      end end end
  end.

Record BuildValidation : Type := {
  valid : bool;
  report : BuildReport;
  errors : list string
}.

Definition hash_error : string :=
  "Not all CSS/JS assets in the assets folder have content hashes".
Definition html_error : string := "HTML files do not appear to be minified".
Definition css_error : string := "CSS files do not appear to be minified".
Definition js_error : string := "JavaScript files do not appear to be minified".

(** [errors.push(e)] when [flag] is false. *)
Definition push_unless (flag : bool) (e : string) (errors : list string)
  : list string :=
  if negb flag then (errors ++ [e])%list else errors.

Definition validateBuildOptimization (fs : Fs.node) (now : string)
    (outputDir : NodePath.path) : outcome BuildValidation :=
  match generateBuildReport fs now outputDir with
  | Throw m => Throw m
  | Ok report =>
      let checks := optimizationChecks report in
      let errors := nil in
      let errors := push_unless (allAssetsHashed checks) hash_error errors in
      let errors := push_unless (htmlMinified checks) html_error errors in
      let errors := push_unless (cssMinified checks) css_error errors in
      let errors := push_unless (jsMinified checks) js_error errors in
      Ok {| valid := (List.length errors =? 0)%nat;
            report := report;
            errors := errors |}
  end.

End BuildOptimization.

(** ** Values, the YAML parser and schemas *)

(** Sequencing of code that may throw, and [try { body } catch { handler }]. *)
#[global] Instance outcome_ret : MRet outcome := fun A a => Ok a.

#[global] Instance outcome_bind : MBind outcome := fun A B k m =>
  match m with
  | Ok a => k a
  | Throw e => Throw e
  end.

Definition try_catch {A : Type} (body : outcome A) (handler : string -> outcome A)
  : outcome A :=
  match body with
  | Ok a => Ok a
  | Throw e => handler e
  end.

Module JsValue.

(** What [yaml.load] can return. *)
#[warnings="-register-all"]
Inductive jsval : Type :=
| VUndefined
| VNull
| VBool (b : bool)
| VNumber (n : jsnum)
| VString (s : string)
| VArray (items : list jsval)
| VObject (fields : list (string * jsval)).

(** [ToBoolean] *)
Definition truthy (v : jsval) : bool :=
  match v with
  | VUndefined | VNull => false
  | VBool b => b
  | VNumber NaN => false
  | VNumber (Fin q) => negb (JsNum.Qis0 q)
  | VNumber _ => true
  | VString s => negb (String.eqb s "")
  | VArray _ | VObject _ => true
  end.

End JsValue.
Import JsValue.

Module Zod.

(** An issue of a [ZodError]: the path of the field, its elements already
    printed, and the message. *)
Record ZodIssue : Type := {
  path : list string;
  message : string
}.

(** A [ZodError]: its issues, and the text of its [message], which zod
    prints from the issues as JSON. *)
Record ZodError : Type := {
  errors : list ZodIssue;
  error_message : string
}.

(** The result of [schema.safeParse(value)]. *)
Inductive SafeParseResult (T : Type) : Type :=
| ParseSuccess (data : T)
| ParseFailure (error : ZodError).
Arguments ParseSuccess {T} data.
Arguments ParseFailure {T} error.

Definition ZodSchema (T : Type) : Type := jsval -> SafeParseResult T.

End Zod.

(** ** [src/utils/dataLoader.ts] *)

Module DataLoader.

Record DataLoadResult (T : Type) : Type := {
  success : bool;
  data : option T;
  error : option string
}.
Arguments success {T} _.
Arguments data {T} _.
Arguments error {T} _.

Section Loader.

(** [yaml.load] of js-yaml: the parsed value, or a [YAMLException]. *)
Variable yaml_load : string -> outcome jsval.

Context {T : Type}.

(** The snapshot is rooted at the working directory, which makes
    [path.resolve] the identity on relative paths. *)
Definition resolve (filePath : NodePath.path) : NodePath.path := filePath.

Definition loadYamlFile (fs : Fs.node) (filePath : NodePath.path)
    (schema : Zod.ZodSchema T) : outcome (DataLoadResult T) :=
  try_catch
    (let absolutePath := resolve filePath in
     if negb (Fs.existsSync fs absolutePath) then
       Ok {| success := false; data := None;
             error := Some ("File not found: " ++ NodePath.to_string filePath) |}
     else
       fileContent ← Fs.readFileSync fs absolutePath;
       parsedYaml ← yaml_load fileContent;
       match schema parsedYaml with
       | Zod.ParseFailure e =>
           Ok {| success := false; data := None;
                 error := Some ("Schema validation failed: "
                                ++ Zod.error_message e) |}
       | Zod.ParseSuccess d =>
           Ok {| success := true; data := Some d; error := None |}
       end)
    (fun message =>
       Ok {| success := false; data := None;
             error := Some ("Failed to load file: " ++ message) |}).

End Loader.

Record Testimonial : Type := {
  courseSlug : string;
  rating : jsnum
}.

(** Numbers are exact rationals: the result is the one of the code as
    long as binary64 holds the sum of the ratings exactly and rounds the
    mean and its tenfold to the same tenth, as it does for ratings
    between 1 and 5; for ratings near 2^53 the code rounds where the
    model does not. *)
Definition calculateAverageRating (testimonials : list Testimonial)
    (slug : string) : option jsnum :=
  let courseTestimonials :=
    List.filter (fun t => String.eqb (courseSlug t) slug) testimonials in
  if (List.length courseTestimonials =? 0)%nat then None
  else
    let sum :=
      fold_left (fun acc t => JsNum.add acc (rating t)) courseTestimonials (Fin 0) in
    Some (JsNum.div
            (JsNum.round
               (JsNum.mul (JsNum.div sum (of_nat (List.length courseTestimonials)))
                          (Fin 10)))
            (Fin 10)).

End DataLoader.

(** ** [src/utils/contentValidator.ts] *)

Module ContentValidator.

Record ValidationResult : Type := {
  valid : bool;
  file : NodePath.path;
  errors : option (list string)
}.

Record ReportSummary : Type := {
  total : nat;
  valid_count : nat;
  invalid_count : nat
}.

Record ContentValidationReport : Type := {
  success : bool;
  timestamp : string;
  results : list ValidationResult;
  summary : ReportSummary
}.

Definition LF : ascii := "010"%char.

(** [formatZodErrors] *)
Definition formatZodErrors (error : Zod.ZodError) : list string :=
  map (fun err =>
         let path := JsString.join "." (Zod.path err) in
         if negb (String.eqb path "") then path ++ ": " ++ Zod.message err
         else Zod.message err)
      (Zod.errors error).

(** The tail [([\s\S]*?)\n---] of the frontmatter pattern: the lazy group
    takes the shortest text that a newline and three dashes follow. *)
Fixpoint lazy_body (s : string) : option string :=
  if startsWith (String LF "---") s then Some ""
  else
    match s with
    | EmptyString => None
    | String c r => option_map (String c) (lazy_body r)
    end.

(** [\s*\n([\s\S]*?)\n---] at the start of [s]: the greedy [\s*] first
    tries to take one more white-space character and gives it back when
    the rest of the pattern fails. *)
Fixpoint after_opening (s : string) : option string :=
  match s with
  | EmptyString => None
  | String c r =>
      if is_space c then
        match after_opening r with
        | Some body => Some body
        | None => if is_newline c then lazy_body r else None
        end
      else None
  end.

(** [content.match(/^---\s*\n([\s\S]*?)\n---/)]: the text of group 1. *)
Definition match_frontmatter (content : string) : option string :=
  match strip_prefix "---" content with
  | Some r => after_opening r
  | None => None
  end.

Section Validator.

(** [yaml.load] of js-yaml: the parsed value, or a [YAMLException]. *)
Variable yaml_load : string -> outcome jsval.

Definition extractFrontmatter (content : string) : jsval :=
  match match_frontmatter content with
  | None => VNull
  | Some group1 =>
      match yaml_load group1 with
      | Ok v => v
      | Throw _ => VNull
      end
  end.

Definition validateYamlFile (fs : Fs.node) (filePath : NodePath.path)
    (schema : Zod.ZodSchema jsval) : ValidationResult :=
  let result := {| valid := false; file := filePath; errors := None |} in
  let run : outcome ValidationResult :=
    try_catch
      (if negb (Fs.existsSync fs filePath) then
         Ok {| valid := false; file := filePath;
               errors := Some ["File not found: " ++ NodePath.to_string filePath] |}
       else
         content ← Fs.readFileSync fs filePath;
         parsed ← yaml_load content;
         match schema parsed with
         | Zod.ParseSuccess _ =>
             Ok {| valid := true; file := filePath; errors := None |}
         | Zod.ParseFailure e =>
             Ok {| valid := false; file := filePath;
                   errors := Some (formatZodErrors e) |}
         end)
      (fun message =>
         Ok {| valid := false; file := filePath;
               errors := Some ["Parse error: " ++ message] |}) in
  match run with
  | Ok r => r
  | Throw _ => result
  end.

Definition no_frontmatter_error : string :=
  "No frontmatter found in markdown file".

Definition validateMarkdownFile (fs : Fs.node) (filePath : NodePath.path)
    (schema : Zod.ZodSchema jsval) : ValidationResult :=
  let result := {| valid := false; file := filePath; errors := None |} in
  let run : outcome ValidationResult :=
    try_catch
      (if negb (Fs.existsSync fs filePath) then
         Ok {| valid := false; file := filePath;
               errors := Some ["File not found: " ++ NodePath.to_string filePath] |}
       else
         content ← Fs.readFileSync fs filePath;
         let frontmatter := extractFrontmatter content in
         if negb (truthy frontmatter) then
           Ok {| valid := false; file := filePath;
                 errors := Some [no_frontmatter_error] |}
         else
           match schema frontmatter with
           | Zod.ParseSuccess _ =>
               Ok {| valid := true; file := filePath; errors := None |}
           | Zod.ParseFailure e =>
               Ok {| valid := false; file := filePath;
                     errors := Some (formatZodErrors e) |}
           end)
      (fun message =>
         Ok {| valid := false; file := filePath;
               errors := Some ["Parse error: " ++ message] |}) in
  match run with
  | Ok r => r
  | Throw _ => result
  end.

Definition getFilesInDirectory (fs : Fs.node) (dir : NodePath.path)
    (extensions : list string) : outcome (list NodePath.path) :=
  if negb (Fs.existsSync fs dir) then Ok nil
  else
    entries ← Fs.readdirSync fs dir;
    Ok (map (fun entry => NodePath.join dir [Fs.name entry])
            (List.filter
               (fun entry =>
                  Fs.isFile entry &&
                  existsb (String.eqb (toLowerCase (NodePath.extname (Fs.name entry))))
                          extensions)
               entries)).

(** The schemas of [./schemas]. *)
Variables resumeFileSchema testimonialsFileSchema repositoriesFileSchema
          publicationsFileSchema productSchema : Zod.ZodSchema jsval.

Definition yamlValidations (basePath : NodePath.path)
  : list (NodePath.path * Zod.ZodSchema jsval) :=
  [ (NodePath.join basePath ["src"; "data"; "resume.yaml"], resumeFileSchema);
    (NodePath.join basePath ["src"; "data"; "testimonials.yaml"], testimonialsFileSchema);
    (NodePath.join basePath ["src"; "data"; "repositories.yaml"], repositoriesFileSchema);
    (NodePath.join basePath ["src"; "data"; "publications.yaml"], publicationsFileSchema) ].

(** The first loop of [validateAllContent]. *)
Fixpoint validate_yaml_files (fs : Fs.node)
    (validations : list (NodePath.path * Zod.ZodSchema jsval))
    (results : list ValidationResult) : list ValidationResult :=
  match validations with
  | nil => results
  | (filePath, schema) :: rest =>
      validate_yaml_files fs rest
        (if Fs.existsSync fs filePath
         then (results ++ [validateYamlFile fs filePath schema])%list
         else results)
  end.

(** The second loop of [validateAllContent]. *)
Fixpoint validate_product_files (fs : Fs.node)
    (productFiles : list NodePath.path)
    (results : list ValidationResult) : list ValidationResult :=
  match productFiles with
  | nil => results
  | productFile :: rest =>
      validate_product_files fs rest
        (if String.eqb (NodePath.basename productFile) ".gitkeep" then results
         else (results ++ [validateMarkdownFile fs productFile productSchema])%list)
  end.

(** [validateAllContent(basePath)]; [now] is [new Date().toISOString()]. *)
Definition validateAllContent (fs : Fs.node) (now : string)
    (basePath : NodePath.path) : outcome ContentValidationReport :=
  let results := validate_yaml_files fs (yamlValidations basePath) nil in
  let productsDir := NodePath.join basePath ["src"; "data"; "products"] in
  productFiles ← getFilesInDirectory fs productsDir [".md"; ".mdx"];
  let results := validate_product_files fs productFiles results in
  let n_valid := List.length (List.filter (fun r => valid r) results) in
  let n_invalid := List.length (List.filter (fun r => negb (valid r)) results) in
  Ok {| success := (n_invalid =? 0)%nat;
        timestamp := now;
        results := results;
        summary := {| total := List.length results;
                      valid_count := n_valid;
                      invalid_count := n_invalid |} |}.

End Validator.

Record ContentChanges : Type := {
  added : list string;
  modified : list string;
  deleted : list string
}.

(** The names every object inherits from [Object.prototype]. *)
Definition inherited_names : list string :=
  [ "constructor"; "__defineGetter__"; "__defineSetter__"; "hasOwnProperty";
    "__lookupGetter__"; "__lookupSetter__"; "isPrototypeOf";
    "propertyIsEnumerable"; "toString"; "valueOf"; "__proto__";
    "toLocaleString" ].

Definition inherited (file : string) : bool :=
  existsb (String.eqb file) inherited_names.

Section Manifest.

(** A manifest is a plain object ([{}] with properties added): the map
    holds its own properties, from the path of a file to its modification
    time, and besides them the object inherits the properties of
    [Object.prototype]. So [file in manifest] holds of the keys of the map
    and of the inherited names, and [manifest[file]] at an inherited name
    that is not a key is a function (an object for [__proto__]), which
    [!==] tells apart from every number. A modification time is a finite
    number ([mtimeMs], epoch milliseconds) and [!==] on such numbers is
    inequality; any type with a decidable equality stands for them.
    [map_to_list] stands for [Object.entries]: the order in which an
    object lists its properties is not modelled, so that membership in
    the three lists and their lengths carry over to the code, and the
    order of their elements does not. *)
Context {timestamp : Type} `{EqDecision timestamp}.

(** The body of the loop over [Object.entries(newManifest)]. *)
Definition classify_new (oldManifest : gmap string timestamp)
    (acc : list string * list string) (entry : string * timestamp)
  : list string * list string :=
  let '(file, newTime) := entry in
  match oldManifest !! file with
  | Some oldTime =>
      if negb (bool_decide (oldTime = newTime))
      then (fst acc, snd acc ++ [file])%list
      else acc
  | None =>
      if negb (inherited file)
      then (fst acc ++ [file], snd acc)%list
      else (fst acc, snd acc ++ [file])%list
  end.

(** The body of the loop over [Object.keys(oldManifest)]. *)
Definition classify_old (newManifest : gmap string timestamp)
    (acc : list string) (file : string) : list string :=
  match newManifest !! file with
  | Some _ => acc
  | None => if negb (inherited file) then (acc ++ [file])%list else acc
  end.

Definition detectContentChanges (oldManifest newManifest : gmap string timestamp)
  : ContentChanges :=
  let '(added, modified) :=
    fold_left (classify_new oldManifest) (map_to_list newManifest) (nil, nil) in
  let deleted :=
    fold_left (classify_old newManifest) (map fst (map_to_list oldManifest)) nil in
  {| added := added; modified := modified; deleted := deleted |}.

End Manifest.

End ContentValidator.

(** ** Invariants of the loop of [path.extname] *)

Module ExtnameSpec.

Import NodePath.
Local Open Scope Z_scope.

(** Neither a slash nor a dot. *)
Definition plain_char (c : ascii) : bool :=
  negb (Ascii.eqb c "/") && negb (Ascii.eqb c ".").

Definition plain (s : string) : bool :=
  forallb plain_char (list_ascii_of_string s).

(** The state of the loop once the end of the name is known. *)
Definition scanning (d n pre : Z) : ext_state :=
  {| startDot := d; startPart := 0; endPos := n; matchedSlash := false;
     preDotState := pre; stopped := false |}.

(** Once a dot and a character before it were seen, the rest of the loop
    leaves the extension alone. *)
Definition settled (d n : Z) (st : ext_state) : Prop :=
  startDot st = d /\ endPos st = n /\ preDotState st <> 0
  /\ matchedSlash st = false.

End ExtnameSpec.

(** ** Asset types and content hashes, as the specification words them *)

Module AssetSpec.

Import BuildOptimization.

(** The table of the specification, on an extension without its dot:
    html/htm, css, js/mjs, the eight image extensions, anything else. *)
Definition spec_asset_type (extension : string) : AssetType :=
  if existsb (String.eqb extension) ["html"; "htm"] then html
  else if existsb (String.eqb extension) ["css"] then css
  else if existsb (String.eqb extension) ["js"; "mjs"] then js
  else if existsb (String.eqb extension)
            ["jpg"; "jpeg"; "png"; "gif"; "webp"; "svg"; "avif"; "ico"]
  then image
  else other.

(** The same table on what [path.extname] returns: the extension with its
    dot, or the empty string when the name has none. *)
Definition spec_type_of_extname (ext : string) : AssetType :=
  match ext with
  | String "." extension => spec_asset_type extension
  | _ => other
  end.

Fixpoint all_hex (s : string) : bool :=
  match s with
  | EmptyString => true
  | String c r => is_hex c && all_hex r
  end.

Fixpoint dot_free (s : string) : bool :=
  match s with
  | EmptyString => true
  | String c r => negb (Ascii.eqb c ".") && dot_free r
  end.

(** What the pattern [/[._-][a-f0-9]{8,}\./i] denotes: a separator, at least
    eight hexadecimal digits in either case, a dot; anywhere in the name. *)
Definition contains_hash_segment (filename : string) : Prop :=
  exists (pre : string) (sep : ascii) (hexs post : string),
    filename = pre ++ String sep (hexs ++ String "." post)
    /\ is_separator sep = true /\ all_hex hexs = true
    /\ 8 <= String.length hexs.

(** The reading of the specification: the segment sits immediately before
    the final extension, so no further dot follows it. *)
Definition spec_hash_before_final_extension (filename : string) : Prop :=
  exists (pre : string) (sep : ascii) (hexs ext : string),
    filename = pre ++ String sep (hexs ++ String "." ext)
    /\ is_separator sep = true /\ all_hex hexs = true
    /\ 8 <= String.length hexs /\ dot_free ext = true.

End AssetSpec.

(** ** Conditions on the snapshot *)

Module FsSpec.

Import Fs.

(** [dir] is a directory, or does not exist. *)
Definition directory_or_missing (fs : node) (dir : NodePath.path) : bool :=
  match resolve fs dir with
  | None | Some (Dir _) => true
  | Some _ => false
  end.

Definition all_well_formed (es : list dirent) : bool :=
  forallb (fun e => well_formed (snd e)) es.

End FsSpec.

(** ** The build report, as a function of the collected assets *)

Module BuildSpec.

Import Fs BuildOptimization FsSpec.

(** The assets [collectFiles] returns, the empty list when it throws. *)
Definition collected (fs : node) (dir : NodePath.path) : list AssetInfo :=
  match collectFiles fs dir with
  | Ok l => l
  | Throw _ => nil
  end.

(** The text [readFileSync] gives for an asset of [dir]. *)
Definition content_of (fs : node) (dir : NodePath.path) (a : AssetInfo)
  : string :=
  match readFileSync fs (NodePath.join dir (path a)) with
  | Ok content => content
  | Throw _ => ""%string
  end.

(** The checks of the report, as functions of the collected assets. *)
Definition sampled (t : AssetType) (l : list AssetInfo) : list AssetInfo :=
  firstn 3 (List.filter (of_type t) l).

Definition checks_of (fs : node) (dir : NodePath.path)
  : OptimizationChecks :=
  let l := collected fs dir in
  {| allAssetsHashed := forallb hasHash (List.filter in_assets_folder l);
     htmlMinified :=
       forallb (fun a => isHtmlMinified (content_of fs dir a)) (sampled html l);
     cssMinified :=
       forallb (fun a => isCssMinified (content_of fs dir a)) (sampled css l);
     jsMinified :=
       forallb (fun a => isJsMinified (content_of fs dir a)) (sampled js l) |}.

(** The reading of the specification: some directory on the path of the
    asset is called [assets]. *)
Definition spec_under_assets_segment (a : AssetInfo) : Prop :=
  In "assets"%string (removelast (path a)).

(** The message pushed for a flag, when the flag is false. *)
Definition error_for (flag : bool) (e : string) : list string :=
  if flag then nil else [e].

Definition count_false (flags : list bool) : nat :=
  List.length (List.filter negb flags).

End BuildSpec.

(** ** The rounded mean of the specification *)

Module RatingSpec.

Import DataLoader.
Local Open Scope Q_scope.

(** The testimonials of a course. *)
Definition testimonials_of (slug : string) (ts : list Testimonial)
  : list Testimonial :=
  List.filter (fun t => String.eqb (courseSlug t) slug) ts.

(** A rating the schema accepts: an integer between 1 and 5. *)
Definition star_rating (x : jsnum) : Prop :=
  exists (q : Q) (z : Z), x = Fin q /\ q == inject_Z z /\ (1 <= z <= 5)%Z.

Definition value_of (x : jsnum) : Q :=
  match x with
  | Fin q => q
  | _ => 0
  end.

Fixpoint total (qs : list Q) : Q :=
  match qs with
  | nil => 0
  | q :: rest => q + total rest
  end.

(** The arithmetic mean, and the specification's [round(mean * 10) / 10]
    with rounding to the nearest integer, halves upwards. *)
Definition mean (qs : list Q) : Q :=
  total qs / inject_Z (Z.of_nat (List.length qs)).

Definition spec_rounded_mean (qs : list Q) : Q :=
  inject_Z (Qfloor (mean qs * 10 + (1 # 2))) / 10.

Definition ratings (l : list Testimonial) : list Q :=
  map (fun t => value_of (rating t)) l.

End RatingSpec.

(** ** The four results of the loader *)

Module LoaderSpec.

Import DataLoader.

Definition not_found (T : Type) (filePath : NodePath.path) : DataLoadResult T :=
  {| success := false; data := None;
     error := Some ("File not found: " ++ NodePath.to_string filePath) |}.

Definition load_failure (T : Type) (message : string) : DataLoadResult T :=
  {| success := false; data := None;
     error := Some ("Failed to load file: " ++ message) |}.

Definition schema_failure (T : Type) (e : Zod.ZodError) : DataLoadResult T :=
  {| success := false; data := None;
     error := Some ("Schema validation failed: " ++ Zod.error_message e) |}.

Definition loaded {T : Type} (d : T) : DataLoadResult T :=
  {| success := true; data := Some d; error := None |}.

End LoaderSpec.

(** ** Frontmatter, as the pattern and as the specification have it *)

Module FrontmatterSpec.

Import ContentValidator.

Fixpoint all_space (s : string) : bool :=
  match s with
  | EmptyString => true
  | String c r => is_space c && all_space r
  end.

(** What the pattern [/^---\s*\n([\s\S]*?)\n---/] accepts: three dashes,
    white space, a newline, some text, a newline, three dashes, anything. *)
Definition matches_frontmatter_pattern (content : string) : Prop :=
  exists ws body rest : string,
    content = "---" ++ ws ++ String LF (body ++ String LF ("---" ++ rest))
    /\ all_space ws = true.

(** The lines of a text, separated by newlines. *)
Fixpoint split_lines (s : string) : list string :=
  match s with
  | EmptyString => [""]
  | String c r =>
      if is_newline c then "" :: split_lines r
      else
        match split_lines r with
        | first :: rest => String c first :: rest
        | nil => [String c ""]
        end
  end.

(** The reading of the specification: the first line is exactly [---] and
    some later line is exactly [---]. *)
Definition spec_has_frontmatter_block (content : string) : bool :=
  match split_lines content with
  | first :: rest => String.eqb first "---" && existsb (String.eqb "---") rest
  | nil => false
  end.

Definition no_frontmatter_result (filePath : NodePath.path) : ValidationResult :=
  {| valid := false; file := filePath; errors := Some [no_frontmatter_error] |}.

(** The result when the frontmatter reaches the schema. *)
Definition schema_verdict (filePath : NodePath.path)
    (schema : Zod.ZodSchema jsval) (v : jsval) : ValidationResult :=
  match schema v with
  | Zod.ParseSuccess _ => {| valid := true; file := filePath; errors := None |}
  | Zod.ParseFailure e =>
      {| valid := false; file := filePath; errors := Some (formatZodErrors e) |}
  end.

End FrontmatterSpec.

(** ** The results of [validateAllContent], loop by loop *)

Module ReportSpec.

Import ContentValidator.

Section Results.

Variable yaml_load : string -> outcome jsval.
Variable productSchema : Zod.ZodSchema jsval.

(** The results of the data files that exist, in the order of the list. *)
Definition yaml_results (fs : Fs.node)
    (validations : list (NodePath.path * Zod.ZodSchema jsval))
  : list ValidationResult :=
  map (fun v => validateYamlFile yaml_load fs (fst v) (snd v))
      (List.filter (fun v => Fs.existsSync fs (fst v)) validations).

(** The results of the product files. *)
Definition product_results (fs : Fs.node) (productFiles : list NodePath.path)
  : list ValidationResult :=
  map (fun f => validateMarkdownFile yaml_load fs f productSchema)
      (List.filter
         (fun f => negb (String.eqb (NodePath.basename f) ".gitkeep"))
         productFiles).

(** The files [getFilesInDirectory] lists, the empty list when it
    throws. *)
Definition listed_files (fs : Fs.node) (dir : NodePath.path)
    (extensions : list string) : list NodePath.path :=
  match getFilesInDirectory fs dir extensions with
  | Ok l => l
  | Throw _ => nil
  end.

End Results.

End ReportSpec.

(** ** Sample parser, schema and files for the examples *)

Module Samples.

Import Fs ContentValidator.

(** A stand-in for js-yaml that knows three documents, with the result
    js-yaml gives for each; any other document is reported as unreadable. *)
Definition sample_yaml_load (document : string) : outcome jsval :=
  if String.eqb document "title: Rocq"
  then Ok (VObject [("title", VString "Rocq")])
  else if String.eqb document "title: 7"
  then Ok (VObject [("title", VNumber (Fin 7))])
  else if String.eqb document ""
  then Ok VUndefined
  else Throw "unexpected end of the stream within a flow collection".

(** Text between double quotes. *)
Definition quoted (s : string) : string :=
  String "034"%char (s ++ String "034"%char "").

(** The text zod gives as [message] of an error with one issue of code
    [invalid_type]: the issues as JSON, indented by two spaces, as
    [JSON.stringify(issues, null, 2)] prints them. [path] holds the lines
    of the array of path elements. *)
Definition invalid_type_message (expected received : string)
    (path : list string) (message : string) : string :=
  let head : list string :=
    [ "[";
      "  {";
      "    " ++ quoted "code" ++ ": " ++ quoted "invalid_type" ++ ",";
      "    " ++ quoted "expected" ++ ": " ++ quoted expected ++ ",";
      "    " ++ quoted "received" ++ ": " ++ quoted received ++ "," ] in
  let tail : list string :=
    [ "    " ++ quoted "message" ++ ": " ++ quoted message;
      "  }";
      "]" ] in
  String.concat (String LF "") (head ++ path ++ tail)%list.

(** A stand-in for the schema [z.object({ title: z.string() })]: on the
    three values [sample_yaml_load] produces it gives what zod gives,
    with the [message] zod prints for the error. *)
Definition title_schema : Zod.ZodSchema jsval := fun v =>
  match v with
  | VObject (("title", VString t) :: nil) => Zod.ParseSuccess v
  | VObject _ =>
      Zod.ParseFailure
        {| Zod.errors :=
             [ {| Zod.path := ["title"];
                  Zod.message := "Expected string, received number" |} ];
           Zod.error_message :=
             invalid_type_message "string" "number"
               [ "    " ++ quoted "path" ++ ": [";
                 "      " ++ quoted "title";
                 "    ]," ]
               "Expected string, received number" |}
  | _ =>
      Zod.ParseFailure
        {| Zod.errors :=
             [ {| Zod.path := nil; Zod.message := "Required" |} ];
           Zod.error_message :=
             invalid_type_message "object" "undefined"
               [ "    " ++ quoted "path" ++ ": []," ]
               "Required" |}
  end.

Definition line (s : string) : string := s ++ String LF "".

Definition sample_site : Fs.node :=
  Fs.Dir
    [ ("src",
       Fs.Dir
         [ ("data",
            Fs.Dir
              [ ("resume.yaml", Fs.File 11 0 "title: Rocq");
                ("testimonials.yaml", Fs.File 8 0 "title: 7");
                ("publications.yaml", Fs.File 8 0 "title: [");
                ("products",
                 Fs.Dir
                   [ (".gitkeep", Fs.File 0 0 "");
                     ("course.md",
                      Fs.File 24 0
                        (line "---" ++ line "title: Rocq" ++ line "---" ++ "Text"));
                     ("loose.md",
                      Fs.File 28 0
                        (line "---" ++ line "title: Rocq" ++ line "---more" ++ "Text"));
                     ("empty.mdx",
                      Fs.File 9 0 (line "---" ++ line "" ++ line "---"));
                     ("bare.md",
                      Fs.File 12 0 (line "---" ++ line "---" ++ "Text"));
                     ("notes.txt", Fs.File 5 0 "notes") ]) ]) ]) ].

(** A build output with its style sheet and script in the assets folder. *)
Definition sample_build : node :=
  Dir [ ("dist",
         Dir [ ("index.html", File 13 0 "<html></html>");
               ("assets",
                Dir [ ("style.abc12345.css", File 3 0 "a{}");
                      ("main.js", File 10 0 "let x = 1;") ]) ]) ].

(** An unhashed script below [static/assets/]. *)
Definition nested_assets_build : node :=
  Dir [ ("dist",
         Dir [ ("static",
                Dir [ ("assets",
                       Dir [ ("app.js", File 10 0 "let x = 1;") ]) ]) ]) ].

(** A build output whose second style sheet is empty. *)
Definition empty_css_build : node :=
  Dir [ ("dist",
         Dir [ ("assets",
                Dir [ ("a.11111111.css", File 3 0 "a{}");
                      ("b.22222222.css", File 0 0 "") ]) ]) ].

End Samples.

(** * Further definitions *)

From Stdlib Require DecimalString.

(** ** Keys of one manifest that another lacks *)

Module ManifestSpec.

Import ContentValidator.

Section Keys.

Context {timestamp : Type}.

(** The manifest [m] has no key [k]. *)
Definition absent_from (m : gmap string timestamp) (k : string) : bool :=
  match m !! k with
  | None => true
  | Some _ => false
  end.

(** [k in m] is false: [m] has no key [k] and inherits no property of
    that name. *)
Definition missing_in (m : gmap string timestamp) (k : string) : bool :=
  absent_from m k && negb (inherited k).

(** No key of the manifest is a name every object inherits. Paths with a
    directory separator, as [generateContentManifest] records them, never
    are. *)
Definition plain_keys (m : gmap string timestamp) : bool :=
  forallb (fun k => negb (inherited k)) (map fst (map_to_list m)).

End Keys.

End ManifestSpec.

(** ** [src/utils/contentValidator.ts]: modification times and the manifest *)

Module ContentManifest.

Import Fs.

Section Times.

(** The snapshot records the modification time of regular files only;
    [other_mtimeMs] gives the one of a directory or of a special node. *)
Variable other_mtimeMs : NodePath.path -> Z.

(** [fs.statSync(p).mtimeMs] *)
Definition statSync_mtimeMs (fs : node) (p : NodePath.path) : outcome Z :=
  match resolve fs p with
  | Some (File _ mtimeMs _) => Ok mtimeMs
  | Some _ => Ok (other_mtimeMs p)
  | None => Throw "ENOENT: no such file or directory, stat"
  end.

Definition hasFileChanged (fs : node) (filePath : NodePath.path)
    (sinceTimestamp : Z) : bool :=
  match statSync_mtimeMs fs filePath with
  | Ok mtimeMs => (sinceTimestamp <? mtimeMs)%Z
  | Throw _ => false
  end.

Definition getFileModifiedTime (fs : node) (filePath : NodePath.path)
  : option Z :=
  match statSync_mtimeMs fs filePath with
  | Ok mtimeMs => Some mtimeMs
  | Throw _ => None
  end.

(** What [getAllFilesRecursive] pushes for the entry at [fullPath]: the
    recursive call on a directory runs the loop over its own entries. *)
Fixpoint files_of_entry (fullPath : NodePath.path) (child : node)
  : list NodePath.path :=
  match child with
  | Dir sub =>
      (fix loop (entries : list dirent) : list NodePath.path :=
         match entries with
         | nil => nil
         | (n, c) :: rest =>
             (files_of_entry (NodePath.join fullPath [n]) c ++ loop rest)%list
         end) sub
  | File _ _ _ => [fullPath]
  | Special => nil
  end.

(** The loop [for (const entry of entries)] of the directory [dir]. *)
Fixpoint files_of_entries (dir : NodePath.path) (entries : list dirent)
  : list NodePath.path :=
  match entries with
  | nil => nil
  | (n, c) :: rest =>
      (files_of_entry (NodePath.join dir [n]) c ++ files_of_entries dir rest)%list
  end.

Definition getAllFilesRecursive (fs : node) (dir : NodePath.path)
  : outcome (list NodePath.path) :=
  if negb (existsSync fs dir) then Ok nil
  else
    entries ← readdirSync fs dir;
    Ok (files_of_entries dir entries).

(** The inner loop of [generateContentManifest]:
    [manifest[file] = modTime] for every file with a time. *)
Definition record_time (fs : node) (manifest : gmap string Z)
    (file : NodePath.path) : gmap string Z :=
  match getFileModifiedTime fs file with
  | Some modTime => <[NodePath.to_string file := modTime]> manifest
  | None => manifest
  end.

Definition contentPaths (basePath : NodePath.path) : list NodePath.path :=
  [ NodePath.join basePath ["src"; "data"];
    NodePath.join basePath ["src"; "content"] ].

(** The outer loop of [generateContentManifest]. *)
Fixpoint scan_content_paths (fs : node) (paths : list NodePath.path)
    (manifest : gmap string Z) : outcome (gmap string Z) :=
  match paths with
  | nil => Ok manifest
  | contentPath :: rest =>
      if negb (existsSync fs contentPath) then scan_content_paths fs rest manifest
      else
        files ← getAllFilesRecursive fs contentPath;
        scan_content_paths fs rest (fold_left (record_time fs) files manifest)
  end.

Definition generateContentManifest (fs : node) (basePath : NodePath.path)
  : outcome (gmap string Z) :=
  scan_content_paths fs (contentPaths basePath) ∅.

End Times.

(** [p] lies below the directory [root]. *)
Definition below (root p : NodePath.path) : Prop :=
  exists rel : NodePath.path, rel <> nil /\ p = (root ++ rel)%list.

(** [p] lies below one of the two content directories of [basePath]. *)
Definition in_content (basePath p : NodePath.path) : Prop :=
  below (NodePath.join basePath ["src"; "data"]) p
  \/ below (NodePath.join basePath ["src"; "content"]) p.

(** The key [key] stands for a regular file of the content directories
    whose modification time is [t]. *)
Definition recorded_file (fs : node) (basePath : NodePath.path)
    (key : string) (t : Z) : Prop :=
  exists (p : NodePath.path) (sz : N) (content : string),
    key = NodePath.to_string p
    /\ resolve fs p = Some (File sz t content)
    /\ in_content basePath p.

End ContentManifest.

(** A site whose files carry different modification times. *)
Module TimedSite.

Import Fs.

Definition timed_site : node :=
  Dir [ ("src",
         Dir [ ("data",
                Dir [ ("resume.yaml", File 11 1700 "title: Rocq");
                      ("products",
                       Dir [ ("course.md", File 4 1800 "Text");
                             ("socket", Special) ]) ]);
               ("content", Dir [ ("about.md", File 5 1900 "About") ]);
               ("pages", Dir [ ("index.astro", File 3 2000 "---") ]) ]) ].

Definition timed_manifest : gmap string Z :=
  <["src/data/resume.yaml" := 1700%Z]>
    (<["src/data/products/course.md" := 1800%Z]>
       (<["src/content/about.md" := 1900%Z]> ∅)).

(** The same site later: [about.md] was edited, [course.md] is gone and
    [news.md] is new. *)
Definition later_site : node :=
  Dir [ ("src",
         Dir [ ("data",
                Dir [ ("resume.yaml", File 11 1700 "title: Rocq");
                      ("products", Dir [ ("socket", Special) ]) ]);
               ("content",
                Dir [ ("about.md", File 9 2500 "About us.");
                      ("news.md", File 4 2600 "News") ]);
               ("pages", Dir [ ("index.astro", File 3 2000 "---") ]) ]) ].

Definition later_manifest : gmap string Z :=
  <["src/data/resume.yaml" := 1700%Z]>
    (<["src/content/about.md" := 2500%Z]>
       (<["src/content/news.md" := 2600%Z]> ∅)).

End TimedSite.

(** ** The assets of a build *)

Module AssetsSpec.

Import BuildOptimization.

(** The record [collectFiles] makes of the regular file of size [sz] at
    the path [rel], relative to the base directory. *)
Definition asset_of (rel : NodePath.path) (sz : N) : AssetInfo :=
  {| path := rel;
     size := sz;
     type := getAssetType (NodePath.basename rel);
     hasHash := hasContentHash (NodePath.basename rel) |}.

(** A finite number that is a natural number. *)
Definition natural (x : jsnum) (n : N) : Prop :=
  x = Fin (inject_Z (Z.of_N n)).

End AssetsSpec.

(** ** The product files of [validateAllContent] *)

Module ProductFilesSpec.

(** The extension of the name, lower-cased, is [.md] or [.mdx]. *)
Definition markdown_name (n : string) : bool :=
  let ext := toLowerCase (NodePath.extname n) in
  String.eqb ext ".md" || String.eqb ext ".mdx".

(** The lower-cased extension of the name is one of [extensions]. *)
Definition has_extension (extensions : list string) (n : string) : bool :=
  if in_dec String.string_dec (toLowerCase (NodePath.extname n)) extensions
  then true else false.

(** The regular files among [entries] whose name [keep] accepts, each as
    its path inside [dir], in the order of [entries]. *)
Definition files_kept (dir : NodePath.path) (keep : string -> bool)
    (entries : list Fs.dirent) : list NodePath.path :=
  map (fun e => NodePath.join dir [Fs.name e])
      (List.filter (fun e => Fs.isFile e && keep (Fs.name e)) entries).

End ProductFilesSpec.

(** ** [src/utils/dataLoader.ts]: the testimonials of a course *)

Module CourseTestimonials.

Import DataLoader.

Definition getTestimonialsForCourse (testimonials : list Testimonial)
    (slug : string) : list Testimonial :=
  List.filter (fun t => String.eqb (courseSlug t) slug) testimonials.

(** The rating [x] is the integer [k]. *)
Definition rates (x : jsnum) (k : Z) : Prop :=
  exists q : Q, x = Fin q /\ (q == inject_Z k)%Q.

End CourseTestimonials.


(** ** [astro.config.ts]: the content validation integration *)

Module BuildHook.

Import ContentValidator.









Section Hook.

Variable yaml_load : string -> outcome jsval.
Variables resumeFileSchema testimonialsFileSchema repositoriesFileSchema
          publicationsFileSchema productSchema : Zod.ZodSchema jsval.


End Hook.

End BuildHook.
(** * Properties *)

(** ** Strings *)

#[local] Arguments String.append !s1 s2 : simpl nomatch.

Module StringFacts.

Lemma length_append (s t : string) :
  String.length (s ++ t) = String.length s + String.length t.
Proof. induction s as [|c s IH]; simpl; [reflexivity | now rewrite IH]. Qed.

Lemma list_of_append (s t : string) :
  list_ascii_of_string (s ++ t)
  = (list_ascii_of_string s ++ list_ascii_of_string t)%list.
Proof. induction s as [|c s IH]; simpl; [reflexivity | now rewrite IH]. Qed.

Lemma length_list_of (s : string) :
  List.length (list_ascii_of_string s) = String.length s.
Proof. induction s as [|c s IH]; simpl; [reflexivity | now rewrite IH]. Qed.

Lemma substring_all (s : string) : substring 0 (String.length s) s = s.
Proof. induction s as [|c s IH]; simpl; [reflexivity | now rewrite IH]. Qed.

Lemma substring_skip (s t : string) (n : nat) :
  substring (String.length s) n (s ++ t) = substring 0 n t.
Proof. induction s as [|c s IH]; simpl; [reflexivity | exact IH]. Qed.

Lemma append_assoc (s t u : string) : (s ++ t) ++ u = s ++ (t ++ u).
Proof. induction s as [|c s IH]; simpl; [reflexivity | now rewrite IH]. Qed.

Lemma startsWith_append (p s : string) : startsWith p (p ++ s) = true.
Proof.
  induction p as [|c p IH]; simpl; [reflexivity |].
  now rewrite Ascii.eqb_refl, IH.
Qed.

Lemma startsWith_inv (p s : string) :
  startsWith p s = true -> exists r, s = p ++ r.
Proof.
  revert s; induction p as [|c p IH]; intros s H; simpl in *.
  - now exists s.
  - destruct s as [|d s]; [discriminate |].
    apply andb_prop in H as [Hc Hp].
    apply Ascii.eqb_eq in Hc; subst d.
    destruct (IH _ Hp) as [r ->]. now exists r.
Qed.

Lemma strip_prefix_append (p s : string) : strip_prefix p (p ++ s) = Some s.
Proof.
  induction p as [|c p IH]; simpl; [reflexivity |].
  now rewrite Ascii.eqb_refl, IH.
Qed.

Lemma strip_prefix_inv (p s r : string) :
  strip_prefix p s = Some r -> s = p ++ r.
Proof.
  revert s; induction p as [|c p IH]; intros s H; simpl in *.
  - now injection H as ->.
  - destruct s as [|d s]; [discriminate |].
    destruct (Ascii.eqb_spec c d) as [-> |]; [| discriminate].
    now rewrite (IH _ H).
Qed.

End StringFacts.

(** ** [path.extname] on a name with a final extension *)

Module NodePathFacts.

Import NodePath ExtnameSpec.
Local Open Scope Z_scope.

Lemma ext_step_plain (c : ascii) (i n : Z) :
  plain_char c = true -> n <> -1 ->
  ext_step (scanning (-1) n 0) i c = scanning (-1) n 0.
Proof.
  intros Hc Hn. unfold plain_char in Hc.
  apply andb_prop in Hc as [Hs Hd].
  apply negb_true_iff in Hs, Hd.
  unfold ext_step, scanning; simpl. rewrite Hs, Hd.
  destruct (Z.eqb_spec n (-1)); [contradiction | reflexivity].
Qed.

Lemma ext_loop_plain (l rest : list ascii) (i n : Z) :
  forallb plain_char l = true -> n <> -1 ->
  ext_loop (l ++ rest)%list i (scanning (-1) n 0)
  = ext_loop rest (i - Z.of_nat (List.length l)) (scanning (-1) n 0).
Proof.
  revert i. induction l as [|c l IH]; intros i Hl Hn.
  - simpl. f_equal. lia.
  - simpl in Hl. apply andb_prop in Hl as [Hc Hl].
    cbn [app ext_loop]. rewrite (ext_step_plain c i n Hc Hn).
    cbn [stopped scanning]. rewrite (IH (i - 1) Hl Hn).
    f_equal. cbn [List.length]. lia.
Qed.

Lemma ext_step_settled (d n i : Z) (c : ascii) (st : ext_state) :
  d <> -1 -> n <> -1 -> settled d n st -> settled d n (ext_step st i c).
Proof.
  intros Hd Hn (Hsd & Hep & Hpre & Hms).
  destruct st as [sd sp ep ms pre stp]; cbn in *; subst.
  unfold ext_step; cbn.
  destruct (Z.eqb_spec n (-1)); [contradiction |]. cbn.
  destruct (Z.eqb_spec d (-1)); [contradiction |]. cbn.
  destruct (Ascii.eqb c "/"); [repeat split; cbn; assumption |].
  destruct (Ascii.eqb c "."); [destruct (pre =? 1) |];
    repeat split; cbn; try reflexivity; try assumption; lia.
Qed.

Lemma ext_loop_settled (l : list ascii) (d n i : Z) (st : ext_state) :
  d <> -1 -> n <> -1 -> settled d n st -> settled d n (ext_loop l i st).
Proof.
  intros Hd Hn. revert i st. induction l as [|c l IH]; intros i st Hst.
  - exact Hst.
  - cbn [ext_loop].
    pose proof (ext_step_settled d n i c st Hd Hn Hst) as Hstep.
    destruct (stopped (ext_step st i c)); [exact Hstep | now apply IH].
Qed.

(** The extension of [stem ++ c ++ "." ++ ext] is ["." ++ ext] when [c] is
    not a slash and [ext] is non-empty without dot or slash. *)
Lemma extname_final_extension (stem : string) (c : ascii) (ext : string) :
  c <> "/"%char -> ext <> ""%string -> plain ext = true ->
  extname (stem ++ String c (String "." ext)) = String "." ext.
Proof.
  intros Hc Hne Hplain. unfold extname.
  set (p := (stem ++ String c (String "." ext))%string).
  set (ls := list_ascii_of_string stem).
  set (le := list_ascii_of_string ext).
  assert (Hchars : list_ascii_of_string p = (ls ++ c :: "."%char :: le)%list).
  { unfold p. now rewrite StringFacts.list_of_append. }
  assert (Hle : (0 < List.length le)%nat).
  { unfold le. rewrite StringFacts.length_list_of.
    destruct ext; [contradiction | simpl; lia]. }
  rewrite Hchars.
  replace (rev (ls ++ c :: "."%char :: le))
    with (rev le ++ "."%char :: c :: rev ls)%list
    by (rewrite rev_app_distr; simpl; now rewrite <- !app_assoc).
  rewrite length_app. cbn [List.length].
  set (n := Z.of_nat (List.length ls + S (S (List.length le)))).
  assert (Hrev : forallb plain_char (rev le) = true).
  { rewrite forallb_forall. intros x Hx. apply in_rev in Hx.
    unfold plain, le in *. rewrite forallb_forall in Hplain. now apply Hplain. }
  destruct (rev le) as [|x l'] eqn:Erev.
  { apply (f_equal (@List.length ascii)) in Erev.
    rewrite length_rev in Erev. simpl in Erev. lia. }
  assert (Hlen : List.length le = S (List.length l')).
  { rewrite <- (length_rev le), Erev. reflexivity. }
  simpl in Hrev. apply andb_prop in Hrev as [Hx Hl'].
  cbn [app ext_loop].
  assert (Hfirst : ext_step ext_init (n - 1) x = scanning (-1) n 0).
  { unfold plain_char in Hx. apply andb_prop in Hx as [Hs Hd].
    apply negb_true_iff in Hs, Hd.
    unfold ext_step, ext_init, scanning; simpl. rewrite Hs, Hd.
    f_equal. lia. }
  rewrite Hfirst. cbn [stopped scanning].
  assert (Hn : n <> -1) by (unfold n; lia).
  rewrite (ext_loop_plain l' _ _ n Hl' Hn).
  set (d := n - 1 - 1 - Z.of_nat (List.length l')).
  assert (Hd : d = Z.of_nat (List.length ls) + 1) by (unfold d, n; lia).
  cbn [ext_loop].
  assert (Hdot : ext_step (scanning (-1) n 0) d "." = scanning d n 0).
  { unfold ext_step, scanning; simpl.
    destruct (Z.eqb_spec n (-1)); [contradiction | reflexivity]. }
  rewrite Hdot. cbn [stopped scanning].
  assert (Hdne : d <> -1) by lia.
  assert (Hbefore : settled d n (ext_step (scanning d n 0) (d - 1) c)).
  { unfold ext_step, scanning; cbn.
    destruct (Ascii.eqb_spec c "/"); [contradiction |]. cbn.
    destruct (Z.eqb_spec n (-1)); [contradiction |]. cbn.
    destruct (Z.eqb_spec d (-1)); [contradiction |]. cbn.
    destruct (Ascii.eqb c "."); repeat split; cbn; try reflexivity; lia. }
  set (st := if stopped (ext_step (scanning d n 0) (d - 1) c)
             then ext_step (scanning d n 0) (d - 1) c
             else ext_loop (rev ls) (d - 1 - 1)
                    (ext_step (scanning d n 0) (d - 1) c)).
  assert (Hst : settled d n st).
  { unfold st. destruct (stopped _); [exact Hbefore |].
    now apply ext_loop_settled. }
  destruct Hst as (Hsd & Hep & Hpre & _).
  rewrite Hsd, Hep.
  destruct (Z.eqb_spec d (-1)); [contradiction |].
  destruct (Z.eqb_spec n (-1)); [contradiction |].
  destruct (Z.eqb_spec (preDotState st) 0); [contradiction |].
  destruct (Z.eqb_spec d (n - 1)); [unfold n in *; lia |].
  rewrite andb_false_r. cbn [orb andb].
  replace (Z.to_nat d) with (String.length (stem ++ String c "")).
  2:{ rewrite StringFacts.length_append. unfold ls in Hd.
      rewrite StringFacts.length_list_of in Hd. simpl. lia. }
  replace (Z.to_nat (n - d)) with (String.length (String "." ext)).
  2:{ unfold le in Hlen. rewrite StringFacts.length_list_of in Hlen.
      unfold n in *. unfold le in *.
      rewrite StringFacts.length_list_of in *. simpl. lia. }
  replace p with ((stem ++ String c "") ++ String "." ext)%string
    by (unfold p; now rewrite StringFacts.append_assoc).
  rewrite StringFacts.substring_skip. apply StringFacts.substring_all.
Qed.

End NodePathFacts.

(** ** Asset classification *)

Module AssetTypeFacts.

Import BuildOptimization ExtnameSpec AssetSpec NodePathFacts.

Lemma classify_lowered (ext : string) :
  (if String.eqb ext ".html" || String.eqb ext ".htm" then html
   else if String.eqb ext ".css" then css
   else if String.eqb ext ".js" || String.eqb ext ".mjs" then js
   else if existsb (String.eqb ext) image_extensions then image
   else other)
  = spec_type_of_extname ext.
Proof.
  destruct ext as [|a e]; [reflexivity |].
  unfold spec_type_of_extname, spec_asset_type, image_extensions.
  destruct (Ascii.eqb_spec a ".") as [-> | Hne].
  - cbn [existsb String.eqb]. rewrite !Ascii.eqb_refl.
    rewrite !orb_false_r. reflexivity.
  - assert (Hf : forall t, String.eqb (String a e) (String "." t) = false).
    { intros t. cbn [String.eqb].
      destruct (Ascii.eqb_spec a "."); [contradiction | reflexivity]. }
    cbn [existsb]. rewrite !Hf. cbn.
    destruct a as [[] [] [] [] [] [] [] []]; try reflexivity.
    contradiction.
Qed.

(** C9: [getAssetType] is a total function of the filename, determined by
    the lower-cased extension that [path.extname] finds: html and htm give
    html, css gives css, js and mjs give js, the eight image extensions
    give image, and every other filename gives other. On a name that ends
    with a dot and an extension this is the table of the specification
    applied to that extension in any letter case, and
    [getAssetType("main.MJS")] is js. *)
Theorem getAssetType_by_extension :
  (forall f : string,
      getAssetType f = spec_type_of_extname (toLowerCase (NodePath.extname f)))
  /\ (forall (stem : string) (c : ascii) (ext : string),
         c <> "/"%char -> ext <> "" -> plain ext = true ->
         getAssetType (stem ++ String c (String "." ext))
         = spec_asset_type (toLowerCase ext))
  /\ (forall f g : string,
         toLowerCase (NodePath.extname f) = toLowerCase (NodePath.extname g) ->
         getAssetType f = getAssetType g)
  /\ getAssetType "main.MJS" = js.
Proof.
  assert (H1 : forall f : string,
             getAssetType f
             = spec_type_of_extname (toLowerCase (NodePath.extname f))).
  { intros f. unfold getAssetType. apply classify_lowered. }
  split; [exact H1 |]. split; [| split].
  - intros stem c ext Hc Hne Hplain.
    rewrite H1, (extname_final_extension stem c ext Hc Hne Hplain).
    reflexivity.
  - intros f g Heq. now rewrite !H1, Heq.
  - reflexivity.
Qed.

Lemma getAssetType_by_extension_witness :
  getAssetType "photo.JPeG" = image /\ getAssetType "index.HTM" = html.
Proof.
  split.
  - exact (proj1 (proj2 getAssetType_by_extension) "phot" "o"%char "JPeG"
             ltac:(discriminate) ltac:(discriminate) eq_refl).
  - exact (proj1 (proj2 (proj2 getAssetType_by_extension))
             "index.HTM" "a.htm" eq_refl).
Defined.

End AssetTypeFacts.

(** ** Content-hash detection *)

Module HashFacts.

Import BuildOptimization AssetSpec.

Lemma hex_run_sound (s : string) (n : nat) :
  hex_run_then_dot n s = true ->
  exists hexs post : string,
    s = hexs ++ String "." post /\ all_hex hexs = true
    /\ 8 <= n + String.length hexs.
Proof.
  revert n. induction s as [|c r IH]; intros n H; [discriminate |].
  cbn [hex_run_then_dot] in H. destruct (is_hex c) eqn:Hc.
  - destruct (IH _ H) as (hexs & post & -> & Hh & Hlen).
    exists (String c hexs), post. cbn. rewrite Hc, Hh.
    repeat split; lia.
  - apply andb_prop in H as [Hdot Hn].
    apply Ascii.eqb_eq in Hdot; subst c.
    apply Nat.leb_le in Hn.
    exists "", r. cbn. repeat split; lia.
Qed.

Lemma hex_run_complete (hexs post : string) (n : nat) :
  all_hex hexs = true ->
  hex_run_then_dot n (hexs ++ String "." post)
  = (8 <=? n + String.length hexs)%nat.
Proof.
  revert n. induction hexs as [|c h IH]; intros n Hh.
  - cbn. now rewrite Nat.add_0_r.
  - cbn in Hh. apply andb_prop in Hh as [Hc Hh].
    cbn [String.append hex_run_then_dot]. rewrite Hc, (IH _ Hh).
    cbn [String.length]. f_equal. lia.
Qed.

Lemma hasContentHash_iff (filename : string) :
  hasContentHash filename = true <-> contains_hash_segment filename.
Proof.
  split.
  - induction filename as [|c r IH]; intros H; [discriminate |].
    cbn [hasContentHash] in H. apply orb_prop in H as [H | H].
    + cbn [hash_at] in H. apply andb_prop in H as [Hsep Hrun].
      destruct (hex_run_sound _ _ Hrun) as (hexs & post & -> & Hh & Hlen).
      exists "", c, hexs, post. repeat split; assumption.
    + destruct (IH H) as (pre & sep & hexs & post & -> & Hsep & Hh & Hlen).
      exists (String c pre), sep, hexs, post. repeat split; assumption.
  - intros (pre & sep & hexs & post & -> & Hsep & Hh & Hlen).
    induction pre as [|c pre IH].
    + cbn [String.append hasContentHash hash_at].
      rewrite Hsep, (hex_run_complete _ _ _ Hh). cbn [andb].
      replace (8 <=? 0 + String.length hexs)%nat with true; [reflexivity |].
      symmetry. apply Nat.leb_le. lia.
    + cbn [String.append hasContentHash]. rewrite IH. apply orb_true_r.
Qed.

(** C3, as the code has it: [hasContentHash] is true exactly when the
    filename contains, at any position, one of [.], [_] or [-] followed by
    at least eight hexadecimal digits (in either case) and a dot; a hash
    segment right before the final extension is one such case; and the
    three examples of the specification hold. *)
Theorem hasContentHash_matches_anywhere :
  (forall filename : string,
      hasContentHash filename = true <-> contains_hash_segment filename)
  /\ (forall filename : string,
         spec_hash_before_final_extension filename ->
         hasContentHash filename = true)
  /\ hasContentHash "style.abc12345.css" = true
  /\ hasContentHash "style.css" = false
  /\ hasContentHash "style.abc.css" = false.
Proof.
  split; [exact hasContentHash_iff |]. split; [| repeat split].
  intros filename (pre & sep & hexs & ext & -> & Hsep & Hh & Hlen & _).
  apply hasContentHash_iff. exists pre, sep, hexs, ext.
  repeat split; assumption.
Qed.

Lemma hasContentHash_matches_anywhere_witness :
  hasContentHash "main-DEADBEEF99.js" = true.
Proof.
  apply (proj1 (proj2 hasContentHash_matches_anywhere)).
  exists "main", "-"%char, "DEADBEEF99", "js".
  repeat split. cbn. lia.
Defined.

Lemma dot_free_append (s t : string) :
  dot_free (s ++ String "." t) = false.
Proof.
  induction s as [|c s IH]; cbn; [reflexivity |].
  rewrite IH. apply andb_false_r.
Qed.

(** The text before the last dot and the text after it are unique. *)
Lemma split_last_dot_unique (s t ext u : string) :
  dot_free ext = true -> dot_free u = true ->
  s ++ String "." ext = t ++ String "." u -> s = t /\ ext = u.
Proof.
  intros Hext Hu. revert t. induction s as [|a s IH]; intros [|b t] H; cbn in H.
  - injection H as ->. split; reflexivity.
  - injection H as <- ->. now rewrite dot_free_append in Hext.
  - injection H as -> <-. now rewrite dot_free_append in Hu.
  - injection H as -> H. destruct (IH _ H) as [-> ->]. split; reflexivity.
Qed.

Lemma ends_with_last (a h t : string) (x : ascii) :
  a ++ h = t ++ String x "" -> h <> "" ->
  exists h' : string, h = h' ++ String x "".
Proof.
  revert t. induction a as [|c a IH]; intros t H Hne; cbn in H.
  - now exists t.
  - destruct t as [|d t]; cbn in H.
    + injection H as _ H. destruct a; [cbn in H; contradiction | discriminate].
    + injection H as _ H. now apply (IH t).
Qed.

Lemma all_hex_last (h : string) (x : ascii) :
  all_hex (h ++ String x "") = true -> is_hex x = true.
Proof.
  induction h as [|c h IH]; cbn; intros H.
  - now rewrite andb_true_r in H.
  - apply andb_prop in H as [_ H]. now apply IH.
Qed.

(** C3, as the specification states it, fails: in
    [style.abc12345.min.css] the hash segment is followed by [min.css], not
    by the final extension, and [hasContentHash] is true all the same. *)
Lemma hasContentHash_not_only_before_extension :
  hasContentHash "style.abc12345.min.css" = true
  /\ ~ spec_hash_before_final_extension "style.abc12345.min.css".
Proof.
  split; [reflexivity |].
  intros (pre & sep & hexs & ext & Heq & _ & Hh & Hlen & Hext).
  assert (H : (pre ++ String sep hexs) ++ String "." ext
              = "style.abc12345.min" ++ String "." "css").
  { rewrite StringFacts.append_assoc. cbn [String.append].
    rewrite <- Heq. reflexivity. }
  apply split_last_dot_unique in H as [H _]; [| assumption | reflexivity].
  change (pre ++ String sep hexs = "style.abc12345.mi" ++ String "n" "") in H.
  change (String sep hexs) with (String sep "" ++ hexs) in H.
  rewrite <- StringFacts.append_assoc in H.
  apply ends_with_last in H as [h' ->].
  - apply all_hex_last in Hh. discriminate.
  - intros ->. cbn in Hlen. lia.
Qed.

End HashFacts.

(** ** The file-system snapshot *)

Module FsFacts.

Import Fs FsSpec.
Local Open Scope list_scope.

(** Induction on a tree, with the property available for every entry of a
    directory. *)
Lemma node_induction (P : node -> Prop) :
  (forall sz mt content, P (File sz mt content)) ->
  (forall entries, Forall (fun e => P (snd e)) entries -> P (Dir entries)) ->
  P Special ->
  forall n, P n.
Proof.
  intros HF HD HS. fix IH 1. intros [sz mt content | entries |].
  - apply HF.
  - apply HD. induction entries as [|[nm child] rest IHrest].
    + constructor.
    + constructor; [apply IH | exact IHrest].
  - exact HS.
Qed.

Lemma resolve_app (fs : node) (p q : NodePath.path) :
  resolve fs (p ++ q)
  = match resolve fs p with
    | Some n => resolve n q
    | None => None
    end.
Proof.
  revert fs. induction p as [|seg p IH]; intros fs; [reflexivity |].
  cbn [app resolve]. destruct fs as [| es |]; try reflexivity.
  destruct (lookup_entry seg es); [apply IH | reflexivity].
Qed.

Lemma lookup_entry_unique (es : list dirent) (n : string) (c : node) :
  unique_names (map fst es) = true -> In (n, c) es ->
  lookup_entry n es = Some c.
Proof.
  induction es as [|[m d] es IH]; intros Hu Hin; [contradiction |].
  cbn in Hu. apply andb_prop in Hu as [Hfresh Hu].
  cbn [lookup_entry]. destruct Hin as [Heq | Hin].
  - injection Heq as -> ->. now rewrite String.eqb_refl.
  - destruct (String.eqb_spec m n) as [-> | Hne]; [| now apply IH].
    apply negb_true_iff in Hfresh.
    assert (Hex : existsb (String.eqb n) (map fst es) = true).
    { apply existsb_exists. exists n. split.
      - change n with (fst (n, c)). now apply in_map.
      - apply String.eqb_refl. }
    congruence.
Qed.

Lemma well_formed_dir (es : list dirent) :
  well_formed (Dir es)
  = unique_names (map fst es) && all_well_formed es.
Proof.
  cbn [well_formed]. f_equal.
  induction es as [|[m d] es IH]; [reflexivity |].
  cbn. now rewrite IH.
Qed.

Lemma well_formed_entry (es : list dirent) (n : string) (c : node) :
  well_formed (Dir es) = true -> In (n, c) es -> well_formed c = true.
Proof.
  rewrite well_formed_dir. intros H Hin.
  apply andb_prop in H as [_ H]. unfold all_well_formed in H.
  rewrite forallb_forall in H. exact (H _ Hin).
Qed.

Lemma lookup_entry_in (es : list dirent) (n : string) (c : node) :
  lookup_entry n es = Some c -> In (n, c) es.
Proof.
  induction es as [|[m d] es IH]; [discriminate |].
  cbn [lookup_entry]. destruct (String.eqb_spec m n) as [-> | Hne].
  - intros [= ->]. now left.
  - intros H. right. now apply IH.
Qed.

Lemma well_formed_resolve (fs : node) (p : NodePath.path) (n : node) :
  well_formed fs = true -> resolve fs p = Some n -> well_formed n = true.
Proof.
  revert fs. induction p as [|seg p IH]; intros fs Hwf H.
  - now injection H as <-.
  - cbn [resolve] in H. destruct fs as [| es |]; try discriminate.
    destruct (lookup_entry seg es) as [c|] eqn:Hl; [| discriminate].
    apply (IH c); [| exact H].
    apply (well_formed_entry es seg c Hwf). now apply lookup_entry_in.
Qed.

End FsFacts.

(** ** The build report *)

Module BuildReportFacts.

Import Fs BuildOptimization FsSpec BuildSpec Samples FsFacts.
Local Open Scope list_scope.

Lemma collect_entry_dir (rel : NodePath.path) (entry_name : string)
    (sub : list dirent) :
  collect_entry rel entry_name (Dir sub) = collect_entries rel sub.
Proof.
  cbn [collect_entry].
  induction sub as [|[n c] sub IH]; [reflexivity |].
  cbn [collect_entries]. now rewrite <- IH.
Qed.

(** Every collected asset is a regular file at its relative path. *)
Lemma collect_entry_readable (root child : node) :
  forall (rel : NodePath.path) (entry_name : string),
    well_formed child = true -> resolve root rel = Some child ->
    forall a, In a (collect_entry rel entry_name child) ->
    exists sz mt content, resolve root (path a) = Some (File sz mt content).
Proof.
  induction child as [sz mt content | entries IH |] using node_induction;
    intros rel entry_name Hwf Hres a Hin.
  - destruct Hin as [<- | []]. cbn [path]. now exists sz, mt, content.
  - rewrite collect_entry_dir in Hin.
    assert (Hsub : forall l, incl l entries ->
              In a (collect_entries rel l) ->
              exists sz mt content,
                resolve root (path a) = Some (File sz mt content)).
    { clear Hin. induction l as [|[n c] l IHl]; intros Hincl Hin.
      - contradiction.
      - cbn [collect_entries] in Hin. apply in_app_or in Hin as [Hin | Hin].
        + assert (Hnc : In (n, c) entries) by (apply Hincl; now left).
          rewrite Stdlib.Lists.List.Forall_forall in IH.
          apply (IH (n, c) Hnc (NodePath.join rel [n]) n); [| | exact Hin].
          * now apply (well_formed_entry entries n c).
          * unfold NodePath.join. rewrite resolve_app, Hres.
            cbn [resolve]. rewrite (lookup_entry_unique entries n c).
            -- reflexivity.
            -- rewrite well_formed_dir in Hwf.
               now apply andb_prop in Hwf as [Hu _].
            -- exact Hnc.
        + apply IHl; [| exact Hin].
          intros e He. apply Hincl. now right. }
    apply (Hsub entries); [apply incl_refl | exact Hin].
  - contradiction.
Qed.

Lemma collectFiles_returns (fs : node) (dir : NodePath.path) :
  directory_or_missing fs dir = true ->
  collectFiles fs dir = Ok (collected fs dir).
Proof.
  unfold directory_or_missing, collected, collectFiles, existsSync, readdirSync.
  destruct (resolve fs dir) as [[| es |]|]; intros H;
    try discriminate; reflexivity.
Qed.

Lemma collected_readable (fs : node) (dir : NodePath.path) (a : AssetInfo) :
  well_formed fs = true -> In a (collected fs dir) ->
  readFileSync fs (NodePath.join dir (path a)) = Ok (content_of fs dir a).
Proof.
  intros Hwf Hin.
  assert (H : exists sz mt content,
             resolve fs (NodePath.join dir (path a))
             = Some (File sz mt content)).
  { unfold collected, collectFiles, existsSync, readdirSync in Hin.
    unfold NodePath.join. rewrite resolve_app.
    destruct (resolve fs dir) as [[| es |]|] eqn:Hres;
      cbn in Hin; try contradiction.
    apply (collect_entry_readable (Dir es) (Dir es) nil ""%string).
    - exact (well_formed_resolve fs dir _ Hwf Hres).
    - reflexivity.
    - now rewrite collect_entry_dir. }
  destruct H as (sz & mt & content & H).
  unfold content_of, readFileSync. now rewrite H.
Qed.

Lemma sample_minified_returns (fs : node) (dir : NodePath.path)
    (check : string -> bool) (sample : list AssetInfo) :
  (forall a, In a sample ->
     readFileSync fs (NodePath.join dir (path a)) = Ok (content_of fs dir a)) ->
  sample_minified fs dir check sample
  = Ok (forallb (fun a => check (content_of fs dir a)) sample).
Proof.
  induction sample as [|a rest IH]; intros Hread; [reflexivity |].
  cbn [sample_minified forallb].
  rewrite (Hread a (or_introl eq_refl)).
  destruct (check (content_of fs dir a)); cbn [negb andb]; [| reflexivity].
  apply IH. intros b Hb. apply Hread. now right.
Qed.

Lemma in_firstn {A : Type} (n : nat) (l : list A) (x : A) :
  In x (firstn n l) -> In x l.
Proof.
  intros H. rewrite <- (firstn_skipn n l). apply in_or_app. now left.
Qed.

Lemma sampled_in (t : AssetType) (l : list AssetInfo) (a : AssetInfo) :
  In a (sampled t l) -> In a l.
Proof.
  intros H. unfold sampled in H. apply in_firstn in H.
  apply filter_In in H. tauto.
Qed.

(** On a well-formed snapshot the report is produced, over the collected
    assets and with the checks above. *)
Lemma generateBuildReport_returns (fs : node) (now : string)
    (dir : NodePath.path) :
  well_formed fs = true -> directory_or_missing fs dir = true ->
  exists r : BuildReport,
    generateBuildReport fs now dir = Ok r
    /\ assets r = collected fs dir
    /\ optimizationChecks r = checks_of fs dir.
Proof.
  intros Hwf Hdir. unfold generateBuildReport.
  rewrite (collectFiles_returns fs dir Hdir).
  assert (Hread : forall t a, In a (sampled t (collected fs dir)) ->
            readFileSync fs (NodePath.join dir (path a))
            = Ok (content_of fs dir a)).
  { intros t a Ha. apply collected_readable; [exact Hwf |].
    now apply (sampled_in t). }
  fold (sampled html (collected fs dir)).
  fold (sampled css (collected fs dir)).
  fold (sampled js (collected fs dir)).
  rewrite !sample_minified_returns by (apply Hread).
  eexists. split; [reflexivity |]. split; [reflexivity |].
  cbn [optimizationChecks]. unfold checks_of. f_equal.
  destruct (List.filter in_assets_folder (collected fs dir)); reflexivity.
Qed.

Lemma forallb_filter_iff {A : Type} (p q : A -> bool) (l : list A) :
  forallb q (List.filter p l) = true
  <-> (forall a, In a l -> p a = true -> q a = true).
Proof.
  rewrite forallb_forall. split.
  - intros H a Ha Hp. apply H. apply filter_In. now split.
  - intros H a Ha. apply filter_In in Ha as [Ha Hp]. now apply H.
Qed.

Lemma in_assets_folder_iff (a : AssetInfo) :
  in_assets_folder a = true
  <-> (type a = css \/ type a = js)
      /\ startsWith "assets/" (NodePath.to_string (path a)) = true.
Proof.
  unfold in_assets_folder. rewrite andb_true_iff, orb_true_iff.
  destruct (type a); cbn; intuition congruence.
Qed.

(** C6, as the code has it: on a well-formed snapshot whose output
    directory is a directory or is missing, [generateBuildReport] returns a
    report in which [allAssetsHashed] is true exactly when every css or js
    asset whose path relative to the output directory starts with
    [assets/] carries a content hash (true when there is none), and each of
    [htmlMinified], [cssMinified] and [jsMinified] is true exactly when the
    first three collected files of that type all pass the check for their
    type; later files of the type play no part. *)
Theorem generateBuildReport_checks (fs : node) (now : string)
    (dir : NodePath.path) :
  well_formed fs = true -> directory_or_missing fs dir = true ->
  exists r : BuildReport,
    generateBuildReport fs now dir = Ok r
    /\ (allAssetsHashed (optimizationChecks r) = true
        <-> forall a, In a (assets r) ->
              (type a = css \/ type a = js) ->
              startsWith "assets/" (NodePath.to_string (path a)) = true ->
              hasHash a = true)
    /\ (htmlMinified (optimizationChecks r) = true
        <-> forall a, In a (firstn 3 (List.filter (of_type html) (assets r))) ->
              isHtmlMinified (content_of fs dir a) = true)
    /\ (cssMinified (optimizationChecks r) = true
        <-> forall a, In a (firstn 3 (List.filter (of_type css) (assets r))) ->
              isCssMinified (content_of fs dir a) = true)
    /\ (jsMinified (optimizationChecks r) = true
        <-> forall a, In a (firstn 3 (List.filter (of_type js) (assets r))) ->
              isJsMinified (content_of fs dir a) = true).
Proof.
  intros Hwf Hdir.
  destruct (generateBuildReport_returns fs now dir Hwf Hdir)
    as (r & Hr & Hassets & Hchecks).
  exists r. split; [exact Hr |]. rewrite Hchecks, Hassets.
  unfold checks_of, sampled; cbn [allAssetsHashed htmlMinified cssMinified jsMinified].
  split; [| now rewrite !forallb_forall].
  rewrite forallb_filter_iff. split.
  - intros H a Ha Hty Hpre. apply (H a Ha). now apply in_assets_folder_iff.
  - intros H a Ha Hin. apply in_assets_folder_iff in Hin as [Hty Hpre].
    now apply H.
Qed.

Lemma generateBuildReport_checks_witness :
  exists r : BuildReport,
    generateBuildReport sample_build "2024-01-01T00:00:00.000Z" ["dist"%string]
    = Ok r
    /\ allAssetsHashed (optimizationChecks r) = false.
Proof.
  destruct (generateBuildReport_checks sample_build
              "2024-01-01T00:00:00.000Z" ["dist"%string] eq_refl eq_refl)
    as (r & Hr & _).
  exists r. split; [exact Hr |].
  vm_compute in Hr. injection Hr as <-. reflexivity.
Defined.

(** C6, as the specification states it, fails: a script that lives under
    an [assets/] segment which is not the first one of its path is left
    out, and [allAssetsHashed] is true although it carries no hash. *)
Lemma allAssetsHashed_skips_nested_assets :
  exists (r : BuildReport) (a : AssetInfo),
    generateBuildReport nested_assets_build "2024-01-01T00:00:00.000Z"
      ["dist"%string] = Ok r
    /\ In a (assets r) /\ type a = js /\ spec_under_assets_segment a
    /\ hasHash a = false
    /\ allAssetsHashed (optimizationChecks r) = true.
Proof.
  eexists. eexists. split; [vm_compute; reflexivity |].
  split; [left; reflexivity |].
  split; [reflexivity |].
  split; [unfold spec_under_assets_segment; cbn; right; left; reflexivity |].
  split; reflexivity.
Qed.

Lemma push_unless_app (flag : bool) (e : string) (errors : list string) :
  push_unless flag e errors = errors ++ error_for flag e.
Proof. destruct flag; cbn; [now rewrite app_nil_r | reflexivity]. Qed.

(** C8: on a well-formed snapshot whose output directory is a directory or
    is missing, [validateBuildOptimization] returns the generated report,
    [valid] is true exactly when the error list is empty, the error list
    holds, in this order, one message for each of [allAssetsHashed],
    [htmlMinified], [cssMinified] and [jsMinified] that is false and
    nothing else, and when [allAssetsHashed] is false one of the errors
    contains "content hashes". *)
Theorem validateBuildOptimization_errors (fs : node) (now : string)
    (dir : NodePath.path) :
  well_formed fs = true -> directory_or_missing fs dir = true ->
  exists v : BuildValidation,
    validateBuildOptimization fs now dir = Ok v
    /\ generateBuildReport fs now dir = Ok (report v)
    /\ (valid v = true <-> errors v = nil)
    /\ errors v
       = error_for (allAssetsHashed (optimizationChecks (report v))) hash_error
         ++ error_for (htmlMinified (optimizationChecks (report v))) html_error
         ++ error_for (cssMinified (optimizationChecks (report v))) css_error
         ++ error_for (jsMinified (optimizationChecks (report v))) js_error
    /\ List.length (errors v)
       = count_false [ allAssetsHashed (optimizationChecks (report v));
                       htmlMinified (optimizationChecks (report v));
                       cssMinified (optimizationChecks (report v));
                       jsMinified (optimizationChecks (report v)) ]
    /\ (allAssetsHashed (optimizationChecks (report v)) = false ->
        exists e, In e (errors v) /\ includes "content hashes" e = true).
Proof.
  intros Hwf Hdir.
  destruct (generateBuildReport_returns fs now dir Hwf Hdir)
    as (r & Hr & _ & _).
  unfold validateBuildOptimization. rewrite Hr.
  eexists. split; [reflexivity |]. cbn [report errors valid].
  split; [reflexivity |].
  rewrite !push_unless_app. cbn [app]. rewrite <- !app_assoc.
  destruct (optimizationChecks r) as [hashed hmin cmin jmin].
  cbn [allAssetsHashed htmlMinified cssMinified jsMinified].
  split; [| split; [reflexivity | split]].
  - destruct hashed, hmin, cmin, jmin; cbn; split; intros H;
      first [reflexivity | discriminate].
  - destruct hashed, hmin, cmin, jmin; reflexivity.
  - intros ->. exists hash_error. split; [now left | reflexivity].
Qed.

Lemma validateBuildOptimization_errors_witness :
  exists v : BuildValidation,
    validateBuildOptimization sample_build "2024-01-01T00:00:00.000Z"
      ["dist"%string] = Ok v
    /\ valid v = false
    /\ errors v = [hash_error].
Proof.
  destruct (validateBuildOptimization_errors sample_build
              "2024-01-01T00:00:00.000Z" ["dist"%string] eq_refl eq_refl)
    as (v & Hv & _).
  exists v. split; [exact Hv |].
  vm_compute in Hv. injection Hv as <-. split; reflexivity.
Defined.

(** C10: [isCssMinified] of the empty string is false, because the ratio
    is [0 / 0], which is [NaN], and no comparison with [NaN] holds; whereas
    [isHtmlMinified] is true below 200 characters and [isJsMinified] below
    100; hence an empty css file among the first three css files makes
    [generateBuildReport] report [cssMinified] as false. *)
Theorem isCssMinified_empty_is_false :
  JsNum.div (of_nat (count_space_runs "")) (of_nat (String.length "")) = NaN
  /\ isCssMinified "" = false
  /\ (forall content : string,
         String.length content < 200 -> isHtmlMinified content = true)
  /\ (forall content : string,
         String.length content < 100 -> isJsMinified content = true)
  /\ (forall (fs : node) (now : string) (dir : NodePath.path) (a : AssetInfo),
         well_formed fs = true -> directory_or_missing fs dir = true ->
         In a (firstn 3 (List.filter (of_type css) (collected fs dir))) ->
         content_of fs dir a = ""%string ->
         exists r : BuildReport,
           generateBuildReport fs now dir = Ok r
           /\ cssMinified (optimizationChecks r) = false).
Proof.
  split; [reflexivity |]. split; [reflexivity |].
  split; [| split].
  - intros content H. unfold isHtmlMinified.
    apply Nat.ltb_lt in H. rewrite H. reflexivity.
  - intros content H. unfold isJsMinified.
    apply Nat.ltb_lt in H. rewrite H. reflexivity.
  - intros fs now dir a Hwf Hdir Hin Hempty.
    destruct (generateBuildReport_returns fs now dir Hwf Hdir)
      as (r & Hr & _ & Hchecks).
    exists r. split; [exact Hr |]. rewrite Hchecks.
    cbn [checks_of cssMinified].
    apply not_true_is_false. intros Hall.
    rewrite forallb_forall in Hall. specialize (Hall a Hin).
    rewrite Hempty in Hall. discriminate.
Qed.

Lemma isCssMinified_empty_is_false_witness :
  isHtmlMinified "" = true /\ isJsMinified "" = true
  /\ exists r : BuildReport,
       generateBuildReport empty_css_build "2024-01-01T00:00:00.000Z"
         ["dist"%string] = Ok r
       /\ cssMinified (optimizationChecks r) = false.
Proof.
  destruct isCssMinified_empty_is_false as (_ & _ & Hhtml & Hjs & Hreport).
  split; [apply Hhtml; cbn; lia |].
  split; [apply Hjs; cbn; lia |].
  apply (Hreport empty_css_build "2024-01-01T00:00:00.000Z" ["dist"%string]
           {| path := ["assets"%string; "b.22222222.css"%string]; size := 0;
              type := css; hasHash := true |});
    [reflexivity | reflexivity | | vm_compute; reflexivity].
  vm_compute. right. left. reflexivity.
Defined.

End BuildReportFacts.

(** ** The average rating *)

Module RatingFacts.

Import DataLoader RatingSpec.
Local Open Scope Q_scope.

Lemma sum_of_star_ratings (l : list Testimonial) (a : Q) :
  Forall (fun t => star_rating (rating t)) l ->
  exists s : Q,
    fold_left (fun acc t => JsNum.add acc (rating t)) l (Fin a) = Fin s
    /\ s == a + total (ratings l).
Proof.
  revert a. induction l as [|t l IH]; intros a Hall.
  - exists a. split; [reflexivity |]. cbn. ring.
  - inversion Hall as [|? ? Ht Hl]; subst.
    destruct Ht as (q & z & Hq & _ & _).
    cbn [fold_left]. rewrite Hq. cbn [JsNum.add].
    destruct (IH (a + q) Hl) as (s & Hs & Heq).
    exists s. split; [exact Hs |].
    rewrite Heq. cbn [ratings map total]. rewrite Hq. cbn [value_of].
    fold (ratings l). ring.
Qed.

Lemma total_of_star_ratings (l : list Testimonial) :
  Forall (fun t => star_rating (rating t)) l ->
  inject_Z (Z.of_nat (List.length l)) <= total (ratings l)
  /\ total (ratings l) <= 5 * inject_Z (Z.of_nat (List.length l)).
Proof.
  induction l as [|t l IH]; intros Hall.
  - cbn. change (inject_Z (Z.of_nat 0)) with 0. split; lra.
  - inversion Hall as [|? ? Ht Hl]; subst.
    destruct Ht as (q & z & Hq & Hz & Hlo & Hhi).
    destruct (IH Hl) as [IHlo IHhi].
    cbn [ratings map total List.length]. fold (ratings l).
    rewrite Hq. cbn [value_of]. rewrite Nat2Z.inj_succ.
    unfold Z.succ. rewrite inject_Z_plus.
    assert (H1 : 1 <= q) by (rewrite Hz; change 1 with (inject_Z 1);
                             rewrite <- Zle_Qle; lia).
    assert (H5 : q <= 5) by (rewrite Hz; change 5 with (inject_Z 5);
                             rewrite <- Zle_Qle; lia).
    change (inject_Z 1) with 1. split; lra.
Qed.

Lemma positive_length (l : list Testimonial) :
  l <> nil -> 0 < inject_Z (Z.of_nat (List.length l)).
Proof.
  intros Hne. change 0 with (inject_Z 0). rewrite <- Zlt_Qlt.
  destruct l; [contradiction | cbn [List.length]; lia].
Qed.

Lemma mean_of_star_ratings (l : list Testimonial) :
  l <> nil -> Forall (fun t => star_rating (rating t)) l ->
  1 <= mean (ratings l) /\ mean (ratings l) <= 5.
Proof.
  intros Hne Hall.
  destruct (total_of_star_ratings l Hall) as [Hlo Hhi].
  pose proof (positive_length l Hne) as Hn.
  unfold mean. unfold ratings at 2 4. rewrite length_map.
  set (n := inject_Z (Z.of_nat (List.length l))) in *.
  split.
  - apply Qle_shift_div_l; [exact Hn | lra].
  - apply Qle_shift_div_r; [exact Hn | lra].
Qed.

Lemma rounded_bounds (m : Q) :
  1 <= m -> m <= 5 ->
  let r := inject_Z (Qfloor (m * 10 + (1 # 2))) / 10 in
  1 <= r /\ r <= 5 /\ - (1 # 20) < r - m /\ r - m <= 1 # 20.
Proof.
  intros Hlo Hhi r.
  pose proof (Qfloor_le (m * 10 + (1 # 2))) as Hfl.
  pose proof (Qlt_floor (m * 10 + (1 # 2))) as Hfu.
  rewrite inject_Z_plus in Hfu. change (inject_Z 1) with 1 in Hfu.
  assert (H10 : (10 <= Qfloor (m * 10 + (1 # 2)))%Z).
  { refine (Qfloor_resp_le 10 _ _). lra. }
  assert (H50 : (Qfloor (m * 10 + (1 # 2)) <= 50)%Z).
  { refine (Qfloor_resp_le _ (101 # 2) _). lra. }
  rewrite Zle_Qle in H10, H50.
  change (inject_Z 10) with 10 in H10. change (inject_Z 50) with 50 in H50.
  unfold r. set (k := inject_Z (Qfloor (m * 10 + (1 # 2)))) in *.
  assert (Hdiv : k / 10 == k * (1 # 10)) by (unfold Qdiv; reflexivity).
  rewrite Hdiv. repeat split; lra.
Qed.

(** C7: [calculateAverageRating] returns [null] when no testimonial has
    the given course slug; and when some have it and their ratings are
    integers between 1 and 5, it returns the number
    [round(mean * 10) / 10], which lies between 1 and 5 and differs from
    the mean by at most one twentieth. *)
Theorem calculateAverageRating_spec (ts : list Testimonial) (slug : string) :
  (testimonials_of slug ts = nil -> calculateAverageRating ts slug = None)
  /\ (testimonials_of slug ts <> nil ->
      Forall (fun t => star_rating (rating t)) (testimonials_of slug ts) ->
      exists q : Q,
        calculateAverageRating ts slug = Some (Fin q)
        /\ q == spec_rounded_mean (ratings (testimonials_of slug ts))
        /\ 1 <= q /\ q <= 5
        /\ - (1 # 20) < q - mean (ratings (testimonials_of slug ts))
        /\ q - mean (ratings (testimonials_of slug ts)) <= 1 # 20).
Proof.
  unfold calculateAverageRating. fold (testimonials_of slug ts).
  set (l := testimonials_of slug ts). split.
  - intros ->. reflexivity.
  - intros Hne Hall.
    destruct l as [|t l'] eqn:El; [contradiction |].
    cbn [List.length Nat.eqb]. rewrite <- El in *.
    destruct (sum_of_star_ratings l 0 Hall) as (s & Hs & Heq).
    rewrite Hs.
    pose proof (positive_length l Hne) as Hn.
    assert (Hnz : JsNum.Qis0 (inject_Z (Z.of_nat (List.length l))) = false).
    { unfold JsNum.Qis0. apply not_true_is_false. intros H.
      apply Qeq_bool_eq in H. lra. }
    replace (S (List.length l')) with (List.length l) by (now rewrite El).
    unfold of_nat. cbn [JsNum.div]. rewrite Hnz.
    cbn [JsNum.mul JsNum.round JsNum.div].
    change (JsNum.Qis0 10) with false. cbn match.
    assert (Hmean : s / inject_Z (Z.of_nat (List.length l)) == mean (ratings l)).
    { unfold mean. unfold ratings at 2. rewrite length_map.
      rewrite Heq. field. lra. }
    eexists. split; [reflexivity |].
    destruct (mean_of_star_ratings l Hne Hall) as [Hlo Hhi].
    pose proof (rounded_bounds (mean (ratings l)) Hlo Hhi) as Hb.
    cbn zeta in Hb. unfold spec_rounded_mean.
    rewrite Hmean. split; [reflexivity |]. exact Hb.
Qed.

Lemma calculateAverageRating_spec_witness :
  calculateAverageRating
    [ {| courseSlug := "rocq"; rating := Fin 5 |};
      {| courseSlug := "other"; rating := Fin 1 |};
      {| courseSlug := "rocq"; rating := Fin 4 |};
      {| courseSlug := "rocq"; rating := Fin 4 |} ] "none" = None
  /\ exists q : Q,
       calculateAverageRating
         [ {| courseSlug := "rocq"; rating := Fin 5 |};
           {| courseSlug := "other"; rating := Fin 1 |};
           {| courseSlug := "rocq"; rating := Fin 4 |};
           {| courseSlug := "rocq"; rating := Fin 4 |} ] "rocq" = Some (Fin q)
       /\ q == 43 # 10.
Proof.
  split.
  - apply (proj1 (calculateAverageRating_spec _ "none")). reflexivity.
  - destruct (proj2 (calculateAverageRating_spec
              [ {| courseSlug := "rocq"; rating := Fin 5 |};
                {| courseSlug := "other"; rating := Fin 1 |};
                {| courseSlug := "rocq"; rating := Fin 4 |};
                {| courseSlug := "rocq"; rating := Fin 4 |} ] "rocq"))
      as (q & Hq & Heq & _).
    + discriminate.
    + repeat constructor.
      * exists 5, 5%Z. repeat split; try reflexivity; lia.
      * exists 4, 4%Z. repeat split; try reflexivity; lia.
      * exists 4, 4%Z. repeat split; try reflexivity; lia.
    + exists q. split; [exact Hq |]. rewrite Heq. reflexivity.
Defined.

End RatingFacts.

(** ** The data loader *)

Module LoaderFacts.

Import DataLoader LoaderSpec.

Lemma existsSync_of_read (fs : Fs.node) (p : NodePath.path) (content : string) :
  Fs.readFileSync fs p = Ok content -> Fs.existsSync fs p = true.
Proof.
  unfold Fs.readFileSync, Fs.existsSync.
  destruct (Fs.resolve fs p) as [[| |]|]; intros H;
    first [reflexivity | discriminate].
Qed.

(** C5, as the code has it: [loadYamlFile] never throws, it always
    returns a result record. A file that does not exist gives the error
    ["File not found: " ++ path]; content the YAML parser rejects gives
    ["Failed to load file: "] followed by the message of the parser;
    content that parses and that the schema rejects gives
    ["Schema validation failed: "] followed by the [message] of the
    schema error, the text the schema library prints for the error, and
    not a list made from the paths and messages of its issues; content
    the schema accepts gives the parsed data. No two of the three errors
    are the same string. *)
Theorem loadYamlFile_never_throws {T : Type}
    (yaml_load : string -> outcome jsval) (fs : Fs.node)
    (filePath : NodePath.path) (schema : Zod.ZodSchema T) :
  exists r : DataLoadResult T,
    loadYamlFile yaml_load fs filePath schema = Ok r
    /\ (Fs.existsSync fs filePath = false -> r = not_found T filePath)
    /\ (forall content message,
           Fs.readFileSync fs filePath = Ok content ->
           yaml_load content = Throw message ->
           r = load_failure T message)
    /\ (forall content parsed e,
           Fs.readFileSync fs filePath = Ok content ->
           yaml_load content = Ok parsed ->
           schema parsed = Zod.ParseFailure e ->
           r = schema_failure T e)
    /\ (forall content parsed d,
           Fs.readFileSync fs filePath = Ok content ->
           yaml_load content = Ok parsed ->
           schema parsed = Zod.ParseSuccess d ->
           r = loaded d)
    /\ (forall (p : NodePath.path) (message : string) (e : Zod.ZodError),
           error (not_found T p) <> error (load_failure T message)
           /\ error (not_found T p) <> error (schema_failure T e)
           /\ error (load_failure T message) <> error (schema_failure T e)).
Proof.
  unfold loadYamlFile, resolve, not_found, load_failure, schema_failure, loaded.
  destruct (Fs.existsSync fs filePath) eqn:Hex; cbn [negb].
  - destruct (Fs.readFileSync fs filePath) as [content | m] eqn:Hread;
      cbn [mbind outcome_bind try_catch].
    + destruct (yaml_load content) as [parsed | m] eqn:Hyaml;
        cbn [mbind outcome_bind try_catch].
      * destruct (schema parsed) as [d | e] eqn:Hschema; cbn [try_catch];
          eexists; (split; [reflexivity |]);
          (split; [discriminate |]);
          (split; [intros c m [= <-] Hy; congruence |]);
          (split; [intros c v e' [= <-] Hy Hs; congruence |]);
          (split; [intros c v d' [= <-] Hy Hs; congruence |]);
          intros p m e'; repeat split; discriminate.
      * eexists; (split; [reflexivity |]);
          (split; [discriminate |]);
          (split; [intros c m' [= <-] Hy; congruence |]);
          (split; [intros c v e' [= <-] Hy Hs; congruence |]);
          (split; [intros c v d' [= <-] Hy Hs; congruence |]);
          intros p m' e'; repeat split; discriminate.
    + eexists; (split; [reflexivity |]);
          (split; [discriminate |]);
          (split; [intros c m' [=] |]);
          (split; [intros c v e' [=] |]);
          (split; [intros c v d' [=] |]);
          intros p m' e'; repeat split; discriminate.
  - cbn [try_catch]. eexists. split; [reflexivity |].
    split; [reflexivity |].
    split; [intros c m Hr; apply existsSync_of_read in Hr; congruence |].
    split; [intros c v e Hr; apply existsSync_of_read in Hr; congruence |].
    split; [intros c v d Hr; apply existsSync_of_read in Hr; congruence |].
    intros p m e; repeat split; discriminate.
Qed.

Lemma loadYamlFile_never_throws_witness :
  loadYamlFile Samples.sample_yaml_load Samples.sample_site
    ["src"; "data"; "repositories.yaml"] Samples.title_schema
  = Ok (not_found jsval ["src"; "data"; "repositories.yaml"])
  /\ loadYamlFile Samples.sample_yaml_load Samples.sample_site
       ["src"; "data"; "publications.yaml"] Samples.title_schema
     = Ok (load_failure jsval
             "unexpected end of the stream within a flow collection")
  /\ exists e,
       loadYamlFile Samples.sample_yaml_load Samples.sample_site
         ["src"; "data"; "testimonials.yaml"] Samples.title_schema
       = Ok (schema_failure jsval e).
Proof.
  split; [| split].
  - destruct (loadYamlFile_never_throws Samples.sample_yaml_load
                Samples.sample_site ["src"; "data"; "repositories.yaml"]
                Samples.title_schema) as (r & Hr & Hmissing & _).
    rewrite Hr. f_equal. apply Hmissing. reflexivity.
  - destruct (loadYamlFile_never_throws Samples.sample_yaml_load
                Samples.sample_site ["src"; "data"; "publications.yaml"]
                Samples.title_schema) as (r & Hr & _ & Hparse & _).
    rewrite Hr. f_equal. apply (Hparse "title: ["); reflexivity.
  - destruct (loadYamlFile_never_throws Samples.sample_yaml_load
                Samples.sample_site ["src"; "data"; "testimonials.yaml"]
                Samples.title_schema) as (r & Hr & _ & _ & Hschema & _).
    eexists. rewrite Hr. f_equal.
    apply (Hschema "title: 7" (VObject [("title", VNumber (Fin 7))]));
      reflexivity.
Defined.

(** C5, as the specification states it, fails: for the document
    [title: 7] and a schema that wants a string, zod reports one issue,
    which the validator formats as [title: Expected string, received
    number]; the error of [loadYamlFile] is the prefix followed by the
    JSON text of the issue, and the formatted issue is no part of it. *)
Lemma schema_error_is_not_the_formatted_issues :
  exists (e : Zod.ZodError) (text : string),
    Samples.title_schema (VObject [("title", VNumber (Fin 7))])
    = Zod.ParseFailure e
    /\ ContentValidator.formatZodErrors e
       = ["title: Expected string, received number"]
    /\ loadYamlFile Samples.sample_yaml_load Samples.sample_site
         ["src"; "data"; "testimonials.yaml"] Samples.title_schema
       = Ok {| success := false; data := None; error := Some text |}
    /\ text = "Schema validation failed: " ++ Zod.error_message e
    /\ text <> "Schema validation failed: "
               ++ "title: Expected string, received number"
    /\ includes "title: Expected string, received number" text = false.
Proof.
  eexists. eexists.
  split; [reflexivity |]. split; [reflexivity |].
  split; [vm_compute; reflexivity |].
  split; [vm_compute; reflexivity |].
  split; [vm_compute; discriminate | vm_compute; reflexivity].
Qed.

End LoaderFacts.

(** ** Manifest diffing *)

Module ManifestFacts.

Import ContentValidator.
Local Open Scope list_scope.

Lemma inherited_In (file : string) :
  inherited file = true <-> In file inherited_names.
Proof.
  unfold inherited. rewrite existsb_exists. split.
  - intros (n & Hn & Heq). apply String.eqb_eq in Heq. now subst.
  - intros H. exists file. split; [exact H | apply String.eqb_refl].
Qed.

Section Diff.

Context {timestamp : Type} `{EqDecision timestamp}.

(** One iteration of the first loop. *)
Lemma classify_new_step (oldManifest : gmap string timestamp)
    (acc : list string * list string) (f : string) (t : timestamp)
    (file : string) :
  (In file (fst (classify_new oldManifest acc (f, t)))
   <-> In file (fst acc)
       \/ (file = f /\ oldManifest !! f = None /\ inherited f = false))
  /\ (In file (snd (classify_new oldManifest acc (f, t)))
      <-> In file (snd acc)
          \/ (file = f
              /\ ((exists t', oldManifest !! f = Some t' /\ t' <> t)
                  \/ (oldManifest !! f = None /\ inherited f = true)))).
Proof.
  unfold classify_new.
  destruct (oldManifest !! f) as [oldTime|] eqn:Hold.
  - case_bool_decide as Heq; cbn [negb fst snd].
    + split.
      * split; [now left |]. intros [Hin | (_ & Hn & _)]; [exact Hin |].
        discriminate.
      * split; [now left |].
        intros [Hin | (_ & [(t' & [= <-] & Hne) | [Hn _]])];
          [exact Hin | contradiction | discriminate].
    + split.
      * split; [now left |]. intros [Hin | (_ & Hn & _)]; [exact Hin |].
        discriminate.
      * rewrite in_app_iff. cbn [In]. split.
        -- intros [Hin | [<- | []]]; [now left |].
           right. split; [reflexivity |]. left. now exists oldTime.
        -- intros [Hin | (-> & _)]; [now left |]. right. now left.
  - destruct (inherited f) eqn:Hinh; cbn [negb fst snd].
    + split.
      * split; [now left |]. intros [Hin | (_ & _ & Hf)]; [exact Hin |].
        discriminate.
      * rewrite in_app_iff. cbn [In]. split.
        -- intros [Hin | [<- | []]]; [now left |].
           right. split; [reflexivity |]. right. now split.
        -- intros [Hin | (-> & _)]; [now left |]. right. now left.
    + split.
      * rewrite in_app_iff. cbn [In]. split.
        -- intros [Hin | [<- | []]]; [now left |]. right. now repeat split.
        -- intros [Hin | (-> & _)]; [now left |]. right. now left.
      * split; [now left |].
        intros [Hin | (_ & [(t' & Hs & _) | [_ Hf]])];
          [exact Hin | discriminate | discriminate].
Qed.

Lemma fold_classify_new (oldManifest : gmap string timestamp)
    (l : list (string * timestamp)) (acc : list string * list string) (file : string) :
  (In file (fst (fold_left (classify_new oldManifest) l acc))
   <-> In file (fst acc)
       \/ exists t, In (file, t) l /\ oldManifest !! file = None
                    /\ inherited file = false)
  /\ (In file (snd (fold_left (classify_new oldManifest) l acc))
      <-> In file (snd acc)
          \/ exists t,
               In (file, t) l
               /\ ((exists t', oldManifest !! file = Some t' /\ t' <> t)
                   \/ (oldManifest !! file = None /\ inherited file = true))).
Proof.
  revert acc. induction l as [|[f t] l IH]; intros acc.
  - cbn. split; split; try tauto.
    + intros [Hin | (t & [] & _)]. exact Hin.
    + intros [Hin | (t & [] & _)]. exact Hin.
  - cbn [fold_left].
    destruct (IH (classify_new oldManifest acc (f, t))) as [IHa IHm].
    destruct (classify_new_step oldManifest acc f t file) as [Sa Sm].
    rewrite IHa, IHm, Sa, Sm. clear IH IHa IHm Sa Sm. split; split.
    + intros [[Hin | (-> & Hn & Hf)] | (u & Hu & Hrest)].
      * now left.
      * right. exists t. split; [now left | now split].
      * right. exists u. split; [now right | exact Hrest].
    + intros [Hin | (u & [[= -> ->] | Hu] & Hrest)].
      * left. now left.
      * left. right. split; [reflexivity | exact Hrest].
      * right. now exists u.
    + intros [[Hin | (-> & Hcase)] | (u & Hu & Hrest)].
      * now left.
      * right. exists t. split; [now left | exact Hcase].
      * right. exists u. split; [now right | exact Hrest].
    + intros [Hin | (u & [[= -> ->] | Hu] & Hrest)].
      * left. now left.
      * left. right. split; [reflexivity | exact Hrest].
      * right. now exists u.
Qed.

Lemma fold_classify_old (newManifest : gmap string timestamp)
    (l acc : list string) (file : string) :
  In file (fold_left (classify_old newManifest) l acc)
  <-> In file acc
      \/ (In file l /\ newManifest !! file = None /\ inherited file = false).
Proof.
  revert acc. induction l as [|f l IH]; intros acc.
  - cbn. tauto.
  - cbn [fold_left]. rewrite IH. clear IH. unfold classify_old.
    destruct (newManifest !! f) eqn:Hnew;
      [| destruct (inherited f) eqn:Hinh; cbn [negb]].
    + split.
      * intros [Hin | (Hin & Hrest)]; [now left |].
        right. split; [now right | exact Hrest].
      * intros [Hin | ([-> | Hin] & Hn & Hf)];
          [now left | congruence | right; now repeat split].
    + split.
      * intros [Hin | (Hin & Hrest)]; [now left |].
        right. split; [now right | exact Hrest].
      * intros [Hin | ([-> | Hin] & Hn & Hf)];
          [now left | congruence | right; now repeat split].
    + rewrite in_app_iff. cbn [In]. split.
      * intros [[Hin | [<- | []]] | (Hin & Hrest)].
        -- now left.
        -- right. split; [now left | now split].
        -- right. split; [now right | exact Hrest].
      * intros [Hin | ([-> | Hin] & Hn & Hf)].
        -- left. now left.
        -- left. right. now left.
        -- right. now repeat split.
Qed.

Lemma in_map_to_list (m : gmap string timestamp) (file : string) (t : timestamp) :
  In (file, t) (map_to_list m) <-> m !! file = Some t.
Proof. rewrite <- list_elem_of_In. apply elem_of_map_to_list. Qed.

Lemma in_keys (m : gmap string timestamp) (k : string) :
  In k (map fst (map_to_list m)) <-> is_Some (m !! k).
Proof.
  rewrite in_map_iff. split.
  - intros ([f t] & <- & Hin). apply in_map_to_list in Hin. now exists t.
  - intros [t Ht]. exists (k, t). split; [reflexivity |].
    now apply in_map_to_list.
Qed.

Lemma modified_iff (oldManifest newManifest : gmap string timestamp)
    (file : string) :
  In file (modified (detectContentChanges oldManifest newManifest))
  <-> (exists t t', oldManifest !! file = Some t
                    /\ newManifest !! file = Some t' /\ t <> t')
      \/ (is_Some (newManifest !! file) /\ oldManifest !! file = None
          /\ inherited file = true).
Proof.
  unfold detectContentChanges.
  destruct (fold_classify_new oldManifest (map_to_list newManifest)
              (nil, nil) file) as [_ H].
  destruct (fold_left _ _ _) as [a m]. cbn [modified snd] in *.
  rewrite H. split.
  - intros [[] | (t & Hin & Hcase)]. apply in_map_to_list in Hin.
    destruct Hcase as [(t' & Hold & Hne) | [Hold Hinh]].
    + left. now exists t', t.
    + right. split; [now exists t | now split].
  - intros [(t & t' & Hold & Hnew & Hne) | ([t Hnew] & Hold & Hinh)]; right.
    + exists t'. rewrite in_map_to_list. split; [exact Hnew |].
      left. now exists t.
    + exists t. rewrite in_map_to_list. split; [exact Hnew |].
      right. now split.
Qed.

Lemma added_iff (oldManifest newManifest : gmap string timestamp)
    (file : string) :
  In file (added (detectContentChanges oldManifest newManifest))
  <-> is_Some (newManifest !! file) /\ oldManifest !! file = None
      /\ inherited file = false.
Proof.
  unfold detectContentChanges.
  destruct (fold_classify_new oldManifest (map_to_list newManifest)
              (nil, nil) file) as [H _].
  destruct (fold_left _ _ _) as [a m]. cbn [added fst] in *.
  rewrite H. split.
  - intros [[] | (t & Hin & Hrest)].
    apply in_map_to_list in Hin. split; [now exists t | exact Hrest].
  - intros [[t Hnew] Hrest]. right. exists t.
    rewrite in_map_to_list. now split.
Qed.

Lemma deleted_iff (oldManifest newManifest : gmap string timestamp)
    (file : string) :
  In file (deleted (detectContentChanges oldManifest newManifest))
  <-> is_Some (oldManifest !! file) /\ newManifest !! file = None
      /\ inherited file = false.
Proof.
  unfold detectContentChanges.
  destruct (fold_left (classify_new _) _ _) as [a m]. cbn [deleted].
  rewrite fold_classify_old, in_keys. split.
  - intros [[] | H]. exact H.
  - intros H. now right.
Qed.

(** C1, as the code has it: [file in manifest] holds of the keys of the
    manifest and of the names every object inherits ([toString],
    [constructor], ...). So a path is in [added] exactly when it is a key
    of the new manifest, not a key of the old one and not an inherited
    name; in [deleted] exactly when it is a key of the old manifest, not
    a key of the new one and not an inherited name; and in [modified]
    exactly when it is a key of both with different timestamps, or an
    inherited name that is a key of the new manifest only. A path with
    the same timestamp in both is in none of the three lists. For every
    path that is not an inherited name, as every path with a directory
    separator, the three lists are as the specification states them. *)
Theorem detectContentChanges_spec (oldManifest newManifest : gmap string timestamp)
    (file : string) :
  let changes := detectContentChanges oldManifest newManifest in
  (In file (modified changes)
   <-> (exists t t', oldManifest !! file = Some t
                     /\ newManifest !! file = Some t' /\ t <> t')
       \/ (is_Some (newManifest !! file) /\ oldManifest !! file = None
           /\ inherited file = true))
  /\ (In file (added changes)
      <-> is_Some (newManifest !! file) /\ oldManifest !! file = None
          /\ inherited file = false)
  /\ (In file (deleted changes)
      <-> is_Some (oldManifest !! file) /\ newManifest !! file = None
          /\ inherited file = false)
  /\ (forall t, oldManifest !! file = Some t -> newManifest !! file = Some t ->
        ~ In file (added changes) /\ ~ In file (modified changes)
        /\ ~ In file (deleted changes))
  /\ (inherited file = false ->
      (In file (modified changes)
       <-> exists t t', oldManifest !! file = Some t
                        /\ newManifest !! file = Some t' /\ t <> t')
      /\ (In file (added changes)
          <-> is_Some (newManifest !! file) /\ oldManifest !! file = None)
      /\ (In file (deleted changes)
          <-> is_Some (oldManifest !! file) /\ newManifest !! file = None)).
Proof.
  intros changes. unfold changes.
  pose proof (modified_iff oldManifest newManifest file) as Hmod.
  pose proof (added_iff oldManifest newManifest file) as Hadd.
  pose proof (deleted_iff oldManifest newManifest file) as Hdel.
  split; [exact Hmod |]. split; [exact Hadd |]. split; [exact Hdel |].
  split.
  - intros t Hold Hnew. rewrite Hmod, Hadd, Hdel. repeat split.
    + intros (_ & Hn & _). congruence.
    + intros [(u & u' & Hu & Hu' & Hne) | (_ & Hn & _)]; congruence.
    + intros (_ & Hn & _). congruence.
  - intros Hplain. rewrite Hmod, Hadd, Hdel. split; [| split].
    + split; [| now left].
      intros [Hboth | (_ & _ & Hinh)]; [exact Hboth | congruence].
    + split; [intros (Hn & Ho & _); now split | intros [Hn Ho]; now split].
    + split; [intros (Ho & Hn & _); now split | intros [Ho Hn]; now split].
Qed.

End Diff.

Lemma detectContentChanges_spec_witness :
  ~ In "/site/src/data/resume.yaml"%string
      (modified (detectContentChanges
                   (<["/site/src/data/resume.yaml"%string := 1700000000000%Z]> ∅)
                   (<["/site/src/data/resume.yaml"%string := 1700000000000%Z]>
                      (<["/site/src/data/new.yaml"%string := 1700000000001%Z]> ∅))))
  /\ (In "/site/src/data/new.yaml"%string
        (added (detectContentChanges
                  (<["/site/src/data/resume.yaml"%string := 1700000000000%Z]> ∅)
                  (<["/site/src/data/resume.yaml"%string := 1700000000000%Z]>
                     (<["/site/src/data/new.yaml"%string := 1700000000001%Z]> ∅))))
      <-> is_Some ((<["/site/src/data/resume.yaml"%string := 1700000000000%Z]>
                      (<["/site/src/data/new.yaml"%string := 1700000000001%Z]> ∅)
                    : gmap string Z)
                   !! "/site/src/data/new.yaml"%string)
          /\ (<["/site/src/data/resume.yaml"%string := 1700000000000%Z]> ∅
              : gmap string Z) !! "/site/src/data/new.yaml"%string = None).
Proof.
  split.
  - apply (proj1 (proj2 (proj2 (proj2 (detectContentChanges_spec _ _ _))))
             1700000000000%Z); reflexivity.
  - apply (proj2 (proj2 (proj2 (proj2
             (detectContentChanges_spec
                (<["/site/src/data/resume.yaml"%string := 1700000000000%Z]> ∅)
                (<["/site/src/data/resume.yaml"%string := 1700000000000%Z]>
                   (<["/site/src/data/new.yaml"%string := 1700000000001%Z]> ∅))
                "/site/src/data/new.yaml"%string)))) eq_refl).
Defined.

(** C1, as the specification states it, fails at a name every object
    inherits: [toString] is a key of the new manifest and not of the old
    one, and it is reported as modified, not as added; [constructor] is a
    key of the old manifest and not of the new one, and it is not
    reported as deleted. *)
Lemma inherited_name_is_not_added :
  (is_Some ((<["toString"%string := 1%Z]> ∅ : gmap string Z) !! "toString"%string)
   /\ (∅ : gmap string Z) !! "toString"%string = None
   /\ ~ In "toString"%string
          (added (detectContentChanges (∅ : gmap string Z)
                    (<["toString"%string := 1%Z]> ∅)))
   /\ In "toString"%string
         (modified (detectContentChanges (∅ : gmap string Z)
                      (<["toString"%string := 1%Z]> ∅))))
  /\ (is_Some ((<["constructor"%string := 1%Z]> ∅ : gmap string Z)
               !! "constructor"%string)
      /\ (∅ : gmap string Z) !! "constructor"%string = None
      /\ ~ In "constructor"%string
             (deleted (detectContentChanges
                         (<["constructor"%string := 1%Z]> ∅)
                         (∅ : gmap string Z)))).
Proof.
  split.
  - split; [now exists 1%Z |]. split; [reflexivity |]. split.
    + vm_compute. intros [].
    + vm_compute. now left.
  - split; [now exists 1%Z |]. split; [reflexivity |].
    vm_compute. intros [].
Qed.

End ManifestFacts.

(** ** Frontmatter *)

Module FrontmatterFacts.

Import ContentValidator FrontmatterSpec.

Lemma is_newline_LF (c : ascii) : is_newline c = true -> c = LF.
Proof.
  unfold is_newline, code. intros H. apply N.eqb_eq in H.
  rewrite <- (ascii_N_embedding c), H. reflexivity.
Qed.

Lemma lazy_body_sound (s body : string) :
  lazy_body s = Some body ->
  exists rest, s = body ++ String LF ("---" ++ rest).
Proof.
  revert body. induction s as [|c r IH]; intros body H.
  - discriminate.
  - cbn [lazy_body] in H.
    destruct (startsWith (String LF "---") (String c r)) eqn:Hs.
    + injection H as <-. apply StringFacts.startsWith_inv in Hs as [rest ->].
      now exists rest.
    + destruct (lazy_body r) as [b|] eqn:Hb; [| discriminate].
      injection H as <-. destruct (IH b eq_refl) as [rest ->].
      now exists rest.
Qed.

Lemma lazy_body_complete (body tail : string) :
  startsWith (String LF "---") tail = true ->
  exists b, lazy_body (body ++ tail) = Some b.
Proof.
  intros Htail. induction body as [|c body [b IH]].
  - exists "". cbn [String.append].
    destruct tail as [|d tail]; [discriminate |].
    cbn [lazy_body]. now rewrite Htail.
  - cbn [String.append lazy_body]. rewrite IH.
    destruct (startsWith (String LF "---") (String c (body ++ tail)));
      eexists; reflexivity.
Qed.

Lemma after_opening_sound (s body : string) :
  after_opening s = Some body ->
  exists ws rest,
    s = ws ++ String LF (body ++ String LF ("---" ++ rest))
    /\ all_space ws = true.
Proof.
  revert body. induction s as [|c r IH]; intros body H; [discriminate |].
  cbn [after_opening] in H. destruct (is_space c) eqn:Hc; [| discriminate].
  destruct (after_opening r) as [b|] eqn:Hr.
  - injection H as <-. destruct (IH b eq_refl) as (ws & rest & -> & Hws).
    exists (String c ws), rest. cbn. now rewrite Hc, Hws.
  - destruct (is_newline c) eqn:Hn; [| discriminate].
    apply is_newline_LF in Hn as ->.
    destruct (lazy_body_sound _ _ H) as [rest ->].
    exists "", rest. split; reflexivity.
Qed.

Lemma after_opening_complete (ws body rest : string) :
  all_space ws = true ->
  exists b,
    after_opening (ws ++ String LF (body ++ String LF ("---" ++ rest)))
    = Some b.
Proof.
  set (tail := String LF ("---" ++ rest)).
  assert (Htail : startsWith (String LF "---") tail = true)
    by apply (StringFacts.startsWith_append (String LF "---") rest).
  clearbody tail.
  induction ws as [|c ws IH]; intros Hws.
  - cbn [String.append after_opening].
    change (is_space LF) with true. change (is_newline LF) with true.
    cbn match. destruct (after_opening _) as [b|]; [now exists b |].
    now apply lazy_body_complete.
  - cbn in Hws. apply andb_prop in Hws as [Hc Hws].
    destruct (IH Hws) as [b Hb].
    cbn [String.append after_opening]. rewrite Hc, Hb. now exists b.
Qed.

Lemma match_frontmatter_iff (content : string) :
  (exists group1, match_frontmatter content = Some group1)
  <-> matches_frontmatter_pattern content.
Proof.
  unfold matches_frontmatter_pattern. split.
  - intros [group1 H]. unfold match_frontmatter in H.
    destruct (strip_prefix "---" content) as [r|] eqn:Hr; [| discriminate].
    apply StringFacts.strip_prefix_inv in Hr as ->.
    destruct (after_opening_sound _ _ H) as (ws & rest & -> & Hws).
    now exists ws, group1, rest.
  - intros (ws & body & rest & -> & Hws).
    destruct (after_opening_complete ws body rest Hws) as [b Hb].
    exists b. unfold match_frontmatter.
    now rewrite StringFacts.strip_prefix_append.
Qed.

End FrontmatterFacts.

(** ** Validation of Markdown files *)

Module MarkdownFacts.

Import ContentValidator FrontmatterSpec FrontmatterFacts.

Lemma validateMarkdownFile_read (yaml_load : string -> outcome jsval)
    (fs : Fs.node) (filePath : NodePath.path) (schema : Zod.ZodSchema jsval)
    (content : string) :
  Fs.readFileSync fs filePath = Ok content ->
  validateMarkdownFile yaml_load fs filePath schema
  = if truthy (extractFrontmatter yaml_load content)
    then schema_verdict filePath schema (extractFrontmatter yaml_load content)
    else no_frontmatter_result filePath.
Proof.
  intros Hread. unfold validateMarkdownFile, schema_verdict.
  rewrite (LoaderFacts.existsSync_of_read fs filePath content Hread), Hread.
  cbn [negb mbind outcome_bind].
  destruct (truthy (extractFrontmatter yaml_load content)); cbn [negb];
    [| reflexivity].
  destruct (schema (extractFrontmatter yaml_load content)); reflexivity.
Qed.

(** C4, as the code has it: for an existing Markdown file,
    [validateMarkdownFile] answers with the single error
    "No frontmatter found in markdown file" when the content does not
    match [/^---\s*\n([\s\S]*?)\n---/] (three dashes, optional white
    space, a newline, and later a newline followed by three dashes, which
    need not be a whole line), when the YAML parser throws on the captured
    text, and when the parsed value is falsy, as for an empty block; in
    every other case the answer is the verdict of the schema on the
    parsed value. *)
Theorem validateMarkdownFile_no_frontmatter
    (yaml_load : string -> outcome jsval) (fs : Fs.node)
    (filePath : NodePath.path) (schema : Zod.ZodSchema jsval)
    (content : string) :
  Fs.readFileSync fs filePath = Ok content ->
  (match_frontmatter content = None <-> ~ matches_frontmatter_pattern content)
  /\ (match_frontmatter content = None ->
      validateMarkdownFile yaml_load fs filePath schema
      = no_frontmatter_result filePath)
  /\ (forall group1 message,
         match_frontmatter content = Some group1 ->
         yaml_load group1 = Throw message ->
         validateMarkdownFile yaml_load fs filePath schema
         = no_frontmatter_result filePath)
  /\ (forall group1 v,
         match_frontmatter content = Some group1 ->
         yaml_load group1 = Ok v ->
         validateMarkdownFile yaml_load fs filePath schema
         = if truthy v then schema_verdict filePath schema v
           else no_frontmatter_result filePath).
Proof.
  intros Hread.
  rewrite (validateMarkdownFile_read yaml_load fs filePath schema content Hread).
  unfold extractFrontmatter. split; [| split; [| split]].
  - rewrite <- match_frontmatter_iff. split.
    + intros -> [g H]. discriminate.
    + intros H. destruct (match_frontmatter content) as [g|]; [| reflexivity].
      exfalso. apply H. now exists g.
  - intros ->. reflexivity.
  - intros group1 message -> ->. reflexivity.
  - intros group1 v -> ->. reflexivity.
Qed.

Lemma validateMarkdownFile_no_frontmatter_witness :
  validateMarkdownFile Samples.sample_yaml_load Samples.sample_site
    ["src"; "data"; "products"; "notes.txt"] Samples.title_schema
  = no_frontmatter_result ["src"; "data"; "products"; "notes.txt"]
  /\ validateMarkdownFile Samples.sample_yaml_load Samples.sample_site
       ["src"; "data"; "products"; "course.md"] Samples.title_schema
     = {| valid := true; file := ["src"; "data"; "products"; "course.md"];
          errors := None |}.
Proof.
  split.
  - apply (proj1 (proj2 (validateMarkdownFile_no_frontmatter
             Samples.sample_yaml_load Samples.sample_site
             ["src"; "data"; "products"; "notes.txt"] Samples.title_schema
             "notes" eq_refl))).
    reflexivity.
  - apply (proj2 (proj2 (proj2 (validateMarkdownFile_no_frontmatter
             Samples.sample_yaml_load Samples.sample_site
             ["src"; "data"; "products"; "course.md"] Samples.title_schema
             _ eq_refl)))
             "title: Rocq" (VObject [("title", VString "Rocq")]));
      reflexivity.
Defined.

(** C4, as the specification states it, fails in both directions. The
    file [loose.md] has no closing line that is exactly [---] (its closing
    line is [---more]), yet its frontmatter is found and the file is valid.
    The file [bare.md] opens with a [---] line and has a closing [---] line
    right after it, yet the pattern, which wants a newline before the
    closing dashes as well as after the opening ones, does not match and
    the file is reported as having no frontmatter. The file [empty.mdx] has
    an opening and a closing [---] line around an empty line, on which the
    parser does not throw, yet it is reported as having no frontmatter. *)
Lemma no_frontmatter_differs_from_missing_block :
  (exists content,
      Fs.readFileSync Samples.sample_site
        ["src"; "data"; "products"; "loose.md"] = Ok content
      /\ spec_has_frontmatter_block content = false
      /\ validateMarkdownFile Samples.sample_yaml_load Samples.sample_site
           ["src"; "data"; "products"; "loose.md"] Samples.title_schema
         = {| valid := true; file := ["src"; "data"; "products"; "loose.md"];
              errors := None |})
  /\ (exists content,
         Fs.readFileSync Samples.sample_site
           ["src"; "data"; "products"; "bare.md"] = Ok content
         /\ spec_has_frontmatter_block content = true
         /\ match_frontmatter content = None
         /\ forall yaml_load schema,
              validateMarkdownFile yaml_load Samples.sample_site
                ["src"; "data"; "products"; "bare.md"] schema
              = no_frontmatter_result ["src"; "data"; "products"; "bare.md"])
  /\ (exists content,
         Fs.readFileSync Samples.sample_site
           ["src"; "data"; "products"; "empty.mdx"] = Ok content
         /\ spec_has_frontmatter_block content = true
         /\ match_frontmatter content = Some ""
         /\ Samples.sample_yaml_load "" = Ok VUndefined
         /\ validateMarkdownFile Samples.sample_yaml_load Samples.sample_site
              ["src"; "data"; "products"; "empty.mdx"] Samples.title_schema
            = no_frontmatter_result ["src"; "data"; "products"; "empty.mdx"]).
Proof.
  split; [| split]; eexists; (split; [reflexivity |]);
    repeat split; reflexivity.
Qed.

End MarkdownFacts.

(** ** Validation of all content *)

Module ReportFacts.

Import ContentValidator FsSpec ReportSpec FsFacts.
Local Open Scope list_scope.

Section Report.

Variable yaml_load : string -> outcome jsval.
Variables resumeFileSchema testimonialsFileSchema repositoriesFileSchema
          publicationsFileSchema productSchema : Zod.ZodSchema jsval.

Local Abbreviation yaml_results := (ReportSpec.yaml_results yaml_load).
Local Abbreviation product_results :=
  (ReportSpec.product_results yaml_load productSchema).

Lemma file_validateYamlFile (fs : Fs.node) (p : NodePath.path)
    (schema : Zod.ZodSchema jsval) :
  file (validateYamlFile yaml_load fs p schema) = p.
Proof.
  unfold validateYamlFile.
  destruct (Fs.existsSync fs p); cbn [negb try_catch]; [| reflexivity].
  destruct (Fs.readFileSync fs p) as [content|];
    cbn [mbind outcome_bind try_catch]; [| reflexivity].
  destruct (yaml_load content) as [v|];
    cbn [mbind outcome_bind try_catch]; [| reflexivity].
  destruct (schema v); reflexivity.
Qed.

Lemma file_validateMarkdownFile (fs : Fs.node) (p : NodePath.path)
    (schema : Zod.ZodSchema jsval) :
  file (validateMarkdownFile yaml_load fs p schema) = p.
Proof.
  unfold validateMarkdownFile.
  destruct (Fs.existsSync fs p); cbn [negb try_catch]; [| reflexivity].
  destruct (Fs.readFileSync fs p) as [content|];
    cbn [mbind outcome_bind try_catch]; [| reflexivity].
  destruct (truthy (extractFrontmatter yaml_load content));
    cbn [negb try_catch]; [| reflexivity].
  destruct (schema _); reflexivity.
Qed.

Lemma validate_yaml_files_app (fs : Fs.node)
    (validations : list (NodePath.path * Zod.ZodSchema jsval))
    (results : list ValidationResult) :
  validate_yaml_files yaml_load fs validations results
  = results ++ yaml_results fs validations.
Proof.
  revert results. induction validations as [|[p schema] l IH]; intros results.
  - cbn. now rewrite app_nil_r.
  - cbn [validate_yaml_files]. rewrite IH. unfold yaml_results.
    cbn [List.filter fst snd]. destruct (Fs.existsSync fs p).
    + cbn [map fst snd]. now rewrite <- app_assoc.
    + reflexivity.
Qed.

Lemma validate_product_files_app (fs : Fs.node)
    (productFiles : list NodePath.path) (results : list ValidationResult) :
  validate_product_files yaml_load productSchema fs productFiles results
  = results ++ product_results fs productFiles.
Proof.
  revert results. induction productFiles as [|f l IH]; intros results.
  - cbn. now rewrite app_nil_r.
  - cbn [validate_product_files]. rewrite IH. unfold product_results.
    cbn [List.filter].
    destruct (String.eqb (NodePath.basename f) ".gitkeep"); cbn [negb].
    + reflexivity.
    + cbn [map]. now rewrite <- app_assoc.
Qed.

Lemma getFilesInDirectory_returns (fs : Fs.node) (dir : NodePath.path)
    (extensions : list string) :
  directory_or_missing fs dir = true ->
  getFilesInDirectory fs dir extensions
  = Ok (listed_files fs dir extensions).
Proof.
  unfold directory_or_missing, listed_files, getFilesInDirectory,
    Fs.existsSync, Fs.readdirSync.
  destruct (Fs.resolve fs dir) as [[| es |]|]; intros H;
    try discriminate; reflexivity.
Qed.

Lemma lookup_entry_named (es : list Fs.dirent) (e : Fs.dirent) :
  In e es -> Fs.lookup_entry (Fs.name e) es <> None.
Proof.
  induction es as [|[m d] es IH]; intros Hin; [contradiction |].
  cbn [Fs.lookup_entry]. destruct (String.eqb_spec m (Fs.name e)).
  - discriminate.
  - destruct Hin as [<- | Hin]; [contradiction | now apply IH].
Qed.

Lemma listed_files_exist (fs : Fs.node) (dir : NodePath.path)
    (extensions : list string) (f : NodePath.path) :
  In f (listed_files fs dir extensions) -> Fs.existsSync fs f = true.
Proof.
  unfold listed_files, getFilesInDirectory, Fs.existsSync, Fs.readdirSync.
  destruct (Fs.resolve fs dir) as [[| es |]|] eqn:Hdir;
    cbn [negb mbind outcome_bind]; try contradiction.
  intros Hin. apply in_map_iff in Hin as (e & <- & He).
  apply filter_In in He as [He _].
  unfold NodePath.join. rewrite resolve_app, Hdir. cbn [Fs.resolve].
  pose proof (lookup_entry_named es e He) as Hl.
  destruct (Fs.lookup_entry (Fs.name e) es); [reflexivity | contradiction].
Qed.

Lemma count_partition (l : list ValidationResult) :
  List.length l
  = List.length (List.filter (fun r => valid r) l)
    + List.length (List.filter (fun r => negb (valid r)) l).
Proof.
  induction l as [|r l IH]; [reflexivity |].
  cbn [List.filter]. destruct (valid r); cbn [negb List.length]; lia.
Qed.

(** C2: when the products path is a directory or is missing,
    [validateAllContent] returns a report whose [success] is true
    exactly when its invalid count is zero; the counts are those of the
    results; the results are those of the four data files that exist,
    then those of the product files; and a data file that does not
    exist has no result, so that it is counted nowhere. *)
Theorem validateAllContent_report (fs : Fs.node) (now : string)
    (basePath : NodePath.path) :
  directory_or_missing fs
    (NodePath.join basePath ["src"; "data"; "products"]%string) = true ->
  exists report : ContentValidationReport,
    validateAllContent yaml_load resumeFileSchema testimonialsFileSchema
      repositoriesFileSchema publicationsFileSchema productSchema
      fs now basePath = Ok report
    /\ (success report = true <-> invalid_count (summary report) = 0)
    /\ total (summary report) = List.length (results report)
    /\ valid_count (summary report)
       = List.length (List.filter (fun r => valid r) (results report))
    /\ invalid_count (summary report)
       = List.length (List.filter (fun r => negb (valid r)) (results report))
    /\ total (summary report)
       = valid_count (summary report) + invalid_count (summary report)
    /\ results report
       = yaml_results fs
           (yamlValidations resumeFileSchema testimonialsFileSchema
              repositoriesFileSchema publicationsFileSchema basePath)
         ++ product_results fs
              (listed_files fs
                 (NodePath.join basePath ["src"; "data"; "products"]%string)
                 [".md"; ".mdx"]%string)
    /\ (forall p schema,
           In (p, schema)
              (yamlValidations resumeFileSchema testimonialsFileSchema
                 repositoriesFileSchema publicationsFileSchema basePath) ->
           Fs.existsSync fs p = false ->
           forall r, In r (results report) -> file r <> p).
Proof.
  intros Hdir. unfold validateAllContent.
  rewrite (getFilesInDirectory_returns _ _ _ Hdir).
  cbn [mbind outcome_bind].
  rewrite validate_yaml_files_app, validate_product_files_app.
  cbn [app]. eexists. split; [reflexivity |].
  cbn [success summary results total valid_count invalid_count].
  split; [apply Nat.eqb_eq |]. split; [reflexivity |].
  split; [reflexivity |]. split; [reflexivity |].
  split; [apply count_partition |]. split; [reflexivity |].
  intros p schema _ Hmissing r Hr Hfile.
  assert (Hex : Fs.existsSync fs (file r) = true).
  { apply in_app_or in Hr as [Hr | Hr].
    - unfold yaml_results in Hr. apply in_map_iff in Hr as ([q s] & <- & Hq).
      apply filter_In in Hq as [_ Hq]. cbn [fst snd] in *.
      now rewrite file_validateYamlFile.
    - unfold product_results in Hr. apply in_map_iff in Hr as (f & <- & Hf).
      apply filter_In in Hf as [Hf _].
      rewrite file_validateMarkdownFile.
      now apply (listed_files_exist fs _ _ f Hf). }
  congruence.
Qed.

End Report.

Lemma validateAllContent_report_witness :
  exists report : ContentValidationReport,
    validateAllContent Samples.sample_yaml_load Samples.title_schema
      Samples.title_schema Samples.title_schema Samples.title_schema
      Samples.title_schema Samples.sample_site "2024-01-01T00:00:00.000Z" nil
    = Ok report
    /\ success report = false
    /\ summary report = {| total := 7; valid_count := 3; invalid_count := 4 |}
    /\ map file (results report)
       = [ ["src"; "data"; "resume.yaml"];
           ["src"; "data"; "testimonials.yaml"];
           ["src"; "data"; "publications.yaml"];
           ["src"; "data"; "products"; "course.md"];
           ["src"; "data"; "products"; "loose.md"];
           ["src"; "data"; "products"; "empty.mdx"];
           ["src"; "data"; "products"; "bare.md"] ]%string.
Proof.
  destruct (validateAllContent_report Samples.sample_yaml_load
              Samples.title_schema Samples.title_schema Samples.title_schema
              Samples.title_schema Samples.title_schema Samples.sample_site
              "2024-01-01T00:00:00.000Z" nil eq_refl) as (report & Hr & _).
  exists report. split; [exact Hr |].
  vm_compute in Hr. injection Hr as <-. repeat split; reflexivity.
Defined.

End ReportFacts.

(** ** Laws of manifest diffing *)

Module ManifestLaws.

Import ContentValidator ManifestSpec ManifestFacts.
Local Open Scope list_scope.

Section Laws.

Context {timestamp : Type} `{EqDecision timestamp}.

Lemma fold_classify_old_filter (newManifest : gmap string timestamp)
    (l acc : list string) :
  fold_left (classify_old newManifest) l acc
  = acc ++ List.filter (missing_in newManifest) l.
Proof.
  revert acc. induction l as [|f l IH]; intros acc.
  - cbn. now rewrite app_nil_r.
  - cbn [fold_left List.filter]. rewrite IH.
    unfold classify_old, missing_in, absent_from.
    destruct (newManifest !! f); cbn [andb]; [reflexivity |].
    destruct (inherited f); cbn [negb]; [reflexivity |].
    now rewrite <- app_assoc.
Qed.

Lemma fold_classify_new_added (oldManifest : gmap string timestamp)
    (l : list (string * timestamp)) (acc : list string * list string) :
  fst (fold_left (classify_new oldManifest) l acc)
  = fst acc ++ List.filter (missing_in oldManifest) (map fst l).
Proof.
  revert acc. induction l as [|[f t] l IH]; intros acc.
  - cbn. now rewrite app_nil_r.
  - cbn [fold_left map List.filter fst]. rewrite IH.
    unfold classify_new, missing_in, absent_from.
    destruct (oldManifest !! f) as [oldTime|]; cbn [andb].
    + destruct (negb (bool_decide (oldTime = t))); reflexivity.
    + destruct (inherited f); cbn [negb fst]; [reflexivity |].
      now rewrite <- app_assoc.
Qed.

Lemma added_filter (oldManifest newManifest : gmap string timestamp) :
  added (detectContentChanges oldManifest newManifest)
  = List.filter (missing_in oldManifest) (map fst (map_to_list newManifest)).
Proof.
  unfold detectContentChanges.
  pose proof (fold_classify_new_added oldManifest (map_to_list newManifest)
                (nil, nil)) as H.
  destruct (fold_left (classify_new oldManifest) _ _) as [a m].
  cbn [added fst app] in *. exact H.
Qed.

Lemma deleted_filter (oldManifest newManifest : gmap string timestamp) :
  deleted (detectContentChanges oldManifest newManifest)
  = List.filter (missing_in newManifest) (map fst (map_to_list oldManifest)).
Proof.
  unfold detectContentChanges.
  destruct (fold_left (classify_new oldManifest) _ _) as [a m].
  cbn [deleted]. now rewrite fold_classify_old_filter.
Qed.

Lemma plain_key (m : gmap string timestamp) (k : string) :
  plain_keys m = true -> is_Some (m !! k) -> inherited k = false.
Proof.
  unfold plain_keys. rewrite forallb_forall. intros Hall Hk.
  apply in_keys in Hk. apply negb_true_iff. now apply Hall.
Qed.

(** X1: exchanging the two manifests exchanges [added] and [deleted], as
    lists; and when no key of either manifest is a name every object
    inherits, it leaves the set of [modified] paths as it is. *)
Theorem detectContentChanges_swap (a b : gmap string timestamp) :
  deleted (detectContentChanges a b) = added (detectContentChanges b a)
  /\ added (detectContentChanges a b) = deleted (detectContentChanges b a)
  /\ (plain_keys a = true -> plain_keys b = true ->
      forall file,
        In file (modified (detectContentChanges a b))
        <-> In file (modified (detectContentChanges b a))).
Proof.
  split; [| split].
  - now rewrite deleted_filter, added_filter.
  - now rewrite deleted_filter, added_filter.
  - intros Ha Hb file. rewrite !modified_iff. split.
    + intros [(t & t' & Hta & Htb & Hne) | (Hkey & _ & Hinh)].
      * left. exists t', t. repeat split; congruence.
      * rewrite (plain_key b file Hb Hkey) in Hinh. discriminate.
    + intros [(t & t' & Htb & Hta & Hne) | (Hkey & _ & Hinh)].
      * left. exists t', t. repeat split; congruence.
      * rewrite (plain_key a file Ha Hkey) in Hinh. discriminate.
Qed.

(** X2: equal manifests give no change at all; and when no key of either
    manifest is a name every object inherits, no change at all is
    reported only for equal manifests. *)
Theorem detectContentChanges_nothing_iff_equal
    (oldManifest newManifest : gmap string timestamp) :
  (oldManifest = newManifest ->
   added (detectContentChanges oldManifest newManifest) = nil
   /\ modified (detectContentChanges oldManifest newManifest) = nil
   /\ deleted (detectContentChanges oldManifest newManifest) = nil)
  /\ (plain_keys oldManifest = true -> plain_keys newManifest = true ->
      added (detectContentChanges oldManifest newManifest) = nil ->
      modified (detectContentChanges oldManifest newManifest) = nil ->
      deleted (detectContentChanges oldManifest newManifest) = nil ->
      oldManifest = newManifest).
Proof.
  split.
  - intros <-.
    assert (Hnone : forall l : list string, (forall k, ~ In k l) -> l = nil).
    { intros [|k l] Hl; [reflexivity |]. destruct (Hl k). now left. }
    repeat split; apply Hnone; intros k Hk.
    + apply added_iff in Hk as ([t Ht] & Hn & _). congruence.
    + apply modified_iff in Hk
        as [(t & t' & Ht & Ht' & Hne) | ([t Ht] & Hn & _)]; congruence.
    + apply deleted_iff in Hk as ([t Ht] & Hn & _). congruence.
  - intros Hpo Hpn Ha Hm Hd. apply map_eq. intros k.
    destruct (newManifest !! k) as [t'|] eqn:Hnew.
    + destruct (oldManifest !! k) as [t|] eqn:Hold.
      * destruct (decide (t = t')) as [-> | Hne]; [reflexivity |].
        assert (Hin : In k (modified (detectContentChanges oldManifest newManifest))).
        { apply modified_iff. left. now exists t, t'. }
        rewrite Hm in Hin. contradiction.
      * assert (Hin : In k (added (detectContentChanges oldManifest newManifest))).
        { apply added_iff. split; [now exists t' |]. split; [exact Hold |].
          apply (plain_key newManifest k Hpn). now exists t'. }
        rewrite Ha in Hin. contradiction.
    + destruct (oldManifest !! k) as [t|] eqn:Hold; [| reflexivity].
      assert (Hin : In k (deleted (detectContentChanges oldManifest newManifest))).
      { apply deleted_iff. split; [now exists t |]. split; [exact Hnew |].
        apply (plain_key oldManifest k Hpo). now exists t. }
      rewrite Hd in Hin. contradiction.
Qed.

Lemma NoDup_keys (m : gmap string timestamp) :
  List.NoDup (map fst (map_to_list m)).
Proof. apply NoDup_ListNoDup, NoDup_fst_map_to_list. Qed.

Lemma NoDup_modified (oldManifest : gmap string timestamp)
    (l : list (string * timestamp)) (acc : list string * list string) :
  List.NoDup (snd acc ++ map fst l) ->
  List.NoDup (snd (fold_left (classify_new oldManifest) l acc)).
Proof.
  revert acc. induction l as [|[f t] l IH]; intros acc Hnd.
  - cbn in *. now rewrite app_nil_r in Hnd.
  - cbn [fold_left]. apply IH. cbn [map fst] in Hnd.
    unfold classify_new. destruct (oldManifest !! f) as [oldTime|].
    + destruct (negb (bool_decide (oldTime = t))); cbn [snd].
      * now rewrite <- app_assoc.
      * apply List.NoDup_remove_1 in Hnd. exact Hnd.
    + destruct (negb (inherited f)); cbn [snd].
      * apply List.NoDup_remove_1 in Hnd. exact Hnd.
      * now rewrite <- app_assoc.
Qed.

Lemma NoDup_changes (oldManifest newManifest : gmap string timestamp) :
  List.NoDup (added (detectContentChanges oldManifest newManifest))
  /\ List.NoDup (modified (detectContentChanges oldManifest newManifest))
  /\ List.NoDup (deleted (detectContentChanges oldManifest newManifest)).
Proof.
  split; [| split].
  - rewrite added_filter. apply List.NoDup_filter, NoDup_keys.
  - unfold detectContentChanges.
    pose proof (NoDup_modified oldManifest (map_to_list newManifest) (nil, nil))
      as H.
    destruct (fold_left (classify_new oldManifest) _ _) as [a m].
    cbn [modified snd app] in *. apply H, NoDup_keys.
  - rewrite deleted_filter. apply List.NoDup_filter, NoDup_keys.
Qed.

(** X3: no path is reported twice: each of the three lists is free of
    duplicates and no path is in two of them. *)
Theorem detectContentChanges_disjoint
    (oldManifest newManifest : gmap string timestamp) :
  let changes := detectContentChanges oldManifest newManifest in
  List.NoDup (added changes) /\ List.NoDup (modified changes)
  /\ List.NoDup (deleted changes)
  /\ forall file,
       ~ (In file (added changes) /\ In file (modified changes))
       /\ ~ (In file (added changes) /\ In file (deleted changes))
       /\ ~ (In file (modified changes) /\ In file (deleted changes)).
Proof.
  intros changes. unfold changes.
  destruct (NoDup_changes oldManifest newManifest) as (Ha & Hm & Hd).
  split; [exact Ha |]. split; [exact Hm |]. split; [exact Hd |].
  intros file. rewrite added_iff, modified_iff, deleted_iff. repeat split.
  - intros [(_ & Hold & Hinh)
              [(t & t' & Ht & _) | (_ & _ & Hinh')]]; congruence.
  - intros [(_ & Hold & _) ([t Ht] & _)]. congruence.
  - intros [[(t & t' & _ & Ht' & _) | ([t Ht] & _)] (_ & Hnew & _)];
      congruence.
Qed.

Lemma length_of_set (l : list string) (X : gset string) :
  List.NoDup l -> (forall k, In k l <-> k ∈ X) -> List.length l = size X.
Proof.
  intros Hnd Hin. unfold size, set_size. cbn.
  apply Permutation_length, NoDup_Permutation.
  - now apply NoDup_ListNoDup.
  - apply NoDup_elements.
  - intros k. rewrite list_elem_of_In, Hin. now rewrite elem_of_elements.
Qed.

(** X4: when no key of either manifest is a name every object inherits,
    the number of added paths is the number of keys of the new manifest
    that the old one lacks, and likewise for deleted paths; and when the
    new manifest only adds keys to the old one, nothing is modified or
    deleted and the number of added paths is the difference of the
    sizes. *)
Theorem detectContentChanges_counts
    (oldManifest newManifest : gmap string timestamp) :
  plain_keys oldManifest = true -> plain_keys newManifest = true ->
  let changes := detectContentChanges oldManifest newManifest in
  List.length (added changes) = size (dom newManifest ∖ dom oldManifest)
  /\ List.length (deleted changes) = size (dom oldManifest ∖ dom newManifest)
  /\ (oldManifest ⊆ newManifest ->
      modified changes = nil /\ deleted changes = nil
      /\ List.length (added changes) = size newManifest - size oldManifest).
Proof.
  intros Hpo Hpn changes.
  destruct (NoDup_changes oldManifest newManifest) as (Hna & _ & Hnd).
  assert (Hadd : List.length (added changes)
                 = size (dom newManifest ∖ dom oldManifest)).
  { apply length_of_set; [exact Hna |]. intros k. unfold changes.
    rewrite added_iff, elem_of_difference, !elem_of_dom, eq_None_not_Some.
    split; [tauto |]. intros [Hn Ho]. split; [exact Hn |].
    split; [exact Ho |]. now apply (plain_key newManifest). }
  assert (Hdel : List.length (deleted changes)
                 = size (dom oldManifest ∖ dom newManifest)).
  { apply length_of_set; [exact Hnd |]. intros k. unfold changes.
    rewrite deleted_iff, elem_of_difference, !elem_of_dom, eq_None_not_Some.
    split; [tauto |]. intros [Ho Hn]. split; [exact Ho |].
    split; [exact Hn |]. now apply (plain_key oldManifest). }
  split; [exact Hadd |]. split; [exact Hdel |].
  intros Hsub.
  assert (Hnone : forall l : list string, (forall k, ~ In k l) -> l = nil).
  { intros [|k l] Hl; [reflexivity |]. destruct (Hl k). now left. }
  split; [| split].
  - apply Hnone. intros k Hk. unfold changes in Hk.
    apply modified_iff in Hk
      as [(t & t' & Ht & Ht' & Hne) | (Hkey & _ & Hinh)].
    + pose proof (lookup_weaken _ _ _ _ Ht Hsub). congruence.
    + rewrite (plain_key newManifest k Hpn Hkey) in Hinh. discriminate.
  - apply Hnone. intros k Hk. unfold changes in Hk.
    apply deleted_iff in Hk as ([t Ht] & Hn & _).
    pose proof (lookup_weaken _ _ _ _ Ht Hsub). congruence.
  - rewrite Hadd. rewrite size_difference.
    + now rewrite !size_dom.
    + now apply subseteq_dom.
Qed.

End Laws.

Lemma detectContentChanges_swap_witness :
  In "/site/src/data/resume.yaml"%string
     (modified (detectContentChanges
                  (<["/site/src/data/resume.yaml"%string := 1%Z]>
                     (<["/site/src/data/old.yaml"%string := 2%Z]> ∅))
                  (<["/site/src/data/resume.yaml"%string := 3%Z]> ∅)))
  <-> In "/site/src/data/resume.yaml"%string
         (modified (detectContentChanges
                      (<["/site/src/data/resume.yaml"%string := 3%Z]> ∅)
                      (<["/site/src/data/resume.yaml"%string := 1%Z]>
                         (<["/site/src/data/old.yaml"%string := 2%Z]> ∅)))).
Proof.
  refine (proj2 (proj2 (detectContentChanges_swap
                          (<["/site/src/data/resume.yaml"%string := 1%Z]>
                             (<["/site/src/data/old.yaml"%string := 2%Z]> ∅))
                          (<["/site/src/data/resume.yaml"%string := 3%Z]> ∅)))
            _ _ "/site/src/data/resume.yaml"%string);
    vm_compute; reflexivity.
Defined.

Lemma detectContentChanges_nothing_iff_equal_witness :
  (<["/site/src/data/resume.yaml"%string := 1%Z]>
     (<["/site/src/data/old.yaml"%string := 2%Z]> ∅) : gmap string Z)
  = <["/site/src/data/old.yaml"%string := 2%Z]>
      (<["/site/src/data/resume.yaml"%string := 1%Z]> ∅).
Proof.
  apply (proj2 (detectContentChanges_nothing_iff_equal
                  (<["/site/src/data/resume.yaml"%string := 1%Z]>
                     (<["/site/src/data/old.yaml"%string := 2%Z]> ∅))
                  (<["/site/src/data/old.yaml"%string := 2%Z]>
                     (<["/site/src/data/resume.yaml"%string := 1%Z]> ∅))));
    vm_compute; reflexivity.
Defined.

Lemma detectContentChanges_counts_witness :
  modified (detectContentChanges
              (<["/site/src/data/resume.yaml"%string := 1%Z]> ∅)
              (<["/site/src/data/new.yaml"%string := 2%Z]>
                 (<["/site/src/data/resume.yaml"%string := 1%Z]> ∅)))
  = nil.
Proof.
  refine (proj1 (proj2 (proj2 (detectContentChanges_counts
           (<["/site/src/data/resume.yaml"%string := 1%Z]> ∅)
           (<["/site/src/data/new.yaml"%string := 2%Z]>
              (<["/site/src/data/resume.yaml"%string := 1%Z]> ∅))
           _ _)) _)).
  - vm_compute. reflexivity.
  - vm_compute. reflexivity.
  - apply insert_subseteq. reflexivity.
Defined.

End ManifestLaws.

(** ** The content manifest *)

Module ContentManifestFacts.

Import Fs FsSpec FsFacts ContentManifest.
Local Open Scope list_scope.

Lemma files_of_entry_dir (full : NodePath.path) (sub : list dirent) :
  files_of_entry full (Dir sub) = files_of_entries full sub.
Proof.
  cbn [files_of_entry].
  induction sub as [|[n c] sub IH]; [reflexivity |].
  cbn [files_of_entries]. now rewrite <- IH.
Qed.

(** Every file found below an entry is a regular file of the snapshot, at a
    path that extends the path of the entry. *)
Lemma files_of_entry_sound (root child : node) :
  forall full : NodePath.path,
    well_formed child = true -> resolve root full = Some child ->
    forall p, In p (files_of_entry full child) ->
    (exists rel, p = full ++ rel)
    /\ exists sz t content, resolve root p = Some (File sz t content).
Proof.
  induction child as [sz mt content | entries IH |] using node_induction;
    intros full Hwf Hres p Hin.
  - destruct Hin as [<- | []]. split.
    + exists nil. now rewrite app_nil_r.
    + now exists sz, mt, content.
  - rewrite files_of_entry_dir in Hin.
    assert (Hsub : forall l, incl l entries ->
              In p (files_of_entries full l) ->
              (exists rel, rel <> nil /\ p = full ++ rel)
              /\ exists sz t content, resolve root p = Some (File sz t content)).
    { clear Hin. induction l as [|[n c] l IHl]; intros Hincl Hin.
      - contradiction.
      - cbn [files_of_entries] in Hin. apply in_app_or in Hin as [Hin | Hin].
        + assert (Hnc : In (n, c) entries) by (apply Hincl; now left).
          rewrite Stdlib.Lists.List.Forall_forall in IH.
          destruct (IH (n, c) Hnc (NodePath.join full [n])) with (p := p)
            as [[rel Hrel] Hfile]; [| | exact Hin |].
          * now apply (well_formed_entry entries n c).
          * unfold NodePath.join. rewrite resolve_app, Hres.
            cbn [resolve]. rewrite (lookup_entry_unique entries n c).
            -- reflexivity.
            -- rewrite well_formed_dir in Hwf.
               now apply andb_prop in Hwf as [Hu _].
            -- exact Hnc.
          * split; [| exact Hfile]. exists (n :: rel). split; [discriminate |].
            rewrite Hrel. unfold NodePath.join. now rewrite <- app_assoc.
        + apply IHl; [| exact Hin].
          intros e He. apply Hincl. now right. }
    destruct (Hsub entries (incl_refl _) Hin) as [(rel & _ & Hrel) Hfile].
    split; [now exists rel | exact Hfile].
  - contradiction.
Qed.

Lemma files_of_entries_sound (root : node) (dir : NodePath.path)
    (entries : list dirent) (p : NodePath.path) :
  well_formed root = true -> resolve root dir = Some (Dir entries) ->
  In p (files_of_entries dir entries) ->
  below dir p /\ exists sz t content, resolve root p = Some (File sz t content).
Proof.
  intros Hwf Hres Hin.
  assert (Hd : well_formed (Dir entries) = true)
    by exact (well_formed_resolve root dir _ Hwf Hres).
  rewrite <- files_of_entry_dir in Hin.
  destruct (files_of_entry_sound root (Dir entries) dir Hd Hres p Hin)
    as [[rel Hrel] (sz & t & content & Hfile)].
  split; [| now exists sz, t, content].
  exists rel. split; [| exact Hrel].
  intros ->. rewrite app_nil_r in Hrel. subst p. congruence.
Qed.

Lemma files_of_entry_listed (dir : NodePath.path) (entries : list dirent)
    (n : string) (c : node) (p : NodePath.path) :
  lookup_entry n entries = Some c ->
  In p (files_of_entry (NodePath.join dir [n]) c) ->
  In p (files_of_entries dir entries).
Proof.
  induction entries as [|[m d] entries IH]; [discriminate |].
  cbn [lookup_entry files_of_entries].
  destruct (String.eqb_spec m n) as [-> | Hne].
  - intros [= ->] Hin. apply in_or_app. now left.
  - intros Hl Hin. apply in_or_app. right. now apply IH.
Qed.

(** Every regular file below a directory is found. *)
Lemma files_of_entries_complete (rel : NodePath.path) :
  forall (dir : NodePath.path) (entries : list dirent) sz t content,
    rel <> nil ->
    resolve (Dir entries) rel = Some (File sz t content) ->
    In (dir ++ rel) (files_of_entries dir entries).
Proof.
  induction rel as [|seg rest IH]; intros dir entries sz t content Hne Hres;
    [contradiction |].
  cbn [resolve] in Hres.
  destruct (lookup_entry seg entries) as [c|] eqn:Hl; [| discriminate].
  apply (files_of_entry_listed dir entries seg c); [exact Hl |].
  destruct rest as [|seg' rest'].
  - cbn [resolve] in Hres. injection Hres as ->. now left.
  - destruct c as [| sub |]; try discriminate.
    rewrite files_of_entry_dir.
    replace (dir ++ seg :: seg' :: rest')
      with (NodePath.join dir [seg] ++ seg' :: rest')
      by (unfold NodePath.join; now rewrite <- app_assoc).
    apply (IH _ sub sz t content); [discriminate | exact Hres].
Qed.

Section Manifest.

Variable other_mtimeMs : NodePath.path -> Z.
Variable fs : node.
Variable basePath : NodePath.path.
Hypothesis Hwf : well_formed fs = true.

Lemma time_of_file (p : NodePath.path) (sz : N) (t : Z) (content : string) :
  resolve fs p = Some (File sz t content) ->
  getFileModifiedTime other_mtimeMs fs p = Some t.
Proof.
  intros H. unfold getFileModifiedTime, statSync_mtimeMs. now rewrite H.
Qed.

(** Recording the times of files of the content directories keeps every
    key of the manifest a recorded file. *)
Lemma fold_record_sound (files : list NodePath.path) (m : gmap string Z) :
  (forall f, In f files ->
     in_content basePath f
     /\ exists sz t content, resolve fs f = Some (File sz t content)) ->
  (forall key t, m !! key = Some t -> recorded_file fs basePath key t) ->
  forall key t,
    fold_left (record_time other_mtimeMs fs) files m !! key = Some t ->
    recorded_file fs basePath key t.
Proof.
  revert m. induction files as [|f files IH]; intros m Hfiles Hm; [exact Hm |].
  cbn [fold_left]. apply IH.
  - intros g Hg. apply Hfiles. now right.
  - destruct (Hfiles f (or_introl eq_refl)) as [Hin (sz & t & content & Hf)].
    unfold record_time. rewrite (time_of_file f sz t content Hf).
    intros key u. destruct (decide (NodePath.to_string f = key)) as [<- | Hne].
    + rewrite lookup_insert_eq. intros [= <-].
      now exists f, sz, content.
    + rewrite lookup_insert_ne by exact Hne. apply Hm.
Qed.

(** A file whose time was recorded keeps a key. *)
Lemma fold_record_complete (files : list NodePath.path) (m : gmap string Z)
    (p : NodePath.path) :
  (In p files /\ exists sz t content, resolve fs p = Some (File sz t content))
  \/ is_Some (m !! NodePath.to_string p) ->
  is_Some (fold_left (record_time other_mtimeMs fs) files m
             !! NodePath.to_string p).
Proof.
  revert m. induction files as [|f files IH]; intros m H.
  - destruct H as [[[] _] | H]. exact H.
  - cbn [fold_left]. apply IH.
    destruct H as [[[-> | Hin] Hfile] | Hkey].
    + right. destruct Hfile as (sz & t & content & Hf).
      unfold record_time. rewrite (time_of_file p sz t content Hf).
      rewrite lookup_insert_eq. now exists t.
    + left. now split.
    + right. unfold record_time.
      destruct (getFileModifiedTime other_mtimeMs fs f) as [u|]; [| exact Hkey].
      destruct (decide (NodePath.to_string f = NodePath.to_string p)) as [-> | Hne].
      * rewrite lookup_insert_eq. now exists u.
      * now rewrite lookup_insert_ne by exact Hne.
Qed.

(** One round of the outer loop, on a content directory that is a
    directory or is missing. *)
Lemma scan_one (contentPath : NodePath.path) (m : gmap string Z) :
  directory_or_missing fs contentPath = true ->
  (forall p, below contentPath p -> in_content basePath p) ->
  (forall key t, m !! key = Some t -> recorded_file fs basePath key t) ->
  exists m' : gmap string Z,
    (forall rest,
        scan_content_paths other_mtimeMs fs (contentPath :: rest) m
        = scan_content_paths other_mtimeMs fs rest m')
    /\ (forall key t, m' !! key = Some t -> recorded_file fs basePath key t)
    /\ (forall p, is_Some (m !! NodePath.to_string p) ->
                  is_Some (m' !! NodePath.to_string p))
    /\ (forall p sz t content,
           below contentPath p ->
           resolve fs p = Some (File sz t content) ->
           is_Some (m' !! NodePath.to_string p)).
Proof.
  intros Hdir Hbelow Hm. unfold directory_or_missing in Hdir.
  destruct (resolve fs contentPath) as [[| entries |]|] eqn:Hres;
    try discriminate.
  - exists (fold_left (record_time other_mtimeMs fs)
              (files_of_entries contentPath entries) m).
    split; [| split; [| split]].
    + intros rest. cbn [scan_content_paths].
      unfold getAllFilesRecursive, existsSync, readdirSync. rewrite Hres.
      reflexivity.
    + apply fold_record_sound; [| exact Hm].
      intros f Hf.
      destruct (files_of_entries_sound fs contentPath entries f Hwf Hres Hf)
        as [Hb Hfile].
      split; [now apply Hbelow | exact Hfile].
    + intros p Hp. apply fold_record_complete. now right.
    + intros p sz t content (rel & Hrel & ->) Hfile.
      apply fold_record_complete. left. split; [| now exists sz, t, content].
      rewrite resolve_app, Hres in Hfile.
      now apply (files_of_entries_complete rel contentPath entries sz t content).
  - exists m. split; [| split; [| split]].
    + intros rest. cbn [scan_content_paths].
      unfold existsSync. rewrite Hres. reflexivity.
    + exact Hm.
    + intros p Hp. exact Hp.
    + intros p sz t content (rel & Hrel & ->) Hfile.
      rewrite resolve_app, Hres in Hfile. discriminate.
Qed.

End Manifest.

(** X5: on a well-formed snapshot whose two content directories are
    directories or are missing, [generateContentManifest] returns a
    manifest; each of its entries is the path of a regular file below
    [src/data] or [src/content] with the modification time of that file,
    and every regular file below the two directories has an entry. *)
Theorem generateContentManifest_files (other_mtimeMs : NodePath.path -> Z)
    (fs : node) (basePath : NodePath.path) :
  well_formed fs = true ->
  directory_or_missing fs (NodePath.join basePath ["src"; "data"]%string) = true ->
  directory_or_missing fs (NodePath.join basePath ["src"; "content"]%string) = true ->
  exists manifest : gmap string Z,
    generateContentManifest other_mtimeMs fs basePath = Ok manifest
    /\ (forall key t,
           manifest !! key = Some t -> recorded_file fs basePath key t)
    /\ (forall p sz t content,
           in_content basePath p ->
           resolve fs p = Some (File sz t content) ->
           is_Some (manifest !! NodePath.to_string p)).
Proof.
  intros Hwf Hdata Hcontent.
  destruct (scan_one other_mtimeMs fs basePath Hwf
              (NodePath.join basePath ["src"; "data"]%string) ∅ Hdata)
    as (m1 & Hstep1 & Hsound1 & _ & Hcomplete1).
  { intros p Hp. now left. }
  { intros key t Hk. rewrite lookup_empty in Hk. discriminate. }
  destruct (scan_one other_mtimeMs fs basePath Hwf
              (NodePath.join basePath ["src"; "content"]%string) m1 Hcontent)
    as (m2 & Hstep2 & Hsound2 & Hkeep2 & Hcomplete2).
  { intros p Hp. now right. }
  { exact Hsound1. }
  exists m2. split; [| split].
  - unfold generateContentManifest, contentPaths. now rewrite Hstep1, Hstep2.
  - exact Hsound2.
  - intros p sz t content [Hp | Hp] Hfile.
    + apply Hkeep2. now apply (Hcomplete1 p sz t content).
    + now apply (Hcomplete2 p sz t content).
Qed.

Lemma generateContentManifest_files_witness :
  exists manifest : gmap string Z,
    generateContentManifest (fun _ => 0%Z) TimedSite.timed_site nil = Ok manifest
    /\ (forall key t,
           manifest !! key = Some t ->
           recorded_file TimedSite.timed_site nil key t)
    /\ (forall p sz t content,
           in_content nil p ->
           resolve TimedSite.timed_site p = Some (File sz t content) ->
           is_Some (manifest !! NodePath.to_string p)).
Proof.
  apply (generateContentManifest_files (fun _ => 0%Z) TimedSite.timed_site nil);
    vm_compute; reflexivity.
Defined.

(** X6: neither [getFileModifiedTime] nor [hasFileChanged] throws on a
    path that does not exist, whatever the rest of the tree: the first
    gives [null] and the second [false]. And on a well-formed snapshot
    whose content directories are directories or are missing, every entry
    of the generated manifest belongs to a file that has not changed
    since its recorded time and has changed since any earlier time. *)
Theorem hasFileChanged_since_manifest (other_mtimeMs : NodePath.path -> Z)
    (fs : node) :
  (forall p since,
      resolve fs p = None ->
      getFileModifiedTime other_mtimeMs fs p = None
      /\ hasFileChanged other_mtimeMs fs p since = false)
  /\ (forall (basePath : NodePath.path) (manifest : gmap string Z),
         well_formed fs = true ->
         directory_or_missing fs
           (NodePath.join basePath ["src"; "data"]%string) = true ->
         directory_or_missing fs
           (NodePath.join basePath ["src"; "content"]%string) = true ->
         generateContentManifest other_mtimeMs fs basePath = Ok manifest ->
         forall key t,
           manifest !! key = Some t ->
           exists p,
             key = NodePath.to_string p
             /\ getFileModifiedTime other_mtimeMs fs p = Some t
             /\ hasFileChanged other_mtimeMs fs p t = false
             /\ forall since, (since < t)%Z ->
                  hasFileChanged other_mtimeMs fs p since = true).
Proof.
  split.
  - intros p since Hres.
    unfold getFileModifiedTime, hasFileChanged, statSync_mtimeMs.
    now rewrite Hres.
  - intros basePath manifest Hwf Hdata Hcontent Hgen.
    destruct (scan_one other_mtimeMs fs basePath Hwf
                (NodePath.join basePath ["src"; "data"]%string) ∅ Hdata)
      as (m1 & Hstep1 & Hsound1 & _ & _).
    { intros p Hp. now left. }
    { intros key t Hk. rewrite lookup_empty in Hk. discriminate. }
    destruct (scan_one other_mtimeMs fs basePath Hwf
                (NodePath.join basePath ["src"; "content"]%string) m1 Hcontent)
      as (m2 & Hstep2 & Hsound2 & _ & _).
    { intros p Hp. now right. }
    { exact Hsound1. }
    unfold generateContentManifest, contentPaths in Hgen.
    rewrite Hstep1, Hstep2 in Hgen. cbn in Hgen. injection Hgen as <-.
    intros key t Hk.
    destruct (Hsound2 key t Hk) as (p & sz & content & -> & Hfile & _).
    exists p. unfold getFileModifiedTime, hasFileChanged, statSync_mtimeMs.
    rewrite Hfile. repeat split.
    + apply Z.ltb_irrefl.
    + intros since Hlt. now apply Z.ltb_lt.
Qed.

(** X22: [generateContentManifest] returns a manifest when each of
    [src/data] and [src/content] is a directory or is missing, and throws
    when one of them is something else, a regular file for instance. *)
Theorem generateContentManifest_returns_or_throws
    (other_mtimeMs : NodePath.path -> Z) (fs : node)
    (basePath : NodePath.path) :
  (directory_or_missing fs (NodePath.join basePath ["src"; "data"]%string)
   && directory_or_missing fs (NodePath.join basePath ["src"; "content"]%string)
   = true ->
   exists manifest,
     generateContentManifest other_mtimeMs fs basePath = Ok manifest)
  /\ (directory_or_missing fs (NodePath.join basePath ["src"; "data"]%string)
      && directory_or_missing fs
           (NodePath.join basePath ["src"; "content"]%string)
      = false ->
      exists message,
        generateContentManifest other_mtimeMs fs basePath = Throw message).
Proof.
  unfold generateContentManifest, contentPaths, directory_or_missing.
  cbn [scan_content_paths]. unfold getAllFilesRecursive, existsSync, readdirSync.
  destruct (resolve fs (NodePath.join basePath ["src"; "data"]%string))
    as [[| es |]|];
    destruct (resolve fs (NodePath.join basePath ["src"; "content"]%string))
      as [[| es' |]|];
    cbn [negb andb mbind outcome_bind]; split; intros H;
    try discriminate; eexists; reflexivity.
Qed.

Lemma generateContentManifest_returns_or_throws_witness :
  exists message,
    generateContentManifest (fun _ => 0%Z)
      (Dir [ ("src", Dir [ ("data", File 4 0 "data") ]) ]) nil
    = Throw message.
Proof.
  apply (proj2 (generateContentManifest_returns_or_throws (fun _ => 0%Z)
                  (Dir [ ("src", Dir [ ("data", File 4 0 "data") ]) ]) nil)).
  reflexivity.
Defined.

(** The keys of a generated manifest are the paths of the content files. *)
Lemma manifest_keys (other_mtimeMs : NodePath.path -> Z) (fs : node)
    (basePath : NodePath.path) (manifest : gmap string Z) :
  well_formed fs = true ->
  directory_or_missing fs (NodePath.join basePath ["src"; "data"]%string) = true ->
  directory_or_missing fs (NodePath.join basePath ["src"; "content"]%string) = true ->
  generateContentManifest other_mtimeMs fs basePath = Ok manifest ->
  (forall key t, manifest !! key = Some t -> recorded_file fs basePath key t)
  /\ (forall key, is_Some (manifest !! key)
                  <-> exists t, recorded_file fs basePath key t).
Proof.
  intros Hwf Hdata Hcontent Hgen.
  destruct (scan_one other_mtimeMs fs basePath Hwf
              (NodePath.join basePath ["src"; "data"]%string) ∅ Hdata)
    as (m1 & Hstep1 & Hsound1 & _ & Hcomplete1).
  { intros p Hp. now left. }
  { intros key t Hk. rewrite lookup_empty in Hk. discriminate. }
  destruct (scan_one other_mtimeMs fs basePath Hwf
              (NodePath.join basePath ["src"; "content"]%string) m1 Hcontent)
    as (m2 & Hstep2 & Hsound2 & Hkeep2 & Hcomplete2).
  { intros p Hp. now right. }
  { exact Hsound1. }
  unfold generateContentManifest, contentPaths in Hgen.
  rewrite Hstep1, Hstep2 in Hgen. cbn in Hgen. injection Hgen as <-.
  split; [exact Hsound2 |]. intros key. split.
  - intros [t Ht]. exists t. now apply Hsound2.
  - intros (t & p & sz & content & -> & Hfile & [Hp | Hp]).
    + apply Hkeep2. now apply (Hcomplete1 p sz t content).
    + now apply (Hcomplete2 p sz t content).
Qed.

Lemma to_string_has_separator (p : NodePath.path) :
  2 <= List.length p ->
  In "/"%char (list_ascii_of_string (NodePath.to_string p)).
Proof.
  destruct p as [|a [|b l]]; cbn [List.length]; try lia. intros _.
  unfold NodePath.to_string, JsString.join. cbn [String.concat].
  rewrite StringFacts.list_of_append. apply in_or_app. right.
  rewrite StringFacts.list_of_append. apply in_or_app. left. now left.
Qed.

Lemma inherited_has_no_separator (k : string) :
  ContentValidator.inherited k = true ->
  ~ In "/"%char (list_ascii_of_string k).
Proof.
  intros H. apply ManifestFacts.inherited_In in H.
  unfold ContentValidator.inherited_names in H. cbn [In] in H.
  repeat (destruct H as [<- | H];
          [vm_compute; intuition discriminate |]).
  contradiction.
Qed.

(** The path of a content file is no name that objects inherit. *)
Lemma recorded_not_inherited (fs : node) (basePath : NodePath.path)
    (key : string) (t : Z) :
  recorded_file fs basePath key t -> ContentValidator.inherited key = false.
Proof.
  intros (p & sz & content & -> & _ & Hin).
  apply not_true_is_false. intros Hinh.
  apply (inherited_has_no_separator _ Hinh).
  apply to_string_has_separator.
  destruct Hin as [(rel & Hne & ->) | (rel & Hne & ->)];
    unfold NodePath.join; rewrite !length_app; cbn [List.length]; lia.
Qed.

(** X23: between two snapshots of the site, the manifests of
    [generateContentManifest] compared by [detectContentChanges] report
    as added the paths of the content files of the later snapshot that
    the earlier one lacks, as deleted those of the earlier snapshot that
    the later one lacks, and as modified only paths that are content
    files of both, with different modification times. *)
Theorem detectContentChanges_between_snapshots
    (other_mtimeMs other_mtimeMs' : NodePath.path -> Z) (fs fs' : node)
    (basePath : NodePath.path) (manifest manifest' : gmap string Z) :
  well_formed fs = true -> well_formed fs' = true ->
  directory_or_missing fs (NodePath.join basePath ["src"; "data"]%string) = true ->
  directory_or_missing fs (NodePath.join basePath ["src"; "content"]%string) = true ->
  directory_or_missing fs' (NodePath.join basePath ["src"; "data"]%string) = true ->
  directory_or_missing fs' (NodePath.join basePath ["src"; "content"]%string) = true ->
  generateContentManifest other_mtimeMs fs basePath = Ok manifest ->
  generateContentManifest other_mtimeMs' fs' basePath = Ok manifest' ->
  (forall key,
      In key (ContentValidator.added
                (ContentValidator.detectContentChanges manifest manifest'))
      <-> (exists t, recorded_file fs' basePath key t)
          /\ ~ exists t, recorded_file fs basePath key t)
  /\ (forall key,
         In key (ContentValidator.deleted
                   (ContentValidator.detectContentChanges manifest manifest'))
         <-> (exists t, recorded_file fs basePath key t)
             /\ ~ exists t, recorded_file fs' basePath key t)
  /\ (forall key,
         In key (ContentValidator.modified
                   (ContentValidator.detectContentChanges manifest manifest'))
         -> exists t t',
              t <> t'
              /\ recorded_file fs basePath key t
              /\ recorded_file fs' basePath key t').
Proof.
  intros Hwf Hwf' Hdata Hcontent Hdata' Hcontent' Hgen Hgen'.
  destruct (manifest_keys other_mtimeMs fs basePath manifest
              Hwf Hdata Hcontent Hgen) as [Hsound Hkeys].
  destruct (manifest_keys other_mtimeMs' fs' basePath manifest'
              Hwf' Hdata' Hcontent' Hgen') as [Hsound' Hkeys'].
  split; [| split].
  - intros key. rewrite ManifestFacts.added_iff, Hkeys', <- Hkeys.
    rewrite eq_None_not_Some. split.
    + intros (Hnew & Hold & _). now split.
    + intros [[t Hnew] Hold]. split; [now exists t |]. split; [exact Hold |].
      exact (recorded_not_inherited fs' basePath key t Hnew).
  - intros key. rewrite ManifestFacts.deleted_iff, Hkeys, <- Hkeys'.
    rewrite eq_None_not_Some. split.
    + intros (Hold & Hnew & _). now split.
    + intros [[t Hold] Hnew]. split; [now exists t |]. split; [exact Hnew |].
      exact (recorded_not_inherited fs basePath key t Hold).
  - intros key Hin. apply ManifestFacts.modified_iff in Hin
      as [(t & t' & Ht & Ht' & Hne) | ([t' Ht'] & _ & Hinh)].
    + exists t, t'. split; [exact Hne |]. split.
      * now apply Hsound.
      * now apply Hsound'.
    + rewrite (recorded_not_inherited fs' basePath key t'
                 (Hsound' key t' Ht')) in Hinh. discriminate.
Qed.

Lemma detectContentChanges_between_snapshots_witness :
  exists t t' : Z,
    t <> t'
    /\ recorded_file TimedSite.timed_site nil "src/content/about.md" t
    /\ recorded_file TimedSite.later_site nil "src/content/about.md" t'.
Proof.
  apply (proj2 (proj2 (detectContentChanges_between_snapshots
                         (fun _ => 0%Z) (fun _ => 0%Z)
                         TimedSite.timed_site TimedSite.later_site nil
                         TimedSite.timed_manifest TimedSite.later_manifest
                         eq_refl eq_refl eq_refl eq_refl eq_refl eq_refl
                         eq_refl eq_refl))).
  vm_compute. left. reflexivity.
Defined.

Lemma hasFileChanged_since_manifest_witness :
  (getFileModifiedTime (fun _ => 0%Z) TimedSite.timed_site
     ["src"; "content"; "gone.md"]%string = None
   /\ hasFileChanged (fun _ => 0%Z) TimedSite.timed_site
        ["src"; "content"; "gone.md"]%string 0 = false)
  /\ exists p,
       "src/content/about.md" = NodePath.to_string p
       /\ getFileModifiedTime (fun _ => 0%Z) TimedSite.timed_site p
          = Some 1900%Z
       /\ hasFileChanged (fun _ => 0%Z) TimedSite.timed_site p 1900 = false
       /\ forall since, (since < 1900)%Z ->
            hasFileChanged (fun _ => 0%Z) TimedSite.timed_site p since = true.
Proof.
  split.
  - apply (proj1 (hasFileChanged_since_manifest (fun _ => 0%Z)
                    TimedSite.timed_site)). reflexivity.
  - apply (proj2 (hasFileChanged_since_manifest (fun _ => 0%Z)
                    TimedSite.timed_site) nil TimedSite.timed_manifest
             eq_refl eq_refl eq_refl eq_refl
             "src/content/about.md" 1900%Z).
    vm_compute. reflexivity.
Defined.

End ContentManifestFacts.

(** ** The verdict of the two validators *)

Module ValidatorFacts.

Import ContentValidator FrontmatterSpec.
Local Open Scope list_scope.

Section Verdict.

Variable yaml_load : string -> outcome jsval.

(** The result of a validator: either valid without errors, or invalid
    with a list of errors. *)
Lemma validateYamlFile_cases (fs : Fs.node) (p : NodePath.path)
    (schema : Zod.ZodSchema jsval) :
  (validateYamlFile yaml_load fs p schema
   = {| valid := true; file := p; errors := None |}
   /\ exists content parsed data,
        Fs.readFileSync fs p = Ok content
        /\ yaml_load content = Ok parsed
        /\ schema parsed = Zod.ParseSuccess data)
  \/ (exists l,
        validateYamlFile yaml_load fs p schema
        = {| valid := false; file := p; errors := Some l |}
        /\ ~ exists content parsed data,
               Fs.readFileSync fs p = Ok content
               /\ yaml_load content = Ok parsed
               /\ schema parsed = Zod.ParseSuccess data).
Proof.
  unfold validateYamlFile, Fs.existsSync, Fs.readFileSync.
  destruct (Fs.resolve fs p) as [[sz mt content | es |]|];
    cbn [negb try_catch mbind outcome_bind];
    try (right; eexists; split; [reflexivity |];
         intros (c & v & d & Hc & _); discriminate).
  destruct (yaml_load content) as [parsed | msg] eqn:Hy;
    cbn [mbind outcome_bind try_catch].
  - destruct (schema parsed) as [data | e] eqn:Hs.
    + left. split; [reflexivity |]. now exists content, parsed, data.
    + right. eexists. split; [reflexivity |].
      intros (c & v & d & Hc & Hv & Hd). injection Hc as <-.
      rewrite Hy in Hv. injection Hv as <-. rewrite Hs in Hd. discriminate.
  - right. eexists. split; [reflexivity |].
    intros (c & v & d & Hc & Hv & _). injection Hc as <-.
    rewrite Hy in Hv. discriminate.
Qed.

Lemma validateMarkdownFile_cases (fs : Fs.node) (p : NodePath.path)
    (schema : Zod.ZodSchema jsval) :
  (validateMarkdownFile yaml_load fs p schema
   = {| valid := true; file := p; errors := None |}
   /\ exists content data,
        Fs.readFileSync fs p = Ok content
        /\ truthy (extractFrontmatter yaml_load content) = true
        /\ schema (extractFrontmatter yaml_load content)
           = Zod.ParseSuccess data)
  \/ (exists l,
        validateMarkdownFile yaml_load fs p schema
        = {| valid := false; file := p; errors := Some l |}
        /\ ~ exists content data,
               Fs.readFileSync fs p = Ok content
               /\ truthy (extractFrontmatter yaml_load content) = true
               /\ schema (extractFrontmatter yaml_load content)
                  = Zod.ParseSuccess data).
Proof.
  unfold validateMarkdownFile, Fs.existsSync, Fs.readFileSync.
  destruct (Fs.resolve fs p) as [[sz mt content | es |]|];
    cbn [negb try_catch mbind outcome_bind];
    try (right; eexists; split; [reflexivity |];
         intros (c & d & Hc & _); discriminate).
  destruct (truthy (extractFrontmatter yaml_load content)) eqn:Ht;
    cbn [negb try_catch].
  - destruct (schema (extractFrontmatter yaml_load content))
      as [data | e] eqn:Hs.
    + left. split; [reflexivity |]. now exists content, data.
    + right. eexists. split; [reflexivity |].
      intros (c & d & Hc & _ & Hd). injection Hc as <-.
      rewrite Hs in Hd. discriminate.
  - right. eexists. split; [reflexivity |].
    intros (c & d & Hc & Hv & _). injection Hc as <-.
    rewrite Ht in Hv. discriminate.
Qed.

(** X7: [validateYamlFile] gives [valid] exactly when the file can be
    read, js-yaml parses it and the schema accepts the parsed value;
    [validateMarkdownFile] exactly when the file can be read and its
    frontmatter is truthy and accepted by the schema. Both keep the path
    they were given, and both leave [errors] unset exactly when the
    result is valid: an invalid result always carries a list of errors. *)
Theorem validation_verdict (fs : Fs.node) (p : NodePath.path)
    (schema : Zod.ZodSchema jsval) :
  (valid (validateYamlFile yaml_load fs p schema) = true
   <-> exists content parsed data,
         Fs.readFileSync fs p = Ok content
         /\ yaml_load content = Ok parsed
         /\ schema parsed = Zod.ParseSuccess data)
  /\ (valid (validateMarkdownFile yaml_load fs p schema) = true
      <-> exists content data,
            Fs.readFileSync fs p = Ok content
            /\ truthy (extractFrontmatter yaml_load content) = true
            /\ schema (extractFrontmatter yaml_load content)
               = Zod.ParseSuccess data)
  /\ (forall r,
         r = validateYamlFile yaml_load fs p schema
         \/ r = validateMarkdownFile yaml_load fs p schema ->
         file r = p
         /\ (valid r = true <-> errors r = None)
         /\ (valid r = false <-> exists l, errors r = Some l)).
Proof.
  split; [| split].
  - destruct (validateYamlFile_cases fs p schema) as [[-> H] | (l & -> & H)];
      cbn [valid]; split; intros H'; try assumption; try reflexivity;
      try discriminate; contradiction.
  - destruct (validateMarkdownFile_cases fs p schema)
      as [[-> H] | (l & -> & H)];
      cbn [valid]; split; intros H'; try assumption; try reflexivity;
      try discriminate; contradiction.
  - intros r [-> | ->].
    + destruct (validateYamlFile_cases fs p schema) as [[-> _] | (l & -> & _)];
        cbn [valid file errors]; repeat split; intros H';
        try reflexivity; try discriminate; try (now exists l).
      destruct H' as [l' H']. discriminate.
    + destruct (validateMarkdownFile_cases fs p schema)
        as [[-> _] | (l & -> & _)];
        cbn [valid file errors]; repeat split; intros H';
        try reflexivity; try discriminate; try (now exists l).
      destruct H' as [l' H']. discriminate.
Qed.

(** X8: [loadYamlFile] and [validateYamlFile] agree on every file and
    schema: the loader returns (it does not throw) a result whose
    [success] is the [valid] of the validator; a successful load carries
    the data the schema produced and no error, a failed one an error
    message and no data. *)
Theorem loadYamlFile_agrees_with_validateYamlFile (fs : Fs.node)
    (p : NodePath.path) (schema : Zod.ZodSchema jsval) :
  exists r : DataLoader.DataLoadResult jsval,
    DataLoader.loadYamlFile yaml_load fs p schema = Ok r
    /\ DataLoader.success r = valid (validateYamlFile yaml_load fs p schema)
    /\ (DataLoader.success r = true ->
        DataLoader.error r = None
        /\ exists content parsed data,
             Fs.readFileSync fs p = Ok content
             /\ yaml_load content = Ok parsed
             /\ schema parsed = Zod.ParseSuccess data
             /\ DataLoader.data r = Some data)
    /\ (DataLoader.success r = false ->
        DataLoader.data r = None
        /\ (exists message, DataLoader.error r = Some message)
        /\ exists l, errors (validateYamlFile yaml_load fs p schema) = Some l).
Proof.
  unfold DataLoader.loadYamlFile, DataLoader.resolve, validateYamlFile,
    Fs.existsSync, Fs.readFileSync.
  destruct (Fs.resolve fs p) as [[sz mt content | es |]|];
    cbn [negb try_catch mbind outcome_bind];
    try (eexists; split; [reflexivity |]; cbn; split; [reflexivity |];
         split; [discriminate |]; intros _; split; [reflexivity |];
         split; eexists; reflexivity).
  destruct (yaml_load content) as [parsed | msg] eqn:Hy;
    cbn [mbind outcome_bind try_catch].
  - destruct (schema parsed) as [data | e] eqn:Hs; cbn [try_catch].
    + eexists; split; [reflexivity |]. cbn. split; [reflexivity |].
      split; [| discriminate]. intros _. split; [reflexivity |].
      now exists content, parsed, data.
    + eexists; split; [reflexivity |]. cbn. split; [reflexivity |].
      split; [discriminate |]. intros _. split; [reflexivity |].
      split; eexists; reflexivity.
  - eexists; split; [reflexivity |]. cbn. split; [reflexivity |].
    split; [discriminate |]. intros _. split; [reflexivity |].
    split; eexists; reflexivity.
Qed.

(** The lazy group stops at the first closing marker: a body without one
    is taken whole. *)
Lemma lazy_body_before (body tail : string) :
  includes (String LF "---") body = false ->
  startsWith (String LF "---") (String LF tail) = true ->
  lazy_body (body ++ String LF tail) = Some body.
Proof.
  intros Hfree Htail. induction body as [|c b IH].
  - cbn [String.append]. cbn [lazy_body]. now rewrite Htail.
  - cbn [includes] in Hfree. apply orb_false_elim in Hfree as [Hstart Hfree].
    cbn [String.append]. cbn [lazy_body].
    assert (Hs : startsWith (String LF "---")
                   (String c (b ++ String LF tail)) = false).
    { clear IH Hfree Htail. cbn [startsWith] in Hstart |- *.
      destruct (Ascii.eqb LF c); [| reflexivity]. cbn [andb] in Hstart |- *.
      destruct b as [|c2 b]; [reflexivity |].
      cbn [String.append]. destruct (Ascii.eqb "-" c2); [| reflexivity].
      cbn [andb] in Hstart |- *.
      destruct b as [|c3 b]; [reflexivity |].
      cbn [String.append]. destruct (Ascii.eqb "-" c3); [| reflexivity].
      cbn [andb] in Hstart |- *.
      destruct b as [|c4 b]; [reflexivity |].
      cbn [String.append]. destruct (Ascii.eqb "-" c4); [| reflexivity].
      discriminate. }
    rewrite Hs, (IH Hfree). reflexivity.
Qed.

Lemma lazy_body_exact (body rest : string) :
  includes (String LF "---") body = false ->
  lazy_body (body ++ String LF ("---" ++ rest)) = Some body.
Proof.
  intros Hfree. apply lazy_body_before; [exact Hfree |].
  apply (StringFacts.startsWith_append (String LF "---") rest).
Qed.

Lemma after_opening_exact (ws : string) (c : ascii) (body rest : string) :
  all_space ws = true -> is_space c = false ->
  includes (String LF "---") (String c body) = false ->
  after_opening (ws ++ String LF (String c body ++ String LF ("---" ++ rest)))
  = Some (String c body).
Proof.
  intros Hws Hc Hfree.
  pose proof (lazy_body_exact (String c body) rest Hfree) as Hbody.
  set (t := (String c body ++ String LF ("---" ++ rest))%string) in *.
  assert (Hfirst : after_opening t = None).
  { unfold t. cbn [String.append]. cbn [after_opening]. now rewrite Hc. }
  clearbody t. induction ws as [|w ws IH].
  - cbn [String.append]. cbn [after_opening].
    change (is_space LF) with true. change (is_newline LF) with true.
    cbn match. now rewrite Hfirst.
  - cbn [all_space] in Hws. apply andb_prop in Hws as [Hw Hws].
    cbn [String.append]. cbn [after_opening]. rewrite Hw, (IH Hws).
    reflexivity.
Qed.

(** X9: a text that opens with three dashes, white space and a newline,
    goes on with a body that starts with a visible character and holds
    no closing marker, and then has a newline and three dashes, has that
    body as its frontmatter: [extractFrontmatter] is what js-yaml makes
    of the body ([null] when js-yaml rejects it), whatever follows the
    closing marker; and a markdown file with this text is valid exactly
    when the body parses to a truthy value that the schema accepts. *)
Theorem extractFrontmatter_block (ws : string) (c : ascii)
    (body rest : string) :
  all_space ws = true -> is_space c = false ->
  includes (String LF "---") (String c body) = false ->
  extractFrontmatter yaml_load
    ("---" ++ ws ++ String LF (String c body ++ String LF ("---" ++ rest)))
  = match yaml_load (String c body) with
    | Ok v => v
    | Throw _ => VNull
    end
  /\ forall (fs : Fs.node) (p : NodePath.path) (schema : Zod.ZodSchema jsval),
       Fs.readFileSync fs p
       = Ok ("---" ++ ws
             ++ String LF (String c body ++ String LF ("---" ++ rest)))%string ->
       (valid (validateMarkdownFile yaml_load fs p schema) = true
        <-> exists v data,
              yaml_load (String c body) = Ok v
              /\ truthy v = true
              /\ schema v = Zod.ParseSuccess data).
Proof.
  intros Hws Hc Hfree.
  assert (Hx : extractFrontmatter yaml_load
                 ("---" ++ ws
                  ++ String LF (String c body ++ String LF ("---" ++ rest)))
               = match yaml_load (String c body) with
                 | Ok v => v
                 | Throw _ => VNull
                 end).
  { unfold extractFrontmatter, match_frontmatter.
    rewrite StringFacts.strip_prefix_append.
    now rewrite (after_opening_exact ws c body rest Hws Hc Hfree). }
  split; [exact Hx |].
  intros fs p schema Hread. revert Hx Hread.
  generalize ("---" ++ ws
              ++ String LF (String c body ++ String LF ("---" ++ rest)))%string.
  intros text Hx Hread.
  destruct (validateMarkdownFile_cases fs p schema)
    as [[-> (content & data & Hc' & Ht & Hs)] | (l & -> & Hno)]; cbn [valid].
  - rewrite Hread in Hc'. injection Hc' as <-. rewrite Hx in Ht, Hs.
    split; [intros _ | reflexivity].
    destruct (yaml_load (String c body)) as [v | msg]; [| discriminate].
    now exists v, data.
  - split; [discriminate |]. intros (v & data & Hv & Ht & Hs).
    exfalso. apply Hno. eexists _, data. split; [exact Hread |].
    rewrite Hx, Hv. now split.
Qed.

End Verdict.

Lemma validation_verdict_witness :
  file (validateMarkdownFile Samples.sample_yaml_load Samples.sample_site
          ["src"; "data"; "products"; "loose.md"]%string Samples.title_schema)
  = ["src"; "data"; "products"; "loose.md"]%string
  /\ (valid (validateMarkdownFile Samples.sample_yaml_load Samples.sample_site
               ["src"; "data"; "products"; "loose.md"]%string
               Samples.title_schema) = true
      <-> errors (validateMarkdownFile Samples.sample_yaml_load
                    Samples.sample_site
                    ["src"; "data"; "products"; "loose.md"]%string
                    Samples.title_schema) = None)
  /\ (valid (validateMarkdownFile Samples.sample_yaml_load Samples.sample_site
               ["src"; "data"; "products"; "loose.md"]%string
               Samples.title_schema) = false
      <-> exists l,
            errors (validateMarkdownFile Samples.sample_yaml_load
                      Samples.sample_site
                      ["src"; "data"; "products"; "loose.md"]%string
                      Samples.title_schema) = Some l).
Proof.
  apply (proj2 (proj2 (validation_verdict Samples.sample_yaml_load
                         Samples.sample_site
                         ["src"; "data"; "products"; "loose.md"]%string
                         Samples.title_schema))).
  right. reflexivity.
Defined.

Lemma loadYamlFile_agrees_with_validateYamlFile_witness :
  exists r : DataLoader.DataLoadResult jsval,
    DataLoader.loadYamlFile Samples.sample_yaml_load Samples.sample_site
      ["src"; "data"; "testimonials.yaml"]%string Samples.title_schema = Ok r
    /\ DataLoader.success r = false
    /\ DataLoader.data r = None
    /\ valid (validateYamlFile Samples.sample_yaml_load Samples.sample_site
                ["src"; "data"; "testimonials.yaml"]%string
                Samples.title_schema) = false.
Proof.
  destruct (loadYamlFile_agrees_with_validateYamlFile
              Samples.sample_yaml_load Samples.sample_site
              ["src"; "data"; "testimonials.yaml"]%string
              Samples.title_schema) as (r & Hr & Hv & _ & Hfail).
  exists r. split; [exact Hr |].
  assert (Hs : DataLoader.success r = false).
  { vm_compute in Hr. injection Hr as <-. reflexivity. }
  split; [exact Hs |]. split; [exact (proj1 (Hfail Hs)) |].
  now rewrite <- Hv.
Defined.

Lemma extractFrontmatter_block_witness :
  extractFrontmatter Samples.sample_yaml_load
    ("---" ++ " " ++ String LF ("title: Rocq" ++ String LF ("---" ++ "Text")))
  = VObject [("title", VString "Rocq")].
Proof.
  exact (proj1 (extractFrontmatter_block Samples.sample_yaml_load
                  " " "t"%char "itle: Rocq" "Text" eq_refl eq_refl eq_refl)).
Defined.

End ValidatorFacts.

(** ** The product files that are validated *)

Module ProductFilesFacts.

Import ContentValidator FsSpec ReportSpec ProductFilesSpec.
Local Open Scope list_scope.

Lemma markdown_name_extensions (n : string) :
  existsb (String.eqb (toLowerCase (NodePath.extname n))) [".md"; ".mdx"]%string
  = markdown_name n.
Proof.
  unfold markdown_name. cbn [existsb]. now rewrite orb_false_r.
Qed.

Lemma basename_join (dir : NodePath.path) (n : string) :
  NodePath.basename (NodePath.join dir [n]) = n.
Proof.
  unfold NodePath.basename, NodePath.join. apply last_last.
Qed.

Lemma markdown_name_not_gitkeep (n : string) :
  markdown_name n = true -> String.eqb n ".gitkeep" = false.
Proof.
  intros H. destruct (String.eqb_spec n ".gitkeep") as [-> |]; [| reflexivity].
  vm_compute in H. discriminate.
Qed.

Section Products.

Variable yaml_load : string -> outcome jsval.
Variables resumeFileSchema testimonialsFileSchema repositoriesFileSchema
          publicationsFileSchema productSchema : Zod.ZodSchema jsval.

(** X10: when the products path is a directory, the results of
    [validateAllContent] are those of the data files that exist followed
    by one result of [validateMarkdownFile] for each product file, in the
    order of the directory; the product files are the regular files
    directly inside the directory whose extension is [.md] or [.mdx] in
    any letter case, listed in the order of the directory. None of them
    is called [.gitkeep], so that the test for that name skips nothing. *)
Theorem product_files_validated (fs : Fs.node) (now : string)
    (basePath : NodePath.path) (entries : list Fs.dirent) :
  Fs.resolve fs (NodePath.join basePath ["src"; "data"; "products"]%string)
  = Some (Fs.Dir entries) ->
  exists (report : ContentValidationReport) (productFiles : list NodePath.path),
    validateAllContent yaml_load resumeFileSchema testimonialsFileSchema
      repositoriesFileSchema publicationsFileSchema productSchema
      fs now basePath = Ok report
    /\ getFilesInDirectory fs
         (NodePath.join basePath ["src"; "data"; "products"]%string)
         [".md"; ".mdx"]%string = Ok productFiles
    /\ productFiles
       = files_kept (NodePath.join basePath ["src"; "data"; "products"]%string)
           markdown_name entries
    /\ results report
       = yaml_results yaml_load fs
           (yamlValidations resumeFileSchema testimonialsFileSchema
              repositoriesFileSchema publicationsFileSchema basePath)
         ++ map (fun f => validateMarkdownFile yaml_load fs f productSchema)
                productFiles
    /\ (forall f,
           In f productFiles
           <-> exists name sz mt content,
                 In (name, Fs.File sz mt content) entries
                 /\ markdown_name name = true
                 /\ f = NodePath.join basePath
                          ["src"; "data"; "products"; name]%string)
    /\ (forall f, In f productFiles -> NodePath.basename f <> ".gitkeep"%string).
Proof.
  intros Hdir.
  set (dir := NodePath.join basePath ["src"; "data"; "products"]%string) in *.
  set (files := files_kept dir markdown_name entries).
  assert (Hlist : getFilesInDirectory fs dir [".md"; ".mdx"]%string = Ok files).
  { unfold getFilesInDirectory, Fs.existsSync, Fs.readdirSync.
    rewrite Hdir. cbn [negb mbind outcome_bind]. unfold files, files_kept.
    f_equal. f_equal. apply filter_ext. intros e.
    now rewrite markdown_name_extensions. }
  assert (Hname : forall f, In f files ->
            exists e, In e entries /\ Fs.isFile e = true
                      /\ markdown_name (Fs.name e) = true
                      /\ f = NodePath.join dir [Fs.name e]).
  { intros f Hf. unfold files, files_kept in Hf.
    apply in_map_iff in Hf as (e & <- & He).
    apply filter_In in He as [He Hb]. apply andb_prop in Hb as [Hfile Hmd].
    now exists e. }
  assert (Hkeep : forall f, In f files ->
            negb (String.eqb (NodePath.basename f) ".gitkeep") = true).
  { intros f Hf. destruct (Hname f Hf) as (e & _ & _ & Hmd & ->).
    rewrite basename_join. now rewrite (markdown_name_not_gitkeep _ Hmd). }
  assert (Hprod : product_results yaml_load productSchema fs files
                  = map (fun f => validateMarkdownFile yaml_load fs f
                                    productSchema) files).
  { unfold product_results. f_equal.
    apply forallb_filter_id. apply forallb_forall. exact Hkeep. }
  eexists. exists files.
  split; [| split; [exact Hlist | split; [reflexivity | split; [| split]]]].
  - unfold validateAllContent. fold dir. rewrite Hlist.
    cbn [mbind outcome_bind].
    rewrite ReportFacts.validate_yaml_files_app,
      ReportFacts.validate_product_files_app.
    cbn [app]. rewrite Hprod. reflexivity.
  - reflexivity.
  - intros f. split.
    + intros Hf. destruct (Hname f Hf) as ([n c] & He & Hfile & Hmd & ->).
      unfold Fs.isFile in Hfile. cbn [snd Fs.name fst] in *.
      destruct c as [sz mt content | |]; try discriminate.
      exists n, sz, mt, content. split; [exact He |]. split; [exact Hmd |].
      unfold dir, NodePath.join. now rewrite <- app_assoc.
    + intros (n & sz & mt & content & He & Hmd & ->).
      unfold files, files_kept. apply in_map_iff.
      exists (n, Fs.File sz mt content). split.
      * unfold dir, NodePath.join. cbn [Fs.name fst]. now rewrite <- app_assoc.
      * apply filter_In. split; [exact He |].
        cbn [Fs.isFile Fs.name fst snd]. now rewrite Hmd.
  - intros f Hf Heq. specialize (Hkeep f Hf). rewrite Heq in Hkeep.
    discriminate.
Qed.

End Products.

Lemma product_files_validated_witness :
  exists (report : ContentValidationReport) (productFiles : list NodePath.path),
    validateAllContent Samples.sample_yaml_load Samples.title_schema
      Samples.title_schema Samples.title_schema Samples.title_schema
      Samples.title_schema Samples.sample_site "2024-01-01T00:00:00.000Z" nil
    = Ok report
    /\ productFiles
       = [ ["src"; "data"; "products"; "course.md"];
           ["src"; "data"; "products"; "loose.md"];
           ["src"; "data"; "products"; "empty.mdx"];
           ["src"; "data"; "products"; "bare.md"] ]%string
    /\ forall f, In f productFiles -> NodePath.basename f <> ".gitkeep"%string.
Proof.
  destruct (product_files_validated Samples.sample_yaml_load
              Samples.title_schema Samples.title_schema Samples.title_schema
              Samples.title_schema Samples.title_schema Samples.sample_site
              "2024-01-01T00:00:00.000Z" nil _ eq_refl)
    as (report & productFiles & Hr & _ & Horder & _ & _ & Hk).
  exists report, productFiles. split; [exact Hr |]. split; [| exact Hk].
  rewrite Horder. reflexivity.
Defined.

End ProductFilesFacts.

(** ** The assets [collectFiles] finds *)

Module AssetsFacts.

Import Fs BuildOptimization FsSpec BuildSpec AssetsSpec FsFacts.
Local Open Scope list_scope.

Lemma basename_app (relp rel : NodePath.path) :
  rel <> nil -> NodePath.basename (relp ++ rel) = NodePath.basename rel.
Proof.
  intros Hne. unfold NodePath.basename.
  induction relp as [|x relp IH]; [reflexivity |].
  cbn [app]. rewrite <- IH.
  destruct (relp ++ rel) eqn:E; [| reflexivity].
  apply app_eq_nil in E as [_ ->]. contradiction.
Qed.

(** Every asset collected below an entry is the record of a regular file
    below it. *)
Lemma collect_entry_sound (child : node) :
  forall (relp : NodePath.path) (n : string),
    NodePath.basename relp = n -> well_formed child = true ->
    forall a, In a (collect_entry relp n child) ->
    exists rel sz mt content,
      resolve child rel = Some (File sz mt content)
      /\ a = asset_of (relp ++ rel) sz.
Proof.
  induction child as [sz mt content | entries IH |] using node_induction;
    intros relp n Hbase Hwf a Hin.
  - destruct Hin as [<- | []]. exists nil, sz, mt, content.
    split; [reflexivity |]. unfold asset_of. now rewrite app_nil_r, Hbase.
  - rewrite BuildReportFacts.collect_entry_dir in Hin.
    assert (Hsub : forall l, incl l entries ->
              In a (collect_entries relp l) ->
              exists rel sz mt content,
                resolve (Dir entries) rel = Some (File sz mt content)
                /\ a = asset_of (relp ++ rel) sz).
    { clear Hin. induction l as [|[m c] l IHl]; intros Hincl Hin.
      - contradiction.
      - cbn [collect_entries] in Hin. apply in_app_or in Hin as [Hin | Hin].
        + assert (Hmc : In (m, c) entries) by (apply Hincl; now left).
          rewrite Stdlib.Lists.List.Forall_forall in IH.
          destruct (IH (m, c) Hmc (NodePath.join relp [m]) m) with (a := a)
            as (rel & sz & mt & content & Hres & Ha).
          * unfold NodePath.join, NodePath.basename. apply last_last.
          * now apply (well_formed_entry entries m c).
          * exact Hin.
          * exists (m :: rel), sz, mt, content. split.
            -- cbn [resolve]. rewrite (lookup_entry_unique entries m c).
               ++ exact Hres.
               ++ rewrite well_formed_dir in Hwf.
                  now apply andb_prop in Hwf as [Hu _].
               ++ exact Hmc.
            -- rewrite Ha. unfold NodePath.join. now rewrite <- app_assoc.
        + apply IHl; [| exact Hin].
          intros e He. apply Hincl. now right. }
    exact (Hsub entries (incl_refl _) Hin).
  - contradiction.
Qed.

Lemma collect_entry_listed (relp : NodePath.path) (entries : list dirent)
    (n : string) (c : node) (a : AssetInfo) :
  lookup_entry n entries = Some c ->
  In a (collect_entry (NodePath.join relp [n]) n c) ->
  In a (collect_entries relp entries).
Proof.
  induction entries as [|[m d] entries IH]; [discriminate |].
  cbn [lookup_entry collect_entries].
  destruct (String.eqb_spec m n) as [-> | Hne].
  - intros [= ->] Hin. apply in_or_app. now left.
  - intros Hl Hin. apply in_or_app. right. now apply IH.
Qed.

(** Every regular file below a directory is collected. *)
Lemma collect_entries_complete (rel : NodePath.path) :
  forall (relp : NodePath.path) (entries : list dirent) sz mt content,
    rel <> nil ->
    resolve (Dir entries) rel = Some (File sz mt content) ->
    In (asset_of (relp ++ rel) sz) (collect_entries relp entries).
Proof.
  induction rel as [|seg rest IH]; intros relp entries sz mt content Hne Hres;
    [contradiction |].
  cbn [resolve] in Hres.
  destruct (lookup_entry seg entries) as [c|] eqn:Hl; [| discriminate].
  apply (collect_entry_listed relp entries seg c); [exact Hl |].
  destruct rest as [|seg' rest'].
  - cbn [resolve] in Hres. injection Hres as ->. left.
    unfold asset_of, NodePath.join.
    now rewrite (basename_app relp [seg]) by discriminate.
  - destruct c as [| sub |]; try discriminate.
    rewrite BuildReportFacts.collect_entry_dir.
    replace (relp ++ seg :: seg' :: rest')
      with (NodePath.join relp [seg] ++ seg' :: rest')
      by (unfold NodePath.join; now rewrite <- app_assoc).
    apply (IH _ sub sz mt content); [discriminate | exact Hres].
Qed.

(** X11: on a well-formed snapshot, [collectFiles] of a directory returns
    exactly the regular files below it, at any depth: each asset has the
    path of such a file relative to the directory and the size of that
    file, and its type and hash flag are those of the last segment of the
    path, whatever the names of the directories above it. *)
Theorem collectFiles_assets (fs : node) (dir : NodePath.path)
    (entries : list dirent) :
  well_formed fs = true ->
  resolve fs dir = Some (Dir entries) ->
  exists assets : list AssetInfo,
    collectFiles fs dir = Ok assets
    /\ forall a : AssetInfo,
         In a assets
         <-> exists rel sz mt content,
               rel <> nil
               /\ resolve fs (NodePath.join dir rel) = Some (File sz mt content)
               /\ a = {| path := rel;
                         size := sz;
                         type := getAssetType (NodePath.basename rel);
                         hasHash := hasContentHash (NodePath.basename rel) |}.
Proof.
  intros Hwf Hdir. exists (collect_entries nil entries). split.
  - unfold collectFiles, existsSync, readdirSync. now rewrite Hdir.
  - intros a. unfold NodePath.join. split.
    + intros Hin.
      assert (Hd : well_formed (Dir entries) = true)
        by exact (well_formed_resolve fs dir _ Hwf Hdir).
      rewrite <- (BuildReportFacts.collect_entry_dir nil "") in Hin.
      destruct (collect_entry_sound (Dir entries) nil "" eq_refl Hd a Hin)
        as (rel & sz & mt & content & Hres & ->).
      exists rel, sz, mt, content. split; [| split].
      * intros ->. discriminate.
      * now rewrite resolve_app, Hdir.
      * reflexivity.
    + intros (rel & sz & mt & content & Hne & Hres & ->).
      rewrite resolve_app, Hdir in Hres.
      exact (collect_entries_complete rel nil entries sz mt content Hne Hres).
Qed.

Lemma collectFiles_assets_witness :
  exists assets : list AssetInfo,
    collectFiles Samples.sample_build ["dist"%string] = Ok assets
    /\ In {| path := ["assets"; "style.abc12345.css"]%string; size := 3;
             type := css; hasHash := true |} assets.
Proof.
  destruct (collectFiles_assets Samples.sample_build ["dist"%string] _
              eq_refl eq_refl) as (assets & Hc & Ha).
  exists assets. split; [exact Hc |]. apply Ha.
  exists ["assets"; "style.abc12345.css"]%string, 3%N, 0%Z, "a{}"%string.
  split; [discriminate |]. split; reflexivity.
Defined.

End AssetsFacts.

(** ** The summary of a build report *)

Module SummaryFacts.

Import Fs BuildOptimization FsSpec BuildSpec AssetsSpec.
Local Open Scope list_scope.

Lemma count_by_type (l : list AssetInfo) :
  List.length (List.filter (of_type html) l)
  + List.length (List.filter (of_type css) l)
  + List.length (List.filter (of_type js) l)
  + List.length (List.filter (of_type image) l)
  + List.length (List.filter (of_type other) l)
  = List.length l.
Proof.
  induction l as [|a l IH]; [reflexivity |].
  cbn [List.filter].
  assert (Ht : forall t, of_type t a = AssetType_eqb (type a) t)
    by reflexivity.
  rewrite !Ht.
  destruct (type a); cbn [AssetType_eqb List.length]; lia.
Qed.

Lemma sum_sizes_from (l : list AssetInfo) (acc : N) :
  fold_left (fun sum a => (sum + size a)%N) l acc = (acc + sum_sizes l)%N.
Proof.
  unfold sum_sizes. revert acc. induction l as [|a l IH]; intros acc.
  - cbn. lia.
  - cbn [fold_left]. rewrite IH, (IH (0 + size a)%N). lia.
Qed.

Lemma sum_sizes_cons (a : AssetInfo) (l : list AssetInfo) :
  sum_sizes (a :: l) = (size a + sum_sizes l)%N.
Proof.
  unfold sum_sizes at 1. cbn [fold_left]. rewrite sum_sizes_from. lia.
Qed.

Lemma sum_sizes_filter (f : AssetInfo -> bool) (l : list AssetInfo) :
  (sum_sizes (List.filter f l) <= sum_sizes l)%N.
Proof.
  induction l as [|a l IH]; [reflexivity |].
  cbn [List.filter]. destruct (f a); rewrite ?sum_sizes_cons; lia.
Qed.

(** The rounded average of the sizes is a natural number, at most the
    sum of the sizes, and zero for the empty list. *)
Lemma rounded_average (l : list AssetInfo) :
  exists n : N,
    natural (JsNum.round (average_size l)) n
    /\ (n <= sum_sizes l)%N
    /\ (List.length l = 0 -> n = 0%N).
Proof.
  unfold natural, average_size. destruct l as [|a l'] eqn:El.
  - exists 0%N. repeat split; reflexivity.
  - rewrite <- El. set (s := sum_sizes l).
    assert (Hlen : (0 < List.length l)%nat) by (rewrite El; cbn; lia).
    replace (0 <? List.length l)%nat with true
      by (symmetry; now apply Nat.ltb_lt).
    assert (Hpos : (0 < inject_Z (Z.of_nat (List.length l)))%Q).
    { change 0%Q with (inject_Z 0). rewrite <- Zlt_Qlt. lia. }
    assert (Hnz : JsNum.Qis0 (inject_Z (Z.of_nat (List.length l))) = false).
    { unfold JsNum.Qis0. apply not_true_is_false. intros H.
      apply Qeq_bool_eq in H. lra. }
    unfold of_nat. cbn [JsNum.div]. rewrite Hnz. cbn [JsNum.round].
    set (x := (inject_Z (Z.of_N s) / inject_Z (Z.of_nat (List.length l))
               + (1 # 2))%Q).
    assert (Hs : (0 <= inject_Z (Z.of_N s))%Q).
    { change 0%Q with (inject_Z 0). rewrite <- Zle_Qle. lia. }
    assert (Hdiv : (inject_Z (Z.of_N s) / inject_Z (Z.of_nat (List.length l))
                    <= inject_Z (Z.of_N s))%Q).
    { apply Qle_shift_div_r; [exact Hpos |].
      rewrite <- inject_Z_mult, <- Zle_Qle. nia. }
    assert (Hquot : (0 <= inject_Z (Z.of_N s)
                          / inject_Z (Z.of_nat (List.length l)))%Q).
    { apply Qle_shift_div_l; [exact Hpos |]. lra. }
    assert (Hlo : (0 <= Qfloor x)%Z).
    { change 0%Z with (Qfloor 0). apply Qfloor_resp_le. unfold x. lra. }
    assert (Hhi : (Qfloor x <= Z.of_N s)%Z).
    { pose proof (Qfloor_le x) as Hf.
      assert (Hlt : (inject_Z (Qfloor x) < inject_Z (Z.of_N s + 1))%Q).
      { rewrite inject_Z_plus. unfold x in *.
        change (inject_Z 1) with 1%Q. lra. }
      rewrite <- Zlt_Qlt in Hlt. lia. }
    exists (Z.to_N (Qfloor x)). split; [| split].
    + now rewrite Z2N.id.
    + lia.
    + intros H0. lia.
Qed.

(** X12: in every build report the five counts by type add up to the
    number of files, which is the number of assets; the hashed assets are
    among the files; and each of the three average sizes is a natural
    number (never [NaN], never a fraction) that is at most the total
    size and is zero when the report has no file of the type. *)
Theorem generateBuildReport_summary (fs : node) (now : string)
    (dir : NodePath.path) (r : BuildReport) :
  generateBuildReport fs now dir = Ok r ->
  totalFiles (summary r) = List.length (assets r)
  /\ htmlFiles (summary r) + cssFiles (summary r) + jsFiles (summary r)
     + imageFiles (summary r) + otherFiles (summary r)
     = totalFiles (summary r)
  /\ hashedAssets (summary r) <= totalFiles (summary r)
  /\ exists h c j : N,
       natural (averageHtmlSize (summary r)) h
       /\ natural (averageCssSize (summary r)) c
       /\ natural (averageJsSize (summary r)) j
       /\ (h <= totalSize (summary r))%N
       /\ (c <= totalSize (summary r))%N
       /\ (j <= totalSize (summary r))%N
       /\ (htmlFiles (summary r) = 0 -> h = 0%N)
       /\ (cssFiles (summary r) = 0 -> c = 0%N)
       /\ (jsFiles (summary r) = 0 -> j = 0%N).
Proof.
  unfold generateBuildReport.
  destruct (collectFiles fs dir) as [l | m]; [| discriminate].
  destruct (sample_minified fs dir isHtmlMinified _) as [bh | m];
    [| discriminate].
  destruct (sample_minified fs dir isCssMinified _) as [bc | m];
    [| discriminate].
  destruct (sample_minified fs dir isJsMinified _) as [bj | m];
    [| discriminate].
  intros [= <-]. cbn [summary assets totalFiles htmlFiles cssFiles jsFiles
                      imageFiles otherFiles hashedAssets totalSize
                      averageHtmlSize averageCssSize averageJsSize].
  split; [reflexivity |]. split; [apply count_by_type |].
  split; [apply filter_length_le |].
  destruct (rounded_average (List.filter (of_type html) l)) as (h & Hh & Hhs & Hh0).
  destruct (rounded_average (List.filter (of_type css) l)) as (c & Hc & Hcs & Hc0).
  destruct (rounded_average (List.filter (of_type js) l)) as (j & Hj & Hjs & Hj0).
  exists h, c, j.
  pose proof (sum_sizes_filter (of_type html) l).
  pose proof (sum_sizes_filter (of_type css) l).
  pose proof (sum_sizes_filter (of_type js) l).
  repeat split; try assumption; lia.
Qed.

Lemma generateBuildReport_summary_witness :
  exists r : BuildReport,
    generateBuildReport Samples.sample_build "2024-01-01T00:00:00.000Z"
      ["dist"%string] = Ok r
    /\ totalFiles (summary r) = 3
    /\ htmlFiles (summary r) + cssFiles (summary r) + jsFiles (summary r)
       + imageFiles (summary r) + otherFiles (summary r)
       = totalFiles (summary r).
Proof.
  destruct (generateBuildReport Samples.sample_build
              "2024-01-01T00:00:00.000Z" ["dist"%string]) as [r | m] eqn:Hr;
    [| vm_compute in Hr; discriminate].
  exists r. split; [reflexivity |]. split.
  - vm_compute in Hr. injection Hr as <-. reflexivity.
  - exact (proj1 (proj2 (generateBuildReport_summary Samples.sample_build
                           "2024-01-01T00:00:00.000Z" ["dist"%string] r Hr))).
Defined.

End SummaryFacts.

(** ** The thresholds of the minification tests *)

Module MinifiedFacts.

Import BuildOptimization.

(** A ratio over a positive length is below a bound exactly when the
    numerator is below the bound times the length. *)
Lemma ratio_below (x y : Q) (len : nat) :
  0 < len ->
  JsNum.lt (JsNum.div (Fin x) (of_nat len)) (Fin y) = true
  <-> (x < y * inject_Z (Z.of_nat len))%Q.
Proof.
  intros Hlen.
  assert (Hpos : (0 < inject_Z (Z.of_nat len))%Q).
  { change 0%Q with (inject_Z 0). rewrite <- Zlt_Qlt. lia. }
  assert (Hnz : JsNum.Qis0 (inject_Z (Z.of_nat len)) = false).
  { unfold JsNum.Qis0. apply not_true_is_false. intros H.
    apply Qeq_bool_eq in H. lra. }
  unfold of_nat. cbn [JsNum.div]. rewrite Hnz. cbn [JsNum.lt].
  unfold JsNum.Qltb. rewrite negb_true_iff.
  set (L := inject_Z (Z.of_nat len)) in *.
  assert (Hx : (x / L * L == x)%Q) by (field; lra).
  split.
  - intros Hb. apply Qnot_le_lt. intros Hle.
    assert (Hq : (y <= x / L)%Q).
    { apply Qle_shift_div_l; [exact Hpos | exact Hle]. }
    apply Qle_bool_iff in Hq. congruence.
  - intros Hlt. apply not_true_is_false. intros Hb.
    apply Qle_bool_iff in Hb.
    assert (Hq : (y * L <= x / L * L)%Q).
    { apply Qmult_le_compat_r; [exact Hb | lra]. }
    lra.
Qed.

Lemma count_newlines_append (s t : string) :
  count_newlines (s ++ t) = count_newlines s + count_newlines t.
Proof.
  induction s as [|c s IH]; [reflexivity |].
  cbn [String.append count_newlines]. rewrite IH. lia.
Qed.

(** X13: [isHtmlMinified] is true exactly when the text has fewer than
    200 characters or fewer than one newline per 50 characters; so a text
    without newline is minified whatever its length, and adding text
    without newline to a minified text of at least 200 characters leaves
    it minified. *)
Theorem isHtmlMinified_threshold :
  (forall content : string,
      isHtmlMinified content = true
      <-> String.length content < 200
          \/ 50 * count_newlines content < String.length content)
  /\ (forall content : string,
         count_newlines content = 0 -> isHtmlMinified content = true)
  /\ (forall content more : string,
         isHtmlMinified content = true -> count_newlines more = 0 ->
         200 <= String.length content ->
         isHtmlMinified (content ++ more) = true).
Proof.
  assert (H : forall content : string,
             isHtmlMinified content = true
             <-> String.length content < 200
                 \/ 50 * count_newlines content < String.length content).
  { intros content. unfold isHtmlMinified.
    destruct (Nat.ltb_spec (String.length content) 200) as [Hlt | Hge].
    - split; [now left | reflexivity].
    - unfold of_nat at 1. rewrite ratio_below by lia.
      unfold Qlt. cbn [Qnum Qden Qmult inject_Z]. split.
      + intros Hq. right. lia.
      + intros [Hs | Hq]; lia. }
  split; [exact H |]. split.
  - intros content H0. apply H.
    destruct (Nat.lt_ge_cases (String.length content) 200); [now left |].
    right. lia.
  - intros content more Hc Hm Hlen. apply H. apply H in Hc.
    rewrite StringFacts.length_append, count_newlines_append. right. lia.
Qed.

Lemma isHtmlMinified_threshold_witness :
  isHtmlMinified "<html></html>" = true.
Proof.
  apply (proj1 (proj2 isHtmlMinified_threshold)). reflexivity.
Defined.

(** X14: [isJsMinified] is true exactly when the text has fewer than 100
    characters or fewer than one newline or comment marker per 200
    characters; so a longer text with neither newline nor comment marker
    is minified. *)
Theorem isJsMinified_threshold :
  (forall content : string,
      isJsMinified content = true
      <-> String.length content < 100
          \/ 200 * (count_newlines content + count_comment_markers content)
             < String.length content)
  /\ (forall content : string,
         count_newlines content = 0 -> count_comment_markers content = 0 ->
         isJsMinified content = true).
Proof.
  assert (H : forall content : string,
             isJsMinified content = true
             <-> String.length content < 100
                 \/ 200 * (count_newlines content
                           + count_comment_markers content)
                    < String.length content).
  { intros content. unfold isJsMinified.
    destruct (Nat.ltb_spec (String.length content) 100) as [Hlt | Hge].
    - split; [now left | reflexivity].
    - unfold of_nat at 1 2. cbn [JsNum.add]. rewrite ratio_below by lia.
      unfold Qlt. cbn [Qnum Qden Qmult Qplus inject_Z]. split.
      + intros Hq. right. lia.
      + intros [Hs | Hq]; lia. }
  split; [exact H |].
  intros content Hn Hc. apply H.
  destruct (Nat.lt_ge_cases (String.length content) 100); [now left |].
  right. lia.
Qed.

Lemma isJsMinified_threshold_witness :
  isJsMinified "let x = 1;" = true.
Proof.
  apply (proj2 isJsMinified_threshold); reflexivity.
Defined.

(** X15: [isCssMinified] is true exactly when the text is not empty and
    has fewer than one run of two or more white-space characters per 1000
    characters; so a text of at most 1000 characters with one such run
    (an indented line, a blank line) is not minified, and a text that is
    not empty and has no such run is. *)
Theorem isCssMinified_threshold :
  (forall content : string,
      isCssMinified content = true
      <-> 0 < String.length content
          /\ 1000 * count_space_runs content < String.length content)
  /\ (forall content : string,
         String.length content <= 1000 -> 0 < count_space_runs content ->
         isCssMinified content = false)
  /\ (forall content : string,
         content <> ""%string -> count_space_runs content = 0 ->
         isCssMinified content = true).
Proof.
  assert (H : forall content : string,
             isCssMinified content = true
             <-> 0 < String.length content
                 /\ 1000 * count_space_runs content < String.length content).
  { intros content. unfold isCssMinified.
    destruct content as [|c r] eqn:E.
    - cbn. split; [discriminate | lia].
    - rewrite <- E. assert (Hlen : 0 < String.length content)
        by (rewrite E; cbn; lia).
      unfold of_nat at 1. rewrite ratio_below by lia.
      unfold Qlt. cbn [Qnum Qden Qmult inject_Z]. split.
      + intros Hq. split; lia.
      + intros [_ Hq]. lia. }
  split; [exact H |]. split.
  - intros content Hlen Hruns. apply not_true_is_false. intros Ht.
    apply H in Ht. lia.
  - intros content Hne Hruns. apply H.
    destruct content; [contradiction |]. cbn [String.length]. lia.
Qed.

Lemma isCssMinified_threshold_witness :
  isCssMinified "a {  color: red }" = false /\ isCssMinified "a{}" = true.
Proof.
  split.
  - apply (proj1 (proj2 isCssMinified_threshold)).
    + apply Nat.leb_le. vm_compute. reflexivity.
    + apply Nat.ltb_lt. vm_compute. reflexivity.
  - apply (proj2 (proj2 isCssMinified_threshold)); [discriminate | reflexivity].
Defined.

End MinifiedFacts.

(** ** A build without files, and an output path that is no directory *)

Module EmptyBuildFacts.

Import Fs BuildOptimization FsSpec BuildSpec.
Local Open Scope list_scope.

(** X16: when the output directory is missing, or is a directory below
    which there is no regular file, [validateBuildOptimization] reports a
    valid build without errors: all four checks hold of a report with no
    asset, whose counts, total size and averages are zero. When the
    output path is something else than a directory, it throws. *)
Theorem validateBuildOptimization_without_files (fs : node) (now : string)
    (dir : NodePath.path) :
  (directory_or_missing fs dir = true -> collected fs dir = nil ->
   validateBuildOptimization fs now dir
   = Ok {| valid := true;
           report :=
             {| timestamp := now;
                outputDir := dir;
                assets := nil;
                summary :=
                  {| totalFiles := 0; totalSize := 0;
                     htmlFiles := 0; cssFiles := 0; jsFiles := 0;
                     imageFiles := 0; otherFiles := 0; hashedAssets := 0;
                     averageHtmlSize := Fin 0; averageCssSize := Fin 0;
                     averageJsSize := Fin 0 |};
                optimizationChecks :=
                  {| allAssetsHashed := true; htmlMinified := true;
                     cssMinified := true; jsMinified := true |} |};
           errors := nil |})
  /\ (resolve fs dir = None -> collected fs dir = nil)
  /\ (directory_or_missing fs dir = false ->
      exists message,
        generateBuildReport fs now dir = Throw message
        /\ validateBuildOptimization fs now dir = Throw message).
Proof.
  split; [| split].
  - intros Hdir Hnil. unfold validateBuildOptimization, generateBuildReport.
    rewrite (BuildReportFacts.collectFiles_returns fs dir Hdir), Hnil.
    reflexivity.
  - intros Hres. unfold collected, collectFiles, existsSync.
    now rewrite Hres.
  - unfold directory_or_missing, validateBuildOptimization,
      generateBuildReport, collectFiles, existsSync, readdirSync.
    destruct (resolve fs dir) as [[| es |]|]; intros H; try discriminate;
      cbn [negb]; eexists; split; reflexivity.
Qed.

Lemma validateBuildOptimization_without_files_witness :
  (exists v : BuildValidation,
      validateBuildOptimization Samples.sample_build
        "2024-01-01T00:00:00.000Z" ["out"%string] = Ok v
      /\ valid v = true /\ errors v = nil)
  /\ exists message,
       validateBuildOptimization Samples.sample_build
         "2024-01-01T00:00:00.000Z" ["dist"; "index.html"]%string
       = Throw message.
Proof.
  split.
  - eexists. split.
    + apply (proj1 (validateBuildOptimization_without_files
                      Samples.sample_build "2024-01-01T00:00:00.000Z"
                      ["out"%string])); reflexivity.
    + split; reflexivity.
  - destruct (proj2 (proj2 (validateBuildOptimization_without_files
                              Samples.sample_build "2024-01-01T00:00:00.000Z"
                              ["dist"; "index.html"]%string)) eq_refl)
      as (message & _ & Hv).
    now exists message.
Defined.

End EmptyBuildFacts.

(** ** Names without a hash, names without an extension *)

Module NameFacts.

Import BuildOptimization NodePath ExtnameSpec AssetSpec.

Lemma is_hex_lower (c : ascii) : is_hex (lower_char c) = is_hex c.
Proof.
  destruct c as [[] [] [] [] [] [] [] []]; reflexivity.
Qed.

Lemma is_separator_lower (c : ascii) :
  is_separator (lower_char c) = is_separator c.
Proof.
  destruct c as [[] [] [] [] [] [] [] []]; reflexivity.
Qed.

Lemma is_dot_lower (c : ascii) :
  Ascii.eqb (lower_char c) "." = Ascii.eqb c ".".
Proof.
  destruct c as [[] [] [] [] [] [] [] []]; reflexivity.
Qed.

Lemma hex_run_lower (s : string) (n : nat) :
  hex_run_then_dot n (toLowerCase s) = hex_run_then_dot n s.
Proof.
  revert n. induction s as [|c s IH]; intros n; [reflexivity |].
  cbn [toLowerCase hex_run_then_dot].
  now rewrite is_hex_lower, is_dot_lower, IH.
Qed.

(** X17: [hasContentHash] is false of every name shorter than ten
    characters; it does not depend on the case of the letters; and a name
    that contains a name with a hash has a hash, so that text put before
    or after a hashed name never hides the hash. *)
Theorem hasContentHash_short_case_context :
  (forall filename : string,
      String.length filename < 10 -> hasContentHash filename = false)
  /\ (forall filename : string,
         hasContentHash (toLowerCase filename) = hasContentHash filename)
  /\ (forall before filename after : string,
         hasContentHash filename = true ->
         hasContentHash (before ++ filename ++ after) = true).
Proof.
  split; [| split].
  - intros filename Hlen. apply not_true_is_false. intros H.
    apply HashFacts.hasContentHash_iff in H
      as (pre & sep & hexs & post & -> & _ & _ & Hhex).
    rewrite StringFacts.length_append in Hlen. cbn [String.length] in Hlen.
    rewrite StringFacts.length_append in Hlen. cbn [String.length] in Hlen.
    lia.
  - induction filename as [|c s IH]; [reflexivity |].
    cbn [toLowerCase hasContentHash hash_at].
    now rewrite is_separator_lower, hex_run_lower, IH.
  - intros before filename after H.
    apply HashFacts.hasContentHash_iff in H
      as (pre & sep & hexs & post & -> & Hsep & Hh & Hlen).
    apply HashFacts.hasContentHash_iff.
    exists (before ++ pre), sep, hexs, (post ++ after).
    split; [| repeat split; assumption].
    rewrite !StringFacts.append_assoc. cbn [String.append].
    rewrite !StringFacts.append_assoc. reflexivity.
Qed.

Lemma hasContentHash_short_case_context_witness :
  hasContentHash "a.css" = false
  /\ hasContentHash ("assets/" ++ "main-DEADBEEF99.js" ++ ".map") = true.
Proof.
  split.
  - apply (proj1 hasContentHash_short_case_context). cbn. lia.
  - apply (proj2 (proj2 hasContentHash_short_case_context)). reflexivity.
Defined.

Local Open Scope Z_scope.

(** The loop of [path.extname] over a name without dot or slash finds no
    dot. *)
Lemma ext_loop_no_dot (l : list ascii) (i : Z) :
  forallb plain_char l = true -> l <> nil -> 0 <= i ->
  ext_loop l i ext_init = scanning (-1) (i + 1) 0.
Proof.
  intros Hl Hne Hi. destruct l as [|x l]; [contradiction |].
  cbn [forallb] in Hl. apply andb_prop in Hl as [Hx Hl].
  cbn [ext_loop].
  assert (Hfirst : ext_step ext_init i x = scanning (-1) (i + 1) 0).
  { unfold plain_char in Hx. apply andb_prop in Hx as [Hs Hd].
    apply negb_true_iff in Hs, Hd.
    unfold ext_step, ext_init, scanning; simpl. now rewrite Hs, Hd. }
  rewrite Hfirst. cbn [stopped scanning].
  rewrite <- (app_nil_r l).
  rewrite (NodePathFacts.ext_loop_plain l nil (i - 1) (i + 1) Hl) by lia.
  reflexivity.
Qed.

Lemma plain_rev (s : string) :
  plain s = true -> forallb plain_char (rev (list_ascii_of_string s)) = true.
Proof.
  unfold plain. rewrite !forallb_forall. intros H x Hx.
  apply H. now apply in_rev.
Qed.

Lemma extname_plain (name : string) :
  plain name = true -> extname name = ""%string.
Proof.
  intros Hplain. unfold extname.
  destruct (list_ascii_of_string name) as [|c l] eqn:E; [reflexivity |].
  rewrite <- E.
  rewrite ext_loop_no_dot.
  - reflexivity.
  - now apply plain_rev.
  - rewrite E. intros H. apply (f_equal (@List.length ascii)) in H.
    rewrite length_rev in H. discriminate.
  - rewrite E. cbn [List.length]. lia.
Qed.

Lemma extname_dotfile (name : string) :
  plain name = true -> extname (String "." name) = ""%string.
Proof.
  intros Hplain. unfold extname.
  cbn [list_ascii_of_string rev List.length].
  set (l := list_ascii_of_string name).
  destruct l as [|c l'] eqn:E.
  - reflexivity.
  - rewrite <- E.
    assert (Hlen : (0 < List.length l)%nat) by (rewrite E; cbn; lia).
    assert (Hne : rev l <> nil).
    { intros H. apply (f_equal (@List.length ascii)) in H.
      rewrite length_rev in H. cbn in H. lia. }
    destruct (rev l) as [|x r] eqn:Er; [contradiction |].
    assert (Hr : forallb plain_char (x :: r) = true).
    { rewrite <- Er. now apply plain_rev. }
    assert (Hrl : List.length l = S (List.length r)).
    { rewrite <- (length_rev l), Er. reflexivity. }
    cbn [forallb] in Hr. apply andb_prop in Hr as [Hx Hr].
    cbn [app ext_loop].
    set (n := Z.of_nat (S (List.length l))).
    assert (Hfirst : ext_step ext_init (n - 1) x = scanning (-1) n 0).
    { unfold plain_char in Hx. apply andb_prop in Hx as [Hs Hd].
      apply negb_true_iff in Hs, Hd.
      unfold ext_step, ext_init, scanning; simpl. rewrite Hs, Hd.
      f_equal. lia. }
    rewrite Hfirst. cbn [stopped scanning].
    assert (Hn : n <> -1) by (unfold n; lia).
    rewrite (NodePathFacts.ext_loop_plain r _ _ n Hr Hn).
    cbn [ext_loop].
    assert (Hdot : forall d, ext_step (scanning (-1) n 0) d "." = scanning d n 0).
    { intros d. unfold ext_step, scanning; simpl.
      destruct (Z.eqb_spec n (-1)); [contradiction | reflexivity]. }
    rewrite Hdot. cbn [stopped scanning startDot endPos preDotState].
    change (0 =? 0) with true. now rewrite orb_true_r.
Qed.

(** X18: a name without dot or slash, and a name whose only dot is its
    first character (with no slash), have no extension for
    [path.extname]; [getAssetType] makes them [other], also when what
    follows the dot is [css], [html] or [js]. *)
Theorem getAssetType_without_extension (name : string) :
  plain name = true ->
  extname name = ""%string
  /\ extname (String "." name) = ""%string
  /\ getAssetType name = other
  /\ getAssetType (String "." name) = other.
Proof.
  intros Hplain.
  pose proof (extname_plain name Hplain) as H1.
  pose proof (extname_dotfile name Hplain) as H2.
  unfold getAssetType. rewrite H1, H2. repeat split; reflexivity.
Qed.

Lemma getAssetType_without_extension_witness :
  getAssetType "LICENSE" = other /\ getAssetType ".css" = other.
Proof.
  split.
  - exact (proj1 (proj2 (proj2 (getAssetType_without_extension
                                  "LICENSE" eq_refl)))).
  - exact (proj2 (proj2 (proj2 (getAssetType_without_extension
                                  "css" eq_refl)))).
Defined.

End NameFacts.

(** ** The testimonials of a course and their average *)

Module TestimonialFacts.

Import DataLoader CourseTestimonials.
Local Open Scope list_scope.

Lemma filter_twice {A : Type} (f : A -> bool) (l : list A) :
  List.filter f (List.filter f l) = List.filter f l.
Proof.
  induction l as [|x l IH]; [reflexivity |].
  cbn [List.filter]. destruct (f x) eqn:Hx; [| exact IH].
  cbn [List.filter]. now rewrite Hx, IH.
Qed.

Lemma filter_none {A : Type} (f : A -> bool) (l : list A) :
  (forall x, In x l -> f x = false) -> List.filter f l = nil.
Proof.
  induction l as [|x l IH]; intros H; [reflexivity |].
  cbn [List.filter]. rewrite (H x (or_introl eq_refl)).
  apply IH. intros y Hy. apply H. now right.
Qed.

(** X19: the average rating of a course depends on the testimonials of
    that course only: it is the average computed on
    [getTestimonialsForCourse], it is [null] exactly when that list is
    empty, and testimonials of other courses put before or after the list
    do not change it. [getTestimonialsForCourse] returns the testimonials
    that carry the slug, all of them. *)
Theorem calculateAverageRating_of_course (ts : list Testimonial)
    (slug : string) :
  calculateAverageRating ts slug
  = calculateAverageRating (getTestimonialsForCourse ts slug) slug
  /\ (calculateAverageRating ts slug = None
      <-> getTestimonialsForCourse ts slug = nil)
  /\ (forall t, In t (getTestimonialsForCourse ts slug)
                <-> In t ts /\ courseSlug t = slug)
  /\ (forall others,
         (forall t, In t others -> courseSlug t <> slug) ->
         calculateAverageRating (ts ++ others) slug
         = calculateAverageRating ts slug
         /\ calculateAverageRating (others ++ ts) slug
            = calculateAverageRating ts slug).
Proof.
  split; [| split; [| split]].
  - unfold calculateAverageRating, getTestimonialsForCourse.
    now rewrite filter_twice.
  - unfold calculateAverageRating, getTestimonialsForCourse.
    destruct (List.filter _ ts) as [|t l]; cbn [List.length Nat.eqb].
    + split; reflexivity.
    + split; discriminate.
  - intros t. unfold getTestimonialsForCourse. rewrite filter_In.
    now rewrite String.eqb_eq.
  - intros others Hothers.
    assert (Hnone : List.filter (fun t => String.eqb (courseSlug t) slug) others
                    = nil).
    { apply filter_none. intros t Ht. apply String.eqb_neq.
      now apply Hothers. }
    unfold calculateAverageRating.
    now rewrite !Stdlib.Lists.List.filter_app, Hnone, app_nil_r.
Qed.

Lemma calculateAverageRating_of_course_witness :
  calculateAverageRating
    ([ {| courseSlug := "rocq"; rating := Fin 5 |} ]
     ++ [ {| courseSlug := "lean"; rating := Fin 1 |} ]) "rocq"
  = calculateAverageRating [ {| courseSlug := "rocq"; rating := Fin 5 |} ] "rocq".
Proof.
  apply (proj2 (proj2 (proj2 (calculateAverageRating_of_course
                                [ {| courseSlug := "rocq"; rating := Fin 5 |} ]
                                "rocq")))).
  intros t [<- | []]. discriminate.
Defined.

Local Open Scope Q_scope.

Lemma sum_of_equal_ratings (k : Z) (l : list Testimonial) (a : Q) :
  (forall t, In t l -> rates (rating t) k) ->
  exists s : Q,
    fold_left (fun acc t => JsNum.add acc (rating t)) l (Fin a) = Fin s
    /\ s == a + inject_Z (Z.of_nat (List.length l)) * inject_Z k.
Proof.
  revert a. induction l as [|t l IH]; intros a Hall.
  - exists a. split; [reflexivity |]. cbn [List.length].
    change (inject_Z (Z.of_nat 0)) with 0. ring.
  - destruct (Hall t (or_introl eq_refl)) as (q & Hq & Hk).
    cbn [fold_left]. rewrite Hq. cbn [JsNum.add].
    destruct (IH (a + q)) as (s & Hs & Heq).
    { intros u Hu. apply Hall. now right. }
    exists s. split; [exact Hs |].
    rewrite Heq, Hk. cbn [List.length]. rewrite Nat2Z.inj_succ.
    unfold Z.succ. rewrite inject_Z_plus. change (inject_Z 1) with 1. ring.
Qed.

Lemma floor_of_half_more (z : Z) (x : Q) :
  x == inject_Z z + (1 # 2) -> Qfloor x = z.
Proof.
  intros Hx.
  pose proof (Qfloor_le x) as Hlo. pose proof (Qlt_floor x) as Hhi.
  rewrite inject_Z_plus in Hhi. change (inject_Z 1) with 1 in Hhi.
  assert (H1 : inject_Z (Qfloor x) < inject_Z (z + 1)).
  { rewrite inject_Z_plus. change (inject_Z 1) with 1. lra. }
  assert (H2 : inject_Z z < inject_Z (Qfloor x + 1)).
  { rewrite inject_Z_plus. change (inject_Z 1) with 1. lra. }
  rewrite <- Zlt_Qlt in H1, H2. lia.
Qed.

(** X20: when a course has testimonials and all of them give the same
    rating, an integer between 1 and 5 as the schema of a testimonial
    requires, the average rating of the course is that rating. (On such
    ratings the sum, the mean and ten times the mean are small integers,
    which binary64 holds exactly.) *)
Theorem calculateAverageRating_uniform (ts : list Testimonial)
    (slug : string) (k : Z) :
  getTestimonialsForCourse ts slug <> nil ->
  (1 <= k <= 5)%Z ->
  (forall t, In t (getTestimonialsForCourse ts slug) -> rates (rating t) k) ->
  exists q : Q,
    calculateAverageRating ts slug = Some (Fin q) /\ q == inject_Z k.
Proof.
  unfold calculateAverageRating, getTestimonialsForCourse.
  set (l := List.filter _ ts). intros Hne _ Hall.
  destruct l as [|t l'] eqn:El; [contradiction |].
  cbn [List.length Nat.eqb]. rewrite <- El in *.
  replace (S (List.length l')) with (List.length l) by (now rewrite El).
  destruct (sum_of_equal_ratings k l 0 Hall) as (s & Hs & Heq).
  rewrite Hs.
  assert (Hn : 0 < inject_Z (Z.of_nat (List.length l))).
  { change 0 with (inject_Z 0). rewrite <- Zlt_Qlt. rewrite El. cbn. lia. }
  assert (Hnz : JsNum.Qis0 (inject_Z (Z.of_nat (List.length l))) = false).
  { unfold JsNum.Qis0. apply not_true_is_false. intros H.
    apply Qeq_bool_eq in H. lra. }
  unfold of_nat. cbn [JsNum.div]. rewrite Hnz.
  cbn [JsNum.mul JsNum.round JsNum.div].
  change (JsNum.Qis0 10) with false. cbn match.
  eexists. split; [reflexivity |].
  assert (Hmean : s / inject_Z (Z.of_nat (List.length l)) == inject_Z k).
  { rewrite Heq. field. lra. }
  rewrite (floor_of_half_more (k * 10)).
  - rewrite inject_Z_mult. change (inject_Z 10) with 10. field.
  - rewrite Hmean, inject_Z_mult. reflexivity.
Qed.

Lemma calculateAverageRating_uniform_witness :
  exists q : Q,
    calculateAverageRating
      [ {| courseSlug := "rocq"; rating := Fin 4 |};
        {| courseSlug := "lean"; rating := Fin 1 |};
        {| courseSlug := "rocq"; rating := Fin 4 |} ] "rocq" = Some (Fin q)
    /\ q == 4.
Proof.
  apply (calculateAverageRating_uniform _ "rocq" 4).
  - discriminate.
  - lia.
  - intros t [<- | [<- | []]]; exists 4; split; reflexivity.
Defined.

End TestimonialFacts.

(** ** The build hook *)

Module BuildHookFacts.

Import ContentValidator FsSpec ReportSpec BuildHook.
Local Open Scope list_scope.

Section Hook.

Variable yaml_load : string -> outcome jsval.
Variables resumeFileSchema testimonialsFileSchema repositoriesFileSchema
          publicationsFileSchema productSchema : Zod.ZodSchema jsval.





End Hook.


End BuildHookFacts.

(** ** Listing a directory by extension *)

Module ListingFacts.

Import ContentValidator FsSpec ProductFilesSpec.
Local Open Scope list_scope.

Lemma lower_char_twice (c : ascii) : lower_char (lower_char c) = lower_char c.
Proof.
  destruct c as [[] [] [] [] [] [] [] []]; reflexivity.
Qed.

Lemma toLowerCase_twice (s : string) :
  toLowerCase (toLowerCase s) = toLowerCase s.
Proof.
  induction s as [|c s IH]; [reflexivity |].
  cbn [toLowerCase]. now rewrite lower_char_twice, IH.
Qed.

Lemma existsb_eqb_In (x : string) (l : list string) :
  existsb (String.eqb x) l = true <-> In x l.
Proof.
  rewrite existsb_exists. split.
  - intros (y & Hy & Heq). apply String.eqb_eq in Heq. now subst.
  - intros H. exists x. split; [exact H | apply String.eqb_refl].
Qed.

Lemma has_extension_In (extensions : list string) (n : string) :
  has_extension extensions n = true
  <-> In (toLowerCase (NodePath.extname n)) extensions.
Proof.
  unfold has_extension.
  destruct (in_dec String.string_dec _ extensions) as [Hin | Hout].
  - split; [now intros _ | reflexivity].
  - split; [discriminate | contradiction].
Qed.

Lemma has_extension_existsb (extensions : list string) (n : string) :
  existsb (String.eqb (toLowerCase (NodePath.extname n))) extensions
  = has_extension extensions n.
Proof.
  apply eq_true_iff_eq. now rewrite existsb_eqb_In, has_extension_In.
Qed.

(** X24: [getFilesInDirectory] of a directory returns the paths of the
    regular files directly inside it whose lower-cased extension is in
    the list, in the order of the directory; it does not descend into
    subdirectories. An extension of the list that has an upper-case
    letter matches no file. A missing directory gives the empty list, and
    a path that is no directory makes it throw. *)
Theorem getFilesInDirectory_lists (fs : Fs.node) (dir : NodePath.path)
    (extensions : list string) :
  (forall entries,
      Fs.resolve fs dir = Some (Fs.Dir entries) ->
      getFilesInDirectory fs dir extensions
      = Ok (files_kept dir (has_extension extensions) entries)
      /\ (forall f,
             In f (files_kept dir (has_extension extensions) entries)
             <-> exists name sz mt content,
                   In (name, Fs.File sz mt content) entries
                   /\ In (toLowerCase (NodePath.extname name)) extensions
                   /\ f = NodePath.join dir [name])
      /\ ((forall e, In e extensions -> toLowerCase e <> e) ->
          files_kept dir (has_extension extensions) entries = nil))
  /\ (Fs.resolve fs dir = None -> getFilesInDirectory fs dir extensions = Ok nil)
  /\ (directory_or_missing fs dir = false ->
      exists message, getFilesInDirectory fs dir extensions = Throw message).
Proof.
  split; [| split].
  - intros entries Hdir. split; [| split].
    + unfold getFilesInDirectory, Fs.existsSync, Fs.readdirSync.
      rewrite Hdir. cbn [negb mbind outcome_bind]. unfold files_kept.
      f_equal. f_equal. apply filter_ext. intros e.
      now rewrite has_extension_existsb.
    + intros f. unfold files_kept. rewrite in_map_iff. split.
      * intros ([n c] & <- & He). apply filter_In in He as [He Hb].
        apply andb_prop in Hb as [Hfile Hext].
        apply has_extension_In in Hext.
        unfold Fs.isFile in Hfile. cbn [Fs.name fst snd] in *.
        destruct c as [sz mt content | |]; try discriminate.
        now exists n, sz, mt, content.
      * intros (n & sz & mt & content & He & Hext & ->).
        exists (n, Fs.File sz mt content). split; [reflexivity |].
        apply filter_In. split; [exact He |].
        cbn [Fs.isFile Fs.name fst snd andb]. now apply has_extension_In.
    + intros Hupper. unfold files_kept.
      rewrite (TestimonialFacts.filter_none _ entries); [reflexivity |].
      intros e _. apply andb_false_intro2. apply not_true_is_false.
      intros Hext. apply has_extension_In in Hext.
      apply (Hupper _ Hext). apply toLowerCase_twice.
  - intros Hnone. unfold getFilesInDirectory, Fs.existsSync.
    now rewrite Hnone.
  - unfold directory_or_missing, getFilesInDirectory, Fs.existsSync,
      Fs.readdirSync.
    destruct (Fs.resolve fs dir) as [[| es |]|]; intros H; try discriminate;
      cbn [negb mbind outcome_bind]; eexists; reflexivity.
Qed.

Lemma getFilesInDirectory_lists_witness :
  getFilesInDirectory Samples.sample_site ["src"; "data"; "products"]%string
    [".mdx"; ".md"]%string
  = Ok [ ["src"; "data"; "products"; "course.md"];
         ["src"; "data"; "products"; "loose.md"];
         ["src"; "data"; "products"; "empty.mdx"];
         ["src"; "data"; "products"; "bare.md"] ]%string
  /\ exists message,
       getFilesInDirectory Samples.sample_site
         ["src"; "data"; "resume.yaml"]%string [".md"]%string = Throw message.
Proof.
  split.
  - destruct (proj1 (getFilesInDirectory_lists Samples.sample_site
                       ["src"; "data"; "products"]%string
                       [".mdx"; ".md"]%string) _ eq_refl)
      as (Hfiles & _).
    rewrite Hfiles. reflexivity.
  - apply (proj2 (proj2 (getFilesInDirectory_lists Samples.sample_site
                           ["src"; "data"; "resume.yaml"]%string
                           [".md"]%string))).
    reflexivity.
Defined.

Section Edges.

Variable yaml_load : string -> outcome jsval.
Variables resumeFileSchema testimonialsFileSchema repositoriesFileSchema
          publicationsFileSchema productSchema : Zod.ZodSchema jsval.

(** X25: [validateAllContent] succeeds on a project without content:
    when the data directory and the products directory are missing, the
    report has no result, zero counts and [success] true. And it throws,
    instead of returning a report, when the products path is something
    else than a directory. *)
Theorem validateAllContent_without_content (fs : Fs.node) (now : string)
    (basePath : NodePath.path) :
  (Fs.resolve fs (NodePath.join basePath ["src"; "data"]%string) = None ->
   validateAllContent yaml_load resumeFileSchema testimonialsFileSchema
     repositoriesFileSchema publicationsFileSchema productSchema
     fs now basePath
   = Ok {| success := true;
           timestamp := now;
           results := nil;
           summary := {| total := 0; valid_count := 0; invalid_count := 0 |} |})
  /\ (directory_or_missing fs
        (NodePath.join basePath ["src"; "data"; "products"]%string) = false ->
      exists message,
        validateAllContent yaml_load resumeFileSchema testimonialsFileSchema
          repositoriesFileSchema publicationsFileSchema productSchema
          fs now basePath = Throw message).
Proof.
  split.
  - intros Hdata.
    assert (Hnone : forall rest,
               rest <> nil ->
               Fs.resolve fs
                 (NodePath.join basePath ("src" :: "data" :: rest)%string)
               = None).
    { intros rest Hrest. unfold NodePath.join in *.
      change ("src" :: "data" :: rest)%string
        with (["src"; "data"]%string ++ rest).
      now rewrite app_assoc, FsFacts.resolve_app, Hdata. }
    unfold validateAllContent, yamlValidations, getFilesInDirectory,
      Fs.existsSync.
    cbn [validate_yaml_files]. unfold Fs.existsSync.
    rewrite !Hnone by discriminate.
    cbn [negb mbind outcome_bind validate_product_files]. reflexivity.
  - unfold directory_or_missing, validateAllContent, getFilesInDirectory,
      Fs.existsSync, Fs.readdirSync.
    destruct (Fs.resolve fs _) as [[| es |]|]; intros H; try discriminate;
      cbn [negb mbind outcome_bind]; eexists; reflexivity.
Qed.

End Edges.

Lemma validateAllContent_without_content_witness :
  validateAllContent Samples.sample_yaml_load Samples.title_schema
    Samples.title_schema Samples.title_schema Samples.title_schema
    Samples.title_schema Samples.sample_build "2024-01-01T00:00:00.000Z" nil
  = Ok {| success := true;
          timestamp := "2024-01-01T00:00:00.000Z";
          results := nil;
          summary := {| total := 0; valid_count := 0; invalid_count := 0 |} |}.
Proof.
  apply (proj1 (validateAllContent_without_content Samples.sample_yaml_load
                  Samples.title_schema Samples.title_schema
                  Samples.title_schema Samples.title_schema
                  Samples.title_schema Samples.sample_build
                  "2024-01-01T00:00:00.000Z" nil)).
  reflexivity.
Defined.

End ListingFacts.
